(** * BluetoothEventLoop: the watch set, the control channel and the bus callbacks

    A shallow embedding of [core/jni/android_server_BluetoothEventLoop.cpp].
    C buffers are lists whose length is the allocated capacity; an access
    outside the allocation is undefined behaviour and is modelled by [None].
    The outcome of everything the file does not decide itself (allocation,
    the bus daemon's answers, the Java callbacks' return values) is an
    explicit input.  What a function does to the outside world is returned
    as a list of [action]s, in program order. *)

From Stdlib Require Import ZArith String Ascii Lia.
From stdpp Require Import base option list strings gmap.

Local Open Scope Z_scope.

(** ** Constants of the system headers *)

(** <poll.h> *)
Definition POLLIN : Z := 1.
Definition POLLOUT : Z := 4.

(** <dbus/dbus-connection.h>, [DBusWatchFlags] *)
Definition DBUS_WATCH_READABLE : Z := 1.
Definition DBUS_WATCH_WRITABLE : Z := 2.
Definition DBUS_WATCH_ERROR : Z := 4.

(** Control codes of the event loop (lines 356-358). *)
Definition EVENT_LOOP_EXIT : Z := 1.
Definition EVENT_LOOP_ADD : Z := 2.
Definition EVENT_LOOP_REMOVE : Z := 3.

(** ** Data *)

(** [struct pollfd] *)
Record pollfd := mk_pollfd { fd : Z; events : Z; revents : Z }.

(** A [DBusWatch *] is an address; the library's accessors read the object
    behind it. *)
Record DBusWatch := mk_watch {
  watch_addr : Z;
  dbus_watch_get_fd : Z;
  dbus_watch_get_flags : Z;
  dbus_watch_get_enabled : bool
}.

(** One [write] on the control socket: the object written, with its C type. *)
Inductive ctl_field :=
| CtlChar (c : Z)
| CtlInt (i : Z)
| CtlUInt (u : Z)
| CtlPtr (p : Z).

Inductive log_level := LOGV | LOGI | LOGW | LOGE.

(** [malloc]: failure, or a fresh block whose cells hold arbitrary values. *)
Inductive malloc_result (A : Type) :=
| OutOfMemory
| Block (cells : nat -> A).
Arguments OutOfMemory {A}.
Arguments Block {A} cells.

Definition malloc {A} (n : nat) (r : malloc_result A) : option (list A) :=
  match r with
  | OutOfMemory => None
  | Block cells => Some (cells <$> seq 0 n)
  end.

(** [memcpy(dst, src, n * sizeof *src)] *)
Definition memcpy {A} (dst src : list A) (n : nat) : option (list A) :=
  if decide (n ≤ length src ∧ n ≤ length dst)%nat
  then Some (take n src ++ drop n dst)
  else None.

(** [buf[i] = x] *)
Definition store {A} (buf : list A) (i : nat) (x : A) : option (list A) :=
  if decide (i < length buf)%nat then Some (<[i:=x]> buf) else None.

(** *** The message bus *)

(** The wire types this file never asks for. *)
Inductive other_type :=
| TByte | TInt16 | TUInt16 | TUInt32 | TInt64 | TUInt64 | TDouble
| TSignature | TArray | TVariant | TStruct | TDictEntry.

(** One argument of a message, with its wire type. *)
Inductive DBusArg :=
| ArgString (s : string)
| ArgObjectPath (s : string)
| ArgInt32 (i : Z)
| ArgBoolean (b : bool)
| ArgOther (t : other_type).

(** <dbus/dbus-protocol.h>: a type code is the ASCII code of the type's
    letter in a signature ('s', 'o', 'i', 'b', ...). *)
Definition DBUS_TYPE_INVALID : Z := 0.
Definition DBUS_TYPE_STRING : Z := 115.
Definition DBUS_TYPE_OBJECT_PATH : Z := 111.
Definition DBUS_TYPE_INT32 : Z := 105.
Definition DBUS_TYPE_BOOLEAN : Z := 98.

Definition other_type_code (t : other_type) : Z :=
  match t with
  | TByte => 121 | TInt16 => 110 | TUInt16 => 113 | TUInt32 => 117
  | TInt64 => 120 | TUInt64 => 116 | TDouble => 100 | TSignature => 103
  | TArray => 97 | TVariant => 118 | TStruct => 114 | TDictEntry => 101
  end.

Definition DBUS_MESSAGE_TYPE_METHOD_CALL : Z := 1.
Definition DBUS_MESSAGE_TYPE_METHOD_RETURN : Z := 2.
Definition DBUS_MESSAGE_TYPE_ERROR : Z := 3.
Definition DBUS_MESSAGE_TYPE_SIGNAL : Z := 4.

(** An inbound message.  The header fields each kind of message must carry
    are constructor arguments; a method call may omit its interface. *)
Inductive DBusMessage :=
| MethodCall (path : string) (interface : option string) (member : string)
    (args : list DBusArg)
| MethodReturn (args : list DBusArg)
| ErrorMessage (error_name : string) (args : list DBusArg)
| Signal (path : string) (interface : string) (member : string)
    (args : list DBusArg).

(** A message this file builds and sends. *)
Inductive outgoing :=
| NewMethodCall (destination path interface method : string)
    (args : list DBusArg)
| NewMethodReturn (reply_to : DBusMessage)
| NewError (reply_to : DBusMessage) (error_name error_message : string).

Inductive DBusHandlerResult :=
| DBUS_HANDLER_RESULT_HANDLED
| DBUS_HANDLER_RESULT_NOT_YET_HANDLED
| DBUS_HANDLER_RESULT_NEED_MEMORY.

Record DBusError := mk_error { name : string; message : string }.

(** *** The Java side *)

(** A method of the Java object, as [GetMethodID] names it. *)
Record jmethod := mk_method { method_name : string; signature : string }.

#[global] Instance jmethod_eq_dec : EqDecision jmethod.
Proof. solve_decision. Defined.

(** A [jmethodID]; NULL is [None]. *)
Definition jmethodID := option jmethod.

(** The Java class: the methods it declares. *)
Abbreviation jclass := (list jmethod).

Inductive jvalue :=
| JString (s : string)
| JInt (i : Z)
| JStringArray (a : list string)
| JMessage (m : DBusMessage).

(** A heap block holding a C string, as [malloc] returned it. *)
Record heap_string := mk_heap_string { block : Z; chars : string }.

(** *** What a function does to the outside world *)

Inductive action :=
| ALog (lvl : log_level) (text : string)
| AWrite (sock : Z) (data : ctl_field)
| ACallMethod (obj : option Z) (m : jmethod) (args : list jvalue)
| ASend (connection : option Z) (m : outgoing)
| ASendWithReplyAndBlock (connection : option Z) (m : outgoing)
| AMessageRef (m : DBusMessage)
| AFree (p : Z)
| AFreePollData
| AFreeWatchData
| AMutexLock
| AMutexUnlock
| AShutdown (sock : Z)
| ANewGlobalRef
| ADeleteGlobalRef (ref : Z)
| AAddFilter (connection : option Z)
| AAddMatch (connection : option Z) (rule : string)
| ARegisterObjectPath (connection : option Z) (path : string)
| AUnregisterObjectPath (connection : option Z) (path : string)
| AFlush (connection : option Z)
| APthreadCreate.

(** The part of [event_loop_native_data_t] that the event loop uses.  A NULL
    buffer pointer is [None]. *)
Record native_data_t := mk_nat {
  conn : option Z;
  adapter : option string;
  me : option Z;
  thread : option Z;
  pollData : option (list pollfd);
  watchData : option (list Z);
  pollDataSize : nat;
  pollMemberCount : nat;
  controlFdR : Z;
  controlFdW : Z
}.

Definition with_poll (nd : native_data_t) (pd : option (list pollfd))
    (wd : option (list Z)) (size count : nat) : native_data_t :=
  {| conn := conn nd; adapter := adapter nd; me := me nd;
     thread := thread nd;
     pollData := pd; watchData := wd;
     pollDataSize := size; pollMemberCount := count;
     controlFdR := controlFdR nd; controlFdW := controlFdW nd |}.

(** ** The bus library's accessors, as its documentation gives them *)

Definition dbus_message_get_type (msg : DBusMessage) : Z :=
  match msg with
  | MethodCall _ _ _ _ => DBUS_MESSAGE_TYPE_METHOD_CALL
  | MethodReturn _ => DBUS_MESSAGE_TYPE_METHOD_RETURN
  | ErrorMessage _ _ => DBUS_MESSAGE_TYPE_ERROR
  | Signal _ _ _ _ => DBUS_MESSAGE_TYPE_SIGNAL
  end.

Definition dbus_message_get_path (msg : DBusMessage) : option string :=
  match msg with
  | MethodCall p _ _ _ | Signal p _ _ _ => Some p
  | _ => None
  end.

Definition message_args (msg : DBusMessage) : list DBusArg :=
  match msg with
  | MethodCall _ _ _ a | MethodReturn a | ErrorMessage _ a | Signal _ _ _ a => a
  end.

(** The kind matches, the member is equal, and the interface is equal or
    absent. *)
Definition dbus_message_is_method_call (msg : DBusMessage)
    (interface method : string) : bool :=
  match msg with
  | MethodCall _ i m _ =>
      String.eqb m method &&
      match i with None => true | Some i => String.eqb i interface end
  | _ => false
  end.

Definition dbus_message_is_signal (msg : DBusMessage)
    (interface signal_name : string) : bool :=
  match msg with
  | Signal _ i m _ => String.eqb m signal_name && String.eqb i interface
  | _ => false
  end.

Definition arg_type (a : DBusArg) : Z :=
  match a with
  | ArgString _ => DBUS_TYPE_STRING
  | ArgObjectPath _ => DBUS_TYPE_OBJECT_PATH
  | ArgInt32 _ => DBUS_TYPE_INT32
  | ArgBoolean _ => DBUS_TYPE_BOOLEAN
  | ArgOther t => other_type_code t
  end.

(** [dbus_message_get_args(msg, err, t1, &v1, ..., DBUS_TYPE_INVALID)]: the
    arguments are read in order into the given locations while their types
    are the requested ones; arguments beyond the requested ones are ignored.
    The result is the values written and whether the call succeeded. *)
Fixpoint dbus_message_get_args (args : list DBusArg) (types : list Z)
    {struct types} : list DBusArg * bool :=
  match types with
  | [] => ([], true)
  | t :: types' =>
      match args with
      | a :: args' =>
          if arg_type a =? t then
            let (written, ok) := dbus_message_get_args args' types' in
            (a :: written, ok)
          else ([], false)
      | [] => ([], false)
      end
  end.

(** The string behind a [char *] that [dbus_message_iter_get_basic] or
    [dbus_message_get_args] stored; an argument of another type leaves no
    string there. *)
Definition c_string (a : DBusArg) : option string :=
  match a with
  | ArgString s | ArgObjectPath s => Some s
  | _ => None
  end.

(** [strcmp(a, b) == 0] *)
Definition strcmp_eq (a b : string) : bool := String.eqb a b.

(** [strncmp(a, b, n) == 0] on strings without an inner NUL. *)
Fixpoint strncmp_eq (a b : string) (n : nat) : bool :=
  match n with
  | O => true
  | S n' =>
      match a, b with
      | EmptyString, EmptyString => true
      | String x a', String y b' => Ascii.eqb x y && strncmp_eq a' b' n'
      | _, _ => false
      end
  end.

Definition strlen (s : string) : nat := String.length s.

(** ** Method ids (lines 40-54 and 68-95) *)

(** The file's static [jmethodID]s. *)
Record method_ids := mk_ids {
  method_onPropertyChanged : jmethodID;
  method_onDevicePropertyChanged : jmethodID;
  method_onDeviceFound : jmethodID;
  method_onDeviceDisappeared : jmethodID;
  method_onDeviceCreated : jmethodID;
  method_onDeviceRemoved : jmethodID;
  method_onCreatePairedDeviceResult : jmethodID;
  method_onGetDeviceServiceChannelResult : jmethodID;
  method_onRequestPinCode : jmethodID;
  method_onAgentAuthorize : jmethodID;
  method_onAgentCancel : jmethodID
}.

(** [env->GetMethodID(clazz, name, sig)]: NULL when the class declares no
    such method. *)
Definition GetMethodID (clazz : jclass) (name sig : string) : jmethodID :=
  if bool_decide (mk_method name sig ∈ clazz)
  then Some (mk_method name sig) else None.

(** [classInitNative]: the statics it assigns; the one it does not assign
    keeps the zero a static starts with. *)
Definition classInitNative (clazz : jclass) : method_ids :=
  {| method_onPropertyChanged :=
       GetMethodID clazz "onPropertyChanged" "([Ljava/lang/String;)V";
     method_onDevicePropertyChanged :=
       GetMethodID clazz "onDevicePropertyChanged"
         "(Ljava/lang/String;[Ljava/lang/String;)V";
     method_onDeviceFound :=
       GetMethodID clazz "onDeviceFound"
         "(Ljava/lang/String;[Ljava/lang/String;)V";
     method_onDeviceDisappeared :=
       GetMethodID clazz "onDeviceDisappeared" "(Ljava/lang/String;)V";
     method_onDeviceCreated :=
       GetMethodID clazz "onDeviceCreated" "(Ljava/lang/String;)V";
     method_onDeviceRemoved :=
       GetMethodID clazz "onDeviceRemoved" "(Ljava/lang/String;)V";
     method_onCreatePairedDeviceResult :=
       GetMethodID clazz "onCreatePairedDeviceResult" "(Ljava/lang/String;I)V";
     method_onGetDeviceServiceChannelResult := None;
     method_onRequestPinCode :=
       GetMethodID clazz "onRequestPinCode" "(Ljava/lang/String;I)V";
     method_onAgentAuthorize :=
       GetMethodID clazz "onAgentAuthorize"
         "(Ljava/lang/String;Ljava/lang/String;)Z";
     method_onAgentCancel := GetMethodID clazz "onAgentCancel" "()V" |}.

(** [env->Call...Method(obj, id, args)]; a NULL method id is outside what
    JNI defines. *)
Definition CallMethod (obj : option Z) (id : jmethodID) (args : list jvalue)
    : option (list action) :=
  m ← id; Some [ACallMethod obj m args].

(** ** Watch hooks (lines 360-401) *)


Definition dbusAddWatch (watch : DBusWatch) (nd : native_data_t)
    : bool * list action :=
  if dbus_watch_get_enabled watch then
    (true,
     [ AWrite (controlFdW nd) (CtlChar EVENT_LOOP_ADD);
       AWrite (controlFdW nd) (CtlInt (dbus_watch_get_fd watch));
       AWrite (controlFdW nd) (CtlUInt (dbus_watch_get_flags watch));
       AWrite (controlFdW nd) (CtlPtr (watch_addr watch)) ])
  else (true, []).

Definition dbusRemoveWatch (watch : DBusWatch) (nd : native_data_t)
    : list action :=
  [ AWrite (controlFdW nd) (CtlChar EVENT_LOOP_REMOVE);
    AWrite (controlFdW nd) (CtlInt (dbus_watch_get_fd watch));
    AWrite (controlFdW nd) (CtlUInt (dbus_watch_get_flags watch)) ].

Definition dbusToggleWatch (watch : DBusWatch) (nd : native_data_t)
    : list action :=
  if dbus_watch_get_enabled watch
  then snd (dbusAddWatch watch nd)
  else dbusRemoveWatch watch nd.

(** ** The watch set (lines 403-472) *)

(** [(flags & DBUS_WATCH_READABLE ? POLLIN : 0) |
     (flags & DBUS_WATCH_WRITABLE ? POLLOUT : 0)] *)
Definition poll_events (flags : Z) : Z :=
  Z.lor (if Z.land flags DBUS_WATCH_READABLE =? 0 then 0 else POLLIN)
        (if Z.land flags DBUS_WATCH_WRITABLE =? 0 then 0 else POLLOUT).

Definition same_watch (e : pollfd) (wfd wevents : Z) : bool :=
  (fd e =? wfd) && (events e =? wevents).

(** The search loop shared by both handlers:
    [for (y = ...; y < pollMemberCount; y++) if (fd and events match) ...].
    [n] counts the iterations left.  The outer [None] is a read outside the
    buffer; [Some None] is a loop that ran to its end. *)
Fixpoint find_watch (pd : list pollfd) (wfd wevents : Z) (y n : nat)
    : option (option nat) :=
  match n with
  | O => Some None
  | S n' =>
      e ← pd !! y;
      if same_watch e wfd wevents then Some (Some y)
      else find_watch pd wfd wevents (S y) n'
  end.

(** A buffer pointer as the block it points to; NULL points to no cell. *)
Definition cells {A} (p : option (list A)) : list A := default [] p.

(** [free(p)] of one of the two buffers: the block is freed, which a trace
    records as [freed]; [free(NULL)] does nothing. *)
Definition free {A} (p : option (list A)) (freed : action) : list action :=
  match p with
  | Some _ => [freed]
  | None => []
  end.

(** [handleWatchAdd]; [newFD], [flags] and [watch] are the three values read
    from the control socket, [temp] and [temp2] the outcomes of the two
    [malloc] calls of the growth path. *)
Definition handleWatchAdd (nd : native_data_t) (newFD flags watch : Z)
    (temp : malloc_result pollfd) (temp2 : malloc_result Z)
    : option (native_data_t * list action) :=
  let events := poll_events flags in
  let count := pollMemberCount nd in
  found ← find_watch (cells (pollData nd)) newFD events 0 count;
  match found with
  | Some _ => Some (nd, [ALog LOGV "DBusWatch duplicate add"])
  | None =>
      let add (nd : native_data_t) (log : list action) :=
        pd' ← store (cells (pollData nd)) count (mk_pollfd newFD events 0);
        wd' ← store (cells (watchData nd)) count watch;
        Some (with_poll nd (Some pd') (Some wd') (pollDataSize nd) (S count),
              log) in
      if decide (count = pollDataSize nd) then
        let log := [ALog LOGV "Bluetooth EventLoop poll struct growing"] in
        match malloc (count + 1) temp with
        | None => Some (nd, log)
        | Some t =>
            t ← memcpy t (cells (pollData nd)) count;
            let log := log ++ free (pollData nd) AFreePollData in
            let nd := with_poll nd (Some t) (watchData nd)
                        (pollDataSize nd) count in
            match malloc (count + 1) temp2 with
            | None => Some (nd, log)
            | Some t2 =>
                t2 ← memcpy t2 (cells (watchData nd)) count;
                let log := log ++ free (watchData nd) AFreeWatchData in
                let nd := with_poll nd (pollData nd) (Some t2)
                            (S (pollDataSize nd)) count in
                add nd log
            end
        end
      else add nd []
  end.

(** [handleWatchRemove]; [removeFD] and [flags] are the two values read from
    the control socket. *)
Definition handleWatchRemove (nd : native_data_t) (removeFD flags : Z)
    : option (native_data_t * list action) :=
  let events := poll_events flags in
  let pd := cells (pollData nd) in
  let wd := cells (watchData nd) in
  found ← find_watch pd removeFD events 0 (pollMemberCount nd);
  match found with
  | Some y =>
      let newCount := pred (pollMemberCount nd) in
      last ← pd !! newCount;
      pd' ← store pd y last;
      lastw ← wd !! newCount;
      wd' ← store wd y lastw;
      Some (with_poll nd (Some pd') (Some wd') (pollDataSize nd) newCount, [])
  | None => Some (nd, [ALog LOGW "WatchRemove given with unknown watch"])
  end.

(** ** What the watch set holds *)

(** The live prefix of [pollData]. *)
Definition live (nd : native_data_t) : list pollfd :=
  take (pollMemberCount nd) (cells (pollData nd)).

(** The live prefix of [watchData]. *)
Definition live_watches (nd : native_data_t) : list Z :=
  take (pollMemberCount nd) (cells (watchData nd)).

(** The (descriptor, events) pair an entry is looked up by. *)
Definition key (e : pollfd) : Z * Z := (fd e, events e).

(** The stored entries: [pollData[y]] together with [watchData[y]]. *)
Definition entries (nd : native_data_t) : list (pollfd * Z) :=
  zip (live nd) (live_watches nd).

(** The buffers are allocated and large enough for what the counters say. *)
Definition wf (nd : native_data_t) : Prop :=
  (pollMemberCount nd ≤ pollDataSize nd)%nat ∧
  (pollDataSize nd ≤ length (cells (pollData nd)))%nat ∧
  (pollDataSize nd ≤ length (cells (watchData nd)))%nat.

(** No two live entries share descriptor and events. *)
Definition no_duplicate_watch (nd : native_data_t) : Prop :=
  NoDup (key <$> live nd).

(** A (descriptor, flags) request is present when a live entry has the
    descriptor and the events the flags translate to. *)
Definition present (nd : native_data_t) (wfd flags : Z) : Prop :=
  (wfd, poll_events flags) ∈ key <$> live nd.

#[global] Instance wf_dec (nd : native_data_t) : Decision (wf nd).
Proof. unfold wf. apply _. Defined.

#[global] Instance no_duplicate_watch_dec (nd : native_data_t) :
  Decision (no_duplicate_watch nd).
Proof. unfold no_duplicate_watch. apply _. Defined.

#[global] Instance present_dec (nd : native_data_t) (wfd flags : Z) :
  Decision (present nd wfd flags).
Proof. unfold present. apply _. Defined.

(** One request taken from the control socket by the worker's
    [switch (data)]: the code byte was [EVENT_LOOP_ADD] or
    [EVENT_LOOP_REMOVE], and the handler read the fields that follow. *)
Inductive ControlMessage :=
| AddWatch (newFD flags watch : Z)
    (temp : malloc_result pollfd) (temp2 : malloc_result Z)
| RemoveWatch (removeFD flags : Z).

Definition handleControl (nd : native_data_t) (m : ControlMessage)
    : option (native_data_t * list action) :=
  match m with
  | AddWatch newFD flags watch temp temp2 =>
      handleWatchAdd nd newFD flags watch temp temp2
  | RemoveWatch removeFD flags => handleWatchRemove nd removeFD flags
  end.

(** The requests of a drained control socket, applied in order. *)
Fixpoint handleControls (nd : native_data_t) (ms : list ControlMessage)
    : option (native_data_t * list action) :=
  match ms with
  | [] => Some (nd, [])
  | m :: ms' =>
      '(nd1, t1) ← handleControl nd m;
      '(nd2, t2) ← handleControls nd1 ms';
      Some (nd2, t1 ++ t2)
  end.

(** ** What a trace shows *)

Definition calls (t : list action) : list (jmethod * list jvalue) :=
  omap (λ a, match a with ACallMethod _ m args => Some (m, args) | _ => None end) t.

Definition sends (t : list action) : list (option Z * outgoing) :=
  omap (λ a, match a with ASend c m => Some (c, m) | _ => None end) t.

Definition frees (t : list action) : list Z :=
  omap (λ a, match a with AFree p => Some p | _ => None end) t.

Definition blocking_calls (t : list action) : list outgoing :=
  omap (λ a, match a with ASendWithReplyAndBlock _ m => Some m | _ => None end) t.

(** ** What the process cannot decide itself *)

(** [pthread_create(&(nat->thread), ...)]: the new thread's id is stored, or
    no thread is created and the location holds whatever the call left
    there. *)
Inductive thread_result :=
| ThreadCreated (id : Z)
| NoThread (stored : option Z).

Definition stored_thread (r : thread_result) : option Z :=
  match r with
  | ThreadCreated id => Some id
  | NoThread stored => stored
  end.

Record world := mk_world {
  (** does the bus library get the memory for this message? *)
  dbus_message_new : outgoing -> bool;
  (** the daemon's reply to a blocking call; [None] is NULL with the error
      set (the library turns an error reply into that) *)
  dbus_connection_send_with_reply_and_block : outgoing -> option DBusMessage;
  (** what the Java method [onAgentAuthorize] answers *)
  onAgentAuthorize : string -> string -> bool;
  (** the two buffers [startEventLoopNative] asks for *)
  malloc_pollData : malloc_result pollfd;
  malloc_watchData : malloc_result Z;
  (** the two sockets, or failure *)
  socketpair : option (Z * Z);
  NewGlobalRef : option Z;
  dbus_connection_add_filter : bool;
  (** [true] when the rule was added without an error *)
  dbus_bus_add_match : string -> bool;
  dbus_connection_register_object_path : bool;
  (** the code does not look at the result of [pthread_create] *)
  pthread_create : thread_result
}.

Definition with_adapter (nd : native_data_t) (a : option string)
    : native_data_t :=
  {| conn := conn nd; adapter := a; me := me nd; thread := thread nd;
     pollData := pollData nd; watchData := watchData nd;
     pollDataSize := pollDataSize nd; pollMemberCount := pollMemberCount nd;
     controlFdR := controlFdR nd; controlFdW := controlFdW nd |}.

(** Result codes (lines 886-892). *)
Definition BOND_RESULT_ERROR : Z := -1000.
Definition BOND_RESULT_SUCCESS : Z := 0.
Definition BOND_RESULT_AUTH_FAILED : Z := 1.
Definition BOND_RESULT_AUTH_REJECTED : Z := 2.
Definition BOND_RESULT_AUTH_CANCELED : Z := 3.
Definition BOND_RESULT_REMOTE_DEVICE_DOWN : Z := 4.
Definition BOND_RESULT_DISCOVERY_IN_PROGRESS : Z := 5.

(** ** Sample data *)

(** The Java class with every callback this file names. *)
Definition BluetoothEventLoop_class : jclass :=
  [ mk_method "onPropertyChanged" "([Ljava/lang/String;)V";
    mk_method "onDevicePropertyChanged" "(Ljava/lang/String;[Ljava/lang/String;)V";
    mk_method "onDeviceFound" "(Ljava/lang/String;[Ljava/lang/String;)V";
    mk_method "onDeviceDisappeared" "(Ljava/lang/String;)V";
    mk_method "onDeviceCreated" "(Ljava/lang/String;)V";
    mk_method "onDeviceRemoved" "(Ljava/lang/String;)V";
    mk_method "onCreatePairedDeviceResult" "(Ljava/lang/String;I)V";
    mk_method "onGetDeviceServiceChannelResult" "(Ljava/lang/String;I)V";
    mk_method "onRequestPinCode" "(Ljava/lang/String;I)V";
    mk_method "onAgentAuthorize" "(Ljava/lang/String;Ljava/lang/String;)Z";
    mk_method "onAgentCancel" "()V" ].

(** Native data before the loop is started. *)
Definition idle_data : native_data_t :=
  {| conn := Some 1; adapter := None; me := None; thread := None;
     pollData := None; watchData := None;
     pollDataSize := 0; pollMemberCount := 0;
     controlFdR := 0; controlFdW := 0 |}.

(** A running loop whose two cells are both live: the control socket and
    one bus descriptor. *)
Definition two_watches : native_data_t :=
  {| conn := Some 1; adapter := Some "/org/bluez/hci0";
     me := Some 7; thread := Some 3;
     pollData := Some [mk_pollfd 40 POLLIN 0; mk_pollfd 41 POLLIN 0];
     watchData := Some [0; 9000];
     pollDataSize := 2; pollMemberCount := 2;
     controlFdR := 40; controlFdW := 42 |}.

(** A world in which every allocation succeeds, the daemon answers every
    blocking call with the given adapter path, and the application answers
    Authorize with [granted]. *)
Definition friendly_world (adapter_path : string) (granted : bool) : world :=
  {| dbus_message_new := λ _, true;
     dbus_connection_send_with_reply_and_block :=
       λ _, Some (MethodReturn [ArgObjectPath adapter_path]);
     onAgentAuthorize := λ _ _, granted;
     malloc_pollData := Block (λ _, mk_pollfd 0 0 0);
     malloc_watchData := Block (λ _, 0);
     socketpair := Some (40, 42);
     NewGlobalRef := Some 7;
     dbus_connection_add_filter := true;
     dbus_bus_add_match := λ _, true;
     dbus_connection_register_object_path := true;
     pthread_create := ThreadCreated 3 |}.

(** A world without memory for any bus message. *)
Definition starved_world : world :=
  {| dbus_message_new := λ _, false;
     dbus_connection_send_with_reply_and_block := λ _, None;
     onAgentAuthorize := λ _ _, true;
     malloc_pollData := OutOfMemory;
     malloc_watchData := OutOfMemory;
     socketpair := None;
     NewGlobalRef := None;
     dbus_connection_add_filter := true;
     dbus_bus_add_match := λ _, true;
     dbus_connection_register_object_path := true;
     pthread_create := NoThread None |}.

(** The friendly world, except that no thread can be created. *)
Definition threadless_world : world :=
  {| dbus_message_new := λ _, true;
     dbus_connection_send_with_reply_and_block :=
       λ _, Some (MethodReturn [ArgObjectPath "/org/bluez/hci0"]);
     onAgentAuthorize := λ _ _, true;
     malloc_pollData := Block (λ _, mk_pollfd 0 0 0);
     malloc_watchData := Block (λ _, 0);
     socketpair := Some (40, 42);
     NewGlobalRef := Some 7;
     dbus_connection_add_filter := true;
     dbus_bus_add_match := λ _, true;
     dbus_connection_register_object_path := true;
     pthread_create := NoThread None |}.

Definition sample_context : heap_string :=
  mk_heap_string 4096 "00:11:22:33:44:55".

(** ** The watch set as a set of pairs *)

(** The (descriptor, events) pairs of the live cells. *)
Definition keys (nd : native_data_t) : gset (Z * Z) :=
  list_to_set (key <$> live nd).

(** What a request means for a set of pairs: an add puts its pair in, a
    remove takes its pair out. *)
Definition implied (pairs : gset (Z * Z)) (m : ControlMessage) : gset (Z * Z) :=
  match m with
  | AddWatch newFD flags _ _ _ => pairs ∪ {[ (newFD, poll_events flags) ]}
  | RemoveWatch removeFD flags => pairs ∖ {[ (removeFD, poll_events flags) ]}
  end.

(** The allocations a request carries all succeed. *)
Definition allocates (m : ControlMessage) : Prop :=
  match m with
  | AddWatch _ _ _ (Block _) (Block _) => True
  | AddWatch _ _ _ _ _ => False
  | RemoveWatch _ _ => True
  end.

(** The adds among the requests. *)
Fixpoint adds (ms : list ControlMessage) : nat :=
  match ms with
  | [] => 0
  | AddWatch _ _ _ _ _ :: ms' => S (adds ms')
  | RemoveWatch _ _ :: ms' => adds ms'
  end.

(** ** The worker's side of the control socket, and stop (lines 285-353,
    474-536, 615-640) *)

(** What the worker and [stopEventLoopNative] do besides the [action]s
    above. *)
Inductive loop_action :=
| Did (a : action)
| ASetWatchFunctions (connection : option Z) (installed : bool)
| ARemoveMatch (connection : option Z) (rule : string)
| ARemoveFilter (connection : option Z)
| ADetachCurrentThread
| APthreadJoin (thread : option Z)
| AWatchHandle (watch : Z) (flags : Z)
| AMutexInit
| AMutexDestroy
| ASetNativeData
| AFreeNativeData
| ASetExitOnDisconnect (connection : option Z).

(** A call of one of the three watch functions by the bus library. *)
Inductive hook_call :=
| AddHook (watch : DBusWatch)
| RemoveHook (watch : DBusWatch)
| ToggleHook (watch : DBusWatch).

Definition call_hook (nd : native_data_t) (h : hook_call) : list action :=
  match h with
  | AddHook watch => snd (dbusAddWatch watch nd)
  | RemoveHook watch => dbusRemoveWatch watch nd
  | ToggleHook watch => dbusToggleWatch watch nd
  end.

(** What a trace wrote to a socket, in order. *)
Definition socket_data (sock : Z) (t : list action) : list ctl_field :=
  omap (λ a, match a with
             | AWrite s d => if s =? sock then Some d else None
             | _ => None
             end) t.

(** What a run of hook calls leaves in the control socket. *)
Definition hook_writes (nd : native_data_t) (hs : list hook_call)
    : list ctl_field :=
  socket_data (controlFdW nd) (hs ≫= call_hook nd).

(** The request a hook call stands for; [temp] and [temp2] are the
    allocations the worker will get when it handles an add. *)
Definition request (h : hook_call)
    (temps : malloc_result pollfd * malloc_result Z) : option ControlMessage :=
  let add watch :=
    AddWatch (dbus_watch_get_fd watch) (dbus_watch_get_flags watch)
      (watch_addr watch) temps.1 temps.2 in
  let remove watch :=
    RemoveWatch (dbus_watch_get_fd watch) (dbus_watch_get_flags watch) in
  match h with
  | AddHook watch =>
      if dbus_watch_get_enabled watch then Some (add watch) else None
  | RemoveHook watch => Some (remove watch)
  | ToggleHook watch =>
      Some (if dbus_watch_get_enabled watch then add watch else remove watch)
  end.

(** The requests of a run of hook calls; the [k]-th add handled by the
    worker gets the allocations [mallocs k]. *)
Fixpoint requests (hs : list hook_call)
    (mallocs : nat -> malloc_result pollfd * malloc_result Z) (k : nat)
    : list ControlMessage :=
  match hs with
  | [] => []
  | h :: hs' =>
      match request h (mallocs k) with
      | Some (AddWatch _ _ _ _ _ as m) => m :: requests hs' mallocs (S k)
      | Some m => m :: requests hs' mallocs k
      | None => requests hs' mallocs k
      end
  end.

(** [stopEventLoopNative]; [joined] is the native data as the worker left
    it when [pthread_join] returns.  [DeleteGlobalRef] of a NULL reference
    and [free] of a NULL pointer do nothing and are left out of the
    trace. *)
Definition stopEventLoopNative (nd joined : native_data_t)
    : native_data_t * list loop_action :=
  match pollData nd with
  | Some _ =>
      ({| conn := conn joined; adapter := adapter joined; me := None;
          thread := thread joined;
          pollData := None; watchData := None;
          pollDataSize := 0; pollMemberCount := 0;
          controlFdR := 0; controlFdW := 0 |},
       [Did AMutexLock;
        Did (AWrite (controlFdW nd) (CtlChar EVENT_LOOP_EXIT));
        APthreadJoin (thread nd)]
       ++ match me joined with
          | Some r => [Did (ADeleteGlobalRef r)]
          | None => []
          end
       ++ (Did <$> free (pollData joined) AFreePollData)
       ++ (Did <$> free (watchData joined) AFreeWatchData)
       ++ [Did (AShutdown (controlFdW joined)); Did AMutexUnlock])
  | None => (nd, [Did AMutexLock; Did AMutexUnlock])
  end.

(** The loop's fields hold NULL or 0, as initialisation leaves them.  This
    is about the fields alone; what was done with the blocks, the sockets
    and the reference they held is in the trace, see [releases]. *)
Definition reset (nd : native_data_t) : Prop :=
  pollData nd = None ∧ watchData nd = None ∧
  pollDataSize nd = 0%nat ∧ pollMemberCount nd = 0%nat ∧
  controlFdR nd = 0 ∧ controlFdW nd = 0 ∧ me nd = None.

(** The actions that give something back: a socket shut down, the global
    reference deleted, a buffer freed.  The file has no [close]. *)
Definition releasing (a : action) : bool :=
  match a with
  | AShutdown _ | ADeleteGlobalRef _ | AFreePollData | AFreeWatchData => true
  | _ => false
  end.

Definition releases (t : list action) : list action := List.filter releasing t.

(** What a start has obtained by the time it fails, given back in the order
    of the [done:] block: the write end of the socket pair shut down, the
    global reference deleted, the two buffers freed.  The buffers are
    obtained first, then the sockets, then the reference. *)
Definition start_releases (w : world) : list action :=
  match malloc_pollData w, malloc_watchData w, socketpair w with
  | OutOfMemory, _, _ => []
  | Block _, OutOfMemory, _ => [AFreePollData]
  | Block _, Block _, None => [AFreePollData; AFreeWatchData]
  | Block _, Block _, Some (r, wr) =>
      (if (wr =? 0) && (r =? 0) then [] else [AShutdown wr])
      ++ match NewGlobalRef w with
         | Some ref => [ADeleteGlobalRef ref]
         | None => []
         end
      ++ [AFreePollData; AFreeWatchData]
  end.

(** The [action]s among what the worker or stop did. *)
Definition done_actions (t : list loop_action) : list action :=
  omap (λ a, match a with Did a => Some a | _ => None end) t.

(** The match rules a trace asked the bus to add, and to remove. *)
Definition added_matches (t : list action) : list string :=
  omap (λ a, match a with AAddMatch _ rule => Some rule | _ => None end) t.

Definition removed_matches (t : list loop_action) : list string :=
  omap (λ a, match a with ARemoveMatch _ rule => Some rule | _ => None end) t.

(** The (interface, member) pairs of the signals [event_filter] handles
    itself. *)
Definition recognized : list (string * string) :=
  [ ("org.bluez.Adapter", "DeviceFound");
    ("org.bluez.Adapter", "DeviceDisappeared");
    ("org.bluez.Adapter", "DeviceCreated");
    ("org.bluez.Adapter", "DeviceRemoved");
    ("org.bluez.Adapter", "PropertyChanged");
    ("org.bluez.Device", "PropertyChanged") ].

(** The signals that carry one string, with the type [event_filter] asks
    for and the Java method it calls. *)
Definition one_string_signals : list (string * Z * jmethod) :=
  [ ("DeviceDisappeared", DBUS_TYPE_STRING,
     mk_method "onDeviceDisappeared" "(Ljava/lang/String;)V");
    ("DeviceCreated", DBUS_TYPE_OBJECT_PATH,
     mk_method "onDeviceCreated" "(Ljava/lang/String;)V");
    ("DeviceRemoved", DBUS_TYPE_OBJECT_PATH,
     mk_method "onDeviceRemoved" "(Ljava/lang/String;)V") ].

(** The members of the agent interface [agent_event_filter] answers. *)
Definition agent_methods : list string :=
  ["Cancel"; "Authorize"; "RequestPinCode"; "Release"].

(** ** Native data: creation and disposal (lines 97-137) *)

(** [initializeNativeDataNative]: [calloc_ok] is whether [calloc] succeeds,
    [dbus_bus_get] the system bus connection, NULL with the error set when
    the bus cannot be reached.  The result is the native data the Java
    field points to afterwards, [None] when the field was not set. *)
Definition initializeNativeDataNative (calloc_ok : bool)
    (dbus_bus_get : option Z) : option native_data_t * list loop_action :=
  if negb calloc_ok then (None, [Did (ALog LOGE "%s: out of memory!")])
  else
    (Some {| conn := dbus_bus_get; adapter := None; me := None;
             thread := None; pollData := None; watchData := None;
             pollDataSize := 0; pollMemberCount := 0;
             controlFdR := 0; controlFdW := 0 |},
     [AMutexInit; ASetNativeData]
     ++ match dbus_bus_get with
        | Some _ => []
        | None => [Did (ALog LOGE "%s: Could not get onto the system bus!")]
        end
     ++ [ASetExitOnDisconnect dbus_bus_get]).

(** [cleanupNativeDataNative]: the mutex inside the native data is
    destroyed before the pointer is tested, so a NULL pointer is used
    before the test can spare it. *)
Definition cleanupNativeDataNative (nat_ptr : option native_data_t)
    : option (list loop_action) :=
  match nat_ptr with
  | Some _ => Some [AMutexDestroy; AFreeNativeData]
  | None => None
  end.

(** The bus watches a trace handed to [dbus_watch_handle], with the flags
    passed. *)
Definition handled (t : list loop_action) : list (Z * Z) :=
  omap (λ a, match a with
             | AWatchHandle watch flags => Some (watch, flags)
             | _ => None
             end) t.

(** The [flags] local of [eventLoopMain] (lines 522-523): the poll events
    translated back to watch flags. *)
Definition watch_flags (event : Z) : Z :=
  Z.lor (if Z.land event POLLIN =? 0 then 0 else DBUS_WATCH_READABLE)
        (if Z.land event POLLOUT =? 0 then 0 else DBUS_WATCH_WRITABLE).

(** ** More sample data *)

(** The running loop of [two_watches] after a poll that found the bus
    descriptor, watched for writing, writable. *)
Definition writable_ready : native_data_t :=
  with_poll two_watches
    (Some [mk_pollfd 40 POLLIN 0; mk_pollfd 41 POLLOUT POLLOUT])
    (watchData two_watches) 2 2.

(** Two calls of the watch functions: a new enabled watch is added, the
    watch of [two_watches] is toggled off. *)
Definition sample_hooks : list hook_call :=
  [AddHook (mk_watch 9002 50 DBUS_WATCH_WRITABLE true);
   ToggleHook (mk_watch 9000 41 DBUS_WATCH_READABLE false)].

(** The worker gets every allocation it asks for. *)
Definition plentiful (k : nat) : malloc_result pollfd * malloc_result Z :=
  (Block (λ _, mk_pollfd 0 0 0), Block (λ _, 0)).

(** The requests of [sample_hooks], as the worker handles them. *)
Definition sample_requests : list ControlMessage :=
  [AddWatch 50 DBUS_WATCH_WRITABLE 9002 (Block (λ _, mk_pollfd 0 0 0))
     (Block (λ _, 0));
   RemoveWatch 41 DBUS_WATCH_READABLE].

Section EventLoop.

(** Declared in [android_bluetooth_common.h]. *)
Variable BLUEZ_DBUS_BASE_IFC : string.
Variable DEFAULT_INITIAL_POLLFD_COUNT : nat.

(** Defined in [android_bluetooth_common.cpp] and in the A2DP service: the
    decoders of property payloads and the second signal dispatcher. *)
Variable parse_remote_device_properties : list DBusArg -> option (list string).
Variable parse_adapter_property_change : DBusMessage -> option (list string).
Variable parse_remote_device_property_change :
  DBusMessage -> option (list string).
Variable a2dp_event_filter : DBusMessage -> DBusHandlerResult * list action.

(** The bus library's text for an error that carries none. *)
Variable message_from_error : string -> string.

(** [dbus_set_error_from_message]: only an error message sets the error; its
    text is the message's first argument when that is a string. *)
Definition dbus_set_error_from_message (msg : DBusMessage) : option DBusError :=
  match msg with
  | ErrorMessage n args =>
      Some (mk_error n
              match dbus_message_get_args args [DBUS_TYPE_STRING] with
              | ([ArgString s], true) => s
              | _ => message_from_error n
              end)
  | _ => None
  end.

(** *** Set-up (lines 153-283) *)

Definition get_adapter_path (w : world) (c : option Z)
    : option string * list action :=
  let msg := NewMethodCall "org.bluez" "/" "org.bluez.Manager" "DefaultAdapter" [] in
  if negb (dbus_message_new w msg) then
    (None, [ALog LOGE "%s: Can't allocate new method call for GetProperties!"])
  else
    match dbus_connection_send_with_reply_and_block w msg with
    | None =>
        (None, [ASendWithReplyAndBlock c msg; ALog LOGE "LOG_AND_FREE_DBUS_ERROR"])
    | Some reply =>
        match dbus_message_get_args (message_args reply) [DBUS_TYPE_OBJECT_PATH] with
        | ([ArgObjectPath device_path], true) =>
            (Some device_path, [ASendWithReplyAndBlock c msg])
        | _ =>
            (None, [ASendWithReplyAndBlock c msg; ALog LOGE "LOG_AND_FREE_DBUS_ERROR"])
        end
    end.

(** With a NULL adapter path the bus library refuses to build the method
    call, which is the same [!msg] exit as a failed allocation. *)
Definition register_agent (w : world) (nd : native_data_t)
    (agent_path capabilities : string) : Z * native_data_t * list action :=
  if negb (dbus_connection_register_object_path w) then
    (-1, nd, [ARegisterObjectPath (conn nd) agent_path;
              ALog LOGE "%s: Can't register object path %s for agent!"])
  else
    let '(path, t) := get_adapter_path w (conn nd) in
    let nd := with_adapter nd path in
    let t := ARegisterObjectPath (conn nd) agent_path :: t in
    let no_call := (-1, nd, t ++ [ALog LOGE "%s: Can't allocate new method call for agent!"]) in
    match adapter nd with
    | None => no_call
    | Some a =>
        let msg := NewMethodCall "org.bluez" a "org.bluez.Adapter" "RegisterAgent"
                     [ArgObjectPath agent_path; ArgString capabilities] in
        if negb (dbus_message_new w msg) then no_call
        else
          match dbus_connection_send_with_reply_and_block w msg with
          | None =>
              (-1, nd, t ++ [ASendWithReplyAndBlock (conn nd) msg;
                             ALog LOGE "%s: Can't register agent!"])
          | Some _ =>
              (0, nd, t ++ [ASendWithReplyAndBlock (conn nd) msg; AFlush (conn nd)])
          end
    end.

(** The four [dbus_bus_add_match] calls, stopping at the first error. *)
Fixpoint add_matches (w : world) (c : option Z) (rules : list string)
    : bool * list action :=
  match rules with
  | [] => (true, [])
  | r :: rules' =>
      if dbus_bus_add_match w r then
        let (ok, t) := add_matches w c rules' in (ok, AAddMatch c r :: t)
      else (false, [AAddMatch c r; ALog LOGE "LOG_AND_FREE_DBUS_ERROR"])
  end.

Definition match_rules : list string :=
  [ "type='signal',interface='org.freedesktop.DBus'";
    "type='signal',interface='" +:+ BLUEZ_DBUS_BASE_IFC +:+ ".Adapter'";
    "type='signal',interface='" +:+ BLUEZ_DBUS_BASE_IFC +:+ ".Device'";
    "type='signal',interface='org.bluez.AudioSink'" ].

Definition setUpEventLoop (w : world) (nd : native_data_t)
    : bool * native_data_t * list action :=
  match conn nd with
  | None => (false, nd, [])
  | Some _ =>
      if negb (dbus_connection_add_filter w) then
        (false, nd, [AAddFilter (conn nd)])
      else
        let (ok, t) := add_matches w (conn nd) match_rules in
        let t := AAddFilter (conn nd) :: t in
        if negb ok then (false, nd, t)
        else
          let agent_path := "/android/bluetooth/agent" in
          let capabilities := "DisplayYesNo" in
          let '(r, nd, t') := register_agent w nd agent_path capabilities in
          if r <? 0 then
            (false, nd, t ++ t' ++ [AUnregisterObjectPath (conn nd) agent_path])
          else (true, nd, t ++ t')
  end.

(** *** Start (lines 539-613, 642-655) *)

(** The clean-up behind the [done:] label for a start that failed. *)
Definition start_failed (nd : native_data_t) (t : list action)
    : bool * native_data_t * list action :=
  let closing := negb ((controlFdW nd =? 0) && (controlFdR nd =? 0)) in
  (false,
   {| conn := conn nd; adapter := adapter nd; me := None; thread := thread nd;
      pollData := None; watchData := None;
      pollDataSize := 0; pollMemberCount := 0;
      controlFdR := if closing then 0 else controlFdR nd;
      controlFdW := if closing then 0 else controlFdW nd |},
   [AMutexLock] ++ t ++
   (if closing then [AShutdown (controlFdW nd)] else []) ++
   match me nd with Some r => [ADeleteGlobalRef r] | None => [] end ++
   free (pollData nd) AFreePollData ++
   free (watchData nd) AFreeWatchData ++
   [AMutexUnlock]).

(** [socketpair] is handed [&(nat->controlFdR)] as its array of two: the
    first socket lands in [controlFdR], the second in the field behind it,
    [controlFdW]. *)
Definition startEventLoopNative (w : world) (nd : native_data_t)
    : option (bool * native_data_t * list action) :=
  match pollData nd with
  | Some _ =>
      Some (false, nd,
            [AMutexLock; ALog LOGW "trying to start EventLoop a second time!";
             AMutexUnlock])
  | None =>
      let oom := [ALog LOGE "out of memory error starting EventLoop!"] in
      let pd := malloc DEFAULT_INITIAL_POLLFD_COUNT (malloc_pollData w) in
      let nd := with_poll nd pd (watchData nd) (pollDataSize nd)
                  (pollMemberCount nd) in
      match pd with
      | None => Some (start_failed nd oom)
      | Some _ =>
          let wd := malloc DEFAULT_INITIAL_POLLFD_COUNT (malloc_watchData w) in
          let nd := with_poll nd (pollData nd) wd (pollDataSize nd)
                      (pollMemberCount nd) in
          match wd with
          | None => Some (start_failed nd oom)
          | Some _ =>
              let pd := replicate DEFAULT_INITIAL_POLLFD_COUNT (mk_pollfd 0 0 0) in
              let wd := replicate DEFAULT_INITIAL_POLLFD_COUNT 0 in
              let nd := with_poll nd (Some pd) (Some wd)
                          DEFAULT_INITIAL_POLLFD_COUNT 1 in
              match socketpair w with
              | None =>
                  Some (start_failed nd [ALog LOGE "Error getting BT control socket"])
              | Some (r, wr) =>
                  first ← pd !! 0%nat;
                  pd ← store pd 0 (mk_pollfd r POLLIN (revents first));
                  let nd :=
                    {| conn := conn nd; adapter := adapter nd;
                       me := NewGlobalRef w; thread := thread nd;
                       pollData := Some pd; watchData := watchData nd;
                       pollDataSize := pollDataSize nd;
                       pollMemberCount := pollMemberCount nd;
                       controlFdR := r; controlFdW := wr |} in
                  let '(ok, nd, t) := setUpEventLoop w nd in
                  let t := ANewGlobalRef :: t in
                  if negb ok then
                    Some (start_failed nd
                            (t ++ [ALog LOGE "failure setting up Event Loop!"]))
                  else
                    Some (true,
                          {| conn := conn nd; adapter := adapter nd;
                             me := me nd;
                             thread := stored_thread (pthread_create w);
                             pollData := pollData nd; watchData := watchData nd;
                             pollDataSize := pollDataSize nd;
                             pollMemberCount := pollMemberCount nd;
                             controlFdR := controlFdR nd;
                             controlFdW := controlFdW nd |},
                          [AMutexLock] ++ t ++ [APthreadCreate; AMutexUnlock])
              end
          end
      end
  end.

Definition isEventLoopRunningNative (nd : native_data_t) : bool :=
  match pollData nd with Some _ => true | None => false end.

(** *** Signals (lines 661-778) *)

Definition event_filter (w : world) (ids : method_ids) (msg : DBusMessage)
    (nd : native_data_t)
    : option (DBusHandlerResult * native_data_t * list action) :=
  if negb (dbus_message_get_type msg =? DBUS_MESSAGE_TYPE_SIGNAL) then
    Some (DBUS_HANDLER_RESULT_NOT_YET_HANDLED, nd,
          [ALog LOGV "%s: not interested (not a signal)."])
  else
    let log := [ALog LOGE "%s: Received signal %s:%s from %s"] in
    let malformed :=
      Some (DBUS_HANDLER_RESULT_HANDLED, nd,
            log ++ [ALog LOGE "LOG_AND_FREE_DBUS_ERROR_WITH_MSG"]) in
    let one_string (type : Z) (id : jmethodID) (text : string) :=
      match dbus_message_get_args (message_args msg) [type] with
      | ([a], true) =>
          s ← c_string a;
          t ← CallMethod (me nd) id [JString s];
          Some (DBUS_HANDLER_RESULT_HANDLED, nd, log ++ [ALog LOGV text] ++ t)
      | _ => malformed
      end in
    if dbus_message_is_signal msg "org.bluez.Adapter" "DeviceFound" then
      let str_array :=
        match message_args msg with
        | _ :: (_ :: _) as rest => parse_remote_device_properties rest
        | _ => None
        end in
      match str_array with
      | Some a =>
          c_address ← head (message_args msg) ≫= c_string;
          t ← CallMethod (me nd) (method_onDeviceFound ids)
                [JString c_address; JStringArray a];
          Some (DBUS_HANDLER_RESULT_HANDLED, nd, log ++ t)
      | None => malformed
      end
    else if dbus_message_is_signal msg "org.bluez.Adapter" "DeviceDisappeared" then
      one_string DBUS_TYPE_STRING (method_onDeviceDisappeared ids)
        "... address = %s"
    else if dbus_message_is_signal msg "org.bluez.Adapter" "DeviceCreated" then
      one_string DBUS_TYPE_OBJECT_PATH (method_onDeviceCreated ids)
        "... address = %s"
    else if dbus_message_is_signal msg "org.bluez.Adapter" "DeviceRemoved" then
      one_string DBUS_TYPE_OBJECT_PATH (method_onDeviceRemoved ids)
        "... Object Path = %s"
    else if dbus_message_is_signal msg "org.bluez.Adapter" "PropertyChanged" then
      match parse_adapter_property_change msg with
      | Some str_array =>
          (* Check if bluetoothd has (re)started, if so update the path. *)
          c_property ← str_array !! 0%nat;
          '(nd, t) ←
            (if strncmp_eq c_property "Powered" (strlen "Powered") then
               c_value ← str_array !! 1%nat;
               if strncmp_eq c_value "true" (strlen "true") then
                 let (path, t) := get_adapter_path w (conn nd) in
                 Some (with_adapter nd path, t)
               else Some (nd, [])
             else Some (nd, []));
          t' ← CallMethod (me nd) (method_onPropertyChanged ids)
                 [JStringArray str_array];
          Some (DBUS_HANDLER_RESULT_HANDLED, nd, log ++ t ++ t')
      | None => malformed
      end
    else if dbus_message_is_signal msg "org.bluez.Device" "PropertyChanged" then
      match parse_remote_device_property_change msg with
      | Some str_array =>
          remote_device_path ← dbus_message_get_path msg;
          t ← CallMethod (me nd) (method_onDevicePropertyChanged ids)
                [JString remote_device_path; JStringArray str_array];
          Some (DBUS_HANDLER_RESULT_HANDLED, nd, log ++ t)
      | None => malformed
      end
    else
      let (r, t) := a2dp_event_filter msg in Some (r, nd, log ++ t).

(** *** The pairing agent (lines 781-880) *)

Definition agent_event_filter (w : world) (ids : method_ids)
    (msg : DBusMessage) (data : option native_data_t)
    : option (DBusHandlerResult * list action) :=
  if negb (dbus_message_get_type msg =? DBUS_MESSAGE_TYPE_METHOD_CALL) then
    Some (DBUS_HANDLER_RESULT_NOT_YET_HANDLED,
          [ALog LOGV "%s: not interested (not a method call)."])
  else
    let log := [ALog LOGI "%s: Received method %s:%s"] in
    match data with
    | None => Some (DBUS_HANDLER_RESULT_HANDLED, log)
    | Some nd =>
        (* the "// reply" blocks: build the reply, send it on nat->conn *)
        let reply (m : outgoing) (before : list action) :=
          if negb (dbus_message_new w m) then
            Some (DBUS_HANDLER_RESULT_NOT_YET_HANDLED,
                  log ++ before ++ [ALog LOGE "%s: Cannot create message reply"])
          else
            Some (DBUS_HANDLER_RESULT_HANDLED,
                  log ++ before ++ [ASend (conn nd) m]) in
        if dbus_message_is_method_call msg "org.bluez.Agent" "Cancel" then
          t ← CallMethod (me nd) (method_onAgentCancel ids) [];
          reply (NewMethodReturn msg) t
        else if dbus_message_is_method_call msg "org.bluez.Agent" "Authorize" then
          match dbus_message_get_args (message_args msg)
                  [DBUS_TYPE_OBJECT_PATH; DBUS_TYPE_STRING] with
          | ([a; b], true) =>
              object_path ← c_string a;
              uuid ← c_string b;
              t ← CallMethod (me nd) (method_onAgentAuthorize ids)
                    [JString object_path; JString uuid];
              let auth_granted := onAgentAuthorize w object_path uuid in
              let t := [ALog LOGV "... object_path = %s";
                        ALog LOGV "... uuid = %s"] ++ t in
              if auth_granted then reply (NewMethodReturn msg) t
              else
                reply (NewError msg "org.bluez.Error.Rejected"
                         "Authorization rejected") t
          | _ =>
              Some (DBUS_HANDLER_RESULT_NOT_YET_HANDLED,
                    log ++ [ALog LOGE "%s: Invalid arguments for Authorize() method"])
          end
        else if dbus_message_is_method_call msg "org.bluez.Agent" "RequestPinCode" then
          match dbus_message_get_args (message_args msg) [DBUS_TYPE_OBJECT_PATH] with
          | ([a], true) =>
              object_path ← c_string a;
              t ← CallMethod (me nd) (method_onRequestPinCode ids)
                    [JString object_path; JMessage msg];
              Some (DBUS_HANDLER_RESULT_HANDLED, log ++ [AMessageRef msg] ++ t)
          | _ =>
              Some (DBUS_HANDLER_RESULT_NOT_YET_HANDLED,
                    log ++ [ALog LOGE "%s: Invalid arguments for RequestPinCode() method"])
          end
        else if dbus_message_is_method_call msg "org.bluez.Agent" "Release" then
          reply (NewMethodReturn msg) []
        else
          Some (DBUS_HANDLER_RESULT_NOT_YET_HANDLED,
                log ++ [ALog LOGV "%s:%s is ignored"])
    end.

(** *** Results of asynchronous calls (lines 894-982) *)

(** The [if]/[else if] chain of [onCreatePairedDeviceResult]: the result to
    report and what is logged; [None] is the [goto done] that skips the
    callback. *)
Definition bond_result (err : DBusError) : option Z * list action :=
  let v := [ALog LOGV "... error = %s (%s)"] in
  let named (short : string) :=
    strcmp_eq (name err) (BLUEZ_DBUS_BASE_IFC +:+ short) in
  if named ".Error.AuthenticationFailed" then (Some BOND_RESULT_AUTH_FAILED, v)
  else if named ".Error.AuthenticationRejected" then
    (Some BOND_RESULT_AUTH_REJECTED, v)
  else if named ".Error.AuthenticationCanceled" then
    (Some BOND_RESULT_AUTH_CANCELED, v)
  else if named ".Error.ConnectionAttemptFailed" then
    (Some BOND_RESULT_REMOTE_DEVICE_DOWN, v)
  else if named ".Error.AlreadyExists" then (Some BOND_RESULT_SUCCESS, v)
  else if named ".Error.InProgress" &&
          strcmp_eq (message err) "Bonding in progress" then (None, v)
  else if named ".Error.InProgress" &&
          strcmp_eq (message err) "Discover in progress" then
    (Some BOND_RESULT_DISCOVERY_IN_PROGRESS, v)
  else (Some BOND_RESULT_ERROR, [ALog LOGE "%s: D-Bus error: %s (%s)"]).

Definition onCreatePairedDeviceResult (ids : method_ids) (msg : DBusMessage)
    (user : heap_string) (nd : native_data_t) : option (list action) :=
  let address := chars user in
  let '(result, log) :=
    match dbus_set_error_from_message msg with
    | Some err => bond_result err
    | None => (Some BOND_RESULT_SUCCESS, [])
    end in
  t ← match result with
      | Some result =>
          CallMethod (me nd) (method_onCreatePairedDeviceResult ids)
            [JString address; JInt result]
      | None => Some []
      end;
  Some ([ALog LOGV "onCreatePairedDeviceResult"; ALog LOGV "... address = %s"]
        ++ log ++ t ++ [AFree (block user)]).

Definition onGetDeviceServiceChannelResult (ids : method_ids)
    (msg : DBusMessage) (user : heap_string) (nd : native_data_t)
    : option (list action) :=
  let address := chars user in
  let failed := [ALog LOGE "%s: D-Bus error: %s (%s)"] in
  let '(channel, log) :=
    match dbus_set_error_from_message msg with
    | Some _ => (-2, failed)
    | None =>
        let (written, ok) :=
          dbus_message_get_args (message_args msg) [DBUS_TYPE_INT32] in
        (match written with ArgInt32 c :: _ => c | _ => -2 end,
         if ok then [] else failed)
    end in
  t ← CallMethod (me nd) (method_onGetDeviceServiceChannelResult ids)
        [JString address; JInt channel];
  Some ([ALog LOGV "onGetDeviceServiceChannelResult"; ALog LOGV "... address = %s"]
        ++ log ++ t ++ [AFree (block user)]).

(** ** What the specification says, in its words *)

(** The result table of CreatePairedDeviceResult: the result reported for an
    error reply, [None] where the callback is suppressed. *)
Inductive reported (e : DBusError) : option Z -> Prop :=
| reported_auth_failed :
    name e = BLUEZ_DBUS_BASE_IFC +:+ ".Error.AuthenticationFailed" ->
    reported e (Some BOND_RESULT_AUTH_FAILED)
| reported_auth_rejected :
    name e = BLUEZ_DBUS_BASE_IFC +:+ ".Error.AuthenticationRejected" ->
    reported e (Some BOND_RESULT_AUTH_REJECTED)
| reported_auth_canceled :
    name e = BLUEZ_DBUS_BASE_IFC +:+ ".Error.AuthenticationCanceled" ->
    reported e (Some BOND_RESULT_AUTH_CANCELED)
| reported_device_down :
    name e = BLUEZ_DBUS_BASE_IFC +:+ ".Error.ConnectionAttemptFailed" ->
    reported e (Some BOND_RESULT_REMOTE_DEVICE_DOWN)
| reported_already_exists :
    name e = BLUEZ_DBUS_BASE_IFC +:+ ".Error.AlreadyExists" ->
    reported e (Some BOND_RESULT_SUCCESS)
| reported_bonding :
    name e = BLUEZ_DBUS_BASE_IFC +:+ ".Error.InProgress" ->
    message e = "Bonding in progress" ->
    reported e None
| reported_discovery :
    name e = BLUEZ_DBUS_BASE_IFC +:+ ".Error.InProgress" ->
    message e = "Discover in progress" ->
    reported e (Some BOND_RESULT_DISCOVERY_IN_PROGRESS)
| reported_other :
    name e ∉ (λ s, BLUEZ_DBUS_BASE_IFC +:+ s) <$>
      [ ".Error.AuthenticationFailed"; ".Error.AuthenticationRejected";
        ".Error.AuthenticationCanceled"; ".Error.ConnectionAttemptFailed";
        ".Error.AlreadyExists" ] ->
    ¬ (name e = BLUEZ_DBUS_BASE_IFC +:+ ".Error.InProgress" ∧
       message e ∈ ["Bonding in progress"; "Discover in progress"]) ->
    reported e (Some BOND_RESULT_ERROR).

(** The reply the agent owes to an Authorize call. *)
Definition authorize_reply (msg : DBusMessage) (granted : bool) : outgoing :=
  if granted then NewMethodReturn msg
  else NewError msg "org.bluez.Error.Rejected" "Authorization rejected".

(** The DefaultAdapter lookup. *)
Definition DefaultAdapter : outgoing :=
  NewMethodCall "org.bluez" "/" "org.bluez.Manager" "DefaultAdapter" [].

(** The Java methods the callbacks below go through. *)
Definition onAgentAuthorize_method : jmethod :=
  mk_method "onAgentAuthorize" "(Ljava/lang/String;Ljava/lang/String;)Z".
Definition onCreatePairedDeviceResult_method : jmethod :=
  mk_method "onCreatePairedDeviceResult" "(Ljava/lang/String;I)V".

(** The sentence on Authorize as the specification has it: every
    well-formed Authorize call is answered by exactly one reply, the one the
    application's decision asks for, and is reported as handled. *)
Definition authorize_always_replies : Prop :=
  ∀ (w : world) (clazz : jclass) (nd : native_data_t)
    (path object_path uuid : string),
    onAgentAuthorize_method ∈ clazz →
    let msg := MethodCall path (Some "org.bluez.Agent") "Authorize"
                 [ArgObjectPath object_path; ArgString uuid] in
    ∃ t,
      agent_event_filter w (classInitNative clazz) msg (Some nd)
      = Some (DBUS_HANDLER_RESULT_HANDLED, t) ∧
      sends t
      = [(conn nd, authorize_reply msg (onAgentAuthorize w object_path uuid))].

(** *** Tear-down and the worker's control loop (lines 285-353, 494-519) *)

(** The match rules [tearDownEventLoop] asks the bus to remove. *)
Definition teardown_rules : list string :=
  [ "type='signal',interface='org.bluez.audio.Sink'";
    "type='signal',interface='org.bluez.audio.Device'";
    "type='signal',interface='org.bluez.audio.Manager'";
    "type='signal',interface='" +:+ BLUEZ_DBUS_BASE_IFC +:+ ".Adapter'";
    "type='signal',interface='org.freedesktop.DBus'" ].

(** [tearDownEventLoop]; [removed rule] is [true] when the bus removed the
    rule without an error.  As in [register_agent], a NULL adapter path
    gives no method call. *)
Definition tearDownEventLoop (w : world) (removed : string -> bool)
    (nd : native_data_t) : list loop_action :=
  match conn nd with
  | None => []
  | Some _ =>
      let agent_path := "/android/bluetooth/agent" in
      let no_call := [Did (ALog LOGE "%s: Can't create new method call!")] in
      match adapter nd with
      | None => no_call
      | Some a =>
          let msg := NewMethodCall "org.bluez" a "org.bluez.Adapter"
                       "UnregisterAgent" [ArgObjectPath agent_path] in
          if negb (dbus_message_new w msg) then no_call
          else
            Did (ASendWithReplyAndBlock (conn nd) msg)
            :: match dbus_connection_send_with_reply_and_block w msg with
               | None => [Did (ALog LOGE "LOG_AND_FREE_DBUS_ERROR")]
               | Some _ => []
               end
      end
      ++ [Did (AFlush (conn nd));
          Did (AUnregisterObjectPath (conn nd) agent_path)]
      ++ (teardown_rules ≫= λ rule,
            ARemoveMatch (conn nd) rule
            :: if removed rule then []
               else [Did (ALog LOGE "LOG_AND_FREE_DBUS_ERROR")])
      ++ [ARemoveFilter (conn nd)]
  end.

(** The worker's
    [while (recv(controlFdR, &data, sizeof(char), MSG_DONTWAIT) != -1)
       switch (data) ...]
    over the data waiting in the control socket.  An empty socket ends the
    loop; EXIT ends the thread, leaving the rest unread; a byte that is no
    control code is dropped.  The result is whether the thread ended, the
    native data, the data left in the socket and what was done.  Data that
    does not start with a [char], or an add or remove without its fields
    behind it, is outside the model ([None]). *)
Fixpoint controlLoop (w : world) (removed : string -> bool)
    (mallocs : nat -> malloc_result pollfd * malloc_result Z) (k : nat)
    (nd : native_data_t) (data : list ctl_field)
    : option (bool * native_data_t * list ctl_field * list loop_action) :=
  match data with
  | [] => Some (false, nd, [], [])
  | CtlChar c :: data =>
      if c =? EVENT_LOOP_EXIT then
        Some (true, nd, data,
              [ASetWatchFunctions (conn nd) false]
              ++ tearDownEventLoop w removed nd
              ++ [ADetachCurrentThread; Did (AShutdown (controlFdR nd))])
      else if c =? EVENT_LOOP_ADD then
        match data with
        | CtlInt newFD :: CtlUInt flags :: CtlPtr watch :: data =>
            '(nd, t) ← handleWatchAdd nd newFD flags watch
                         (mallocs k).1 (mallocs k).2;
            '(ended, nd, data, t') ←
              controlLoop w removed mallocs (S k) nd data;
            Some (ended, nd, data, (Did <$> t) ++ t')
        | _ => None
        end
      else if c =? EVENT_LOOP_REMOVE then
        match data with
        | CtlInt removeFD :: CtlUInt flags :: data =>
            '(nd, t) ← handleWatchRemove nd removeFD flags;
            '(ended, nd, data, t') ← controlLoop w removed mallocs k nd data;
            Some (ended, nd, data, (Did <$> t) ++ t')
        | _ => None
        end
      else controlLoop w removed mallocs k nd data
  | _ :: _ => None
  end.

(** *** When set-up and start succeed *)

(** The conditions under which [register_agent] returns 0. *)
Definition agent_registers (w : world) (c : option Z) : bool :=
  dbus_connection_register_object_path w &&
  match (get_adapter_path w c).1 with
  | Some a =>
      let msg := NewMethodCall "org.bluez" a "org.bluez.Adapter" "RegisterAgent"
                   [ArgObjectPath "/android/bluetooth/agent";
                    ArgString "DisplayYesNo"] in
      dbus_message_new w msg &&
      bool_decide (is_Some (dbus_connection_send_with_reply_and_block w msg))
  | None => false
  end.

(** The conditions under which [setUpEventLoop] returns true. *)
Definition sets_up (w : world) (c : option Z) : bool :=
  bool_decide (is_Some c) && dbus_connection_add_filter w &&
  forallb (dbus_bus_add_match w) match_rules && agent_registers w c.

(** The conditions under which a start from idle returns true. *)
Definition starts (w : world) (c : option Z) : bool :=
  match malloc_pollData w, malloc_watchData w, socketpair w with
  | Block _, Block _, Some _ => sets_up w c
  | _, _, _ => false
  end.

(** The actions that concern the mutex and the worker thread. *)
Definition threading (a : action) : bool :=
  match a with
  | AMutexLock | AMutexUnlock | APthreadCreate => true
  | _ => false
  end.

(** Neither of the two. *)
Definition quiet (a : action) : bool := negb (threading a || releasing a).

(** *** One pass of the worker over the poll results (lines 490-529) *)

(** The [for] loop of [eventLoopMain] from index [i] on, with [data] waiting
    in the control socket.  A cell without [revents] is skipped; the control
    socket's cell runs [controlLoop]; any other ready cell is handed to
    [dbus_watch_handle] with its [revents], its [revents] are cleared, and
    the pass ends.  After a [controlLoop] that did not end the thread the
    socket is empty, so a control cell met later in the pass reads nothing
    and uses no allocation.  [fuel] bounds the iterations; the result is as
    for [controlLoop]. *)
Fixpoint scanReady (fuel : nat) (w : world) (removed : string -> bool)
    (mallocs : nat -> malloc_result pollfd * malloc_result Z) (k : nat)
    (nd : native_data_t) (data : list ctl_field) (i : nat)
    : option (bool * native_data_t * list ctl_field * list loop_action) :=
  match fuel with
  | O => None
  | S fuel =>
      if decide (i < pollMemberCount nd)%nat then
        e ← cells (pollData nd) !! i;
        if revents e =? 0 then
          scanReady fuel w removed mallocs k nd data (S i)
        else if fd e =? controlFdR nd then
          '(ended, nd, data, t) ← controlLoop w removed mallocs k nd data;
          if (ended : bool) then Some (true, nd, data, t)
          else
            '(ended, nd, data, t') ←
              scanReady fuel w removed mallocs k nd data (S i);
            Some (ended, nd, data, t ++ t')
        else
          watch ← cells (watchData nd) !! i;
          pd ← store (cells (pollData nd)) i (mk_pollfd (fd e) (events e) 0);
          Some (false,
                with_poll nd (Some pd) (watchData nd) (pollDataSize nd)
                  (pollMemberCount nd),
                data, [AWatchHandle watch (revents e)])
      else Some (false, nd, data, [])
  end.

(** ** The watch set: lemmas *)

Lemma same_watch_key (e : pollfd) (wfd wevents : Z) :
  same_watch e wfd wevents = true ↔ key e = (wfd, wevents).
Proof.
  unfold same_watch, key. rewrite andb_true_iff, !Z.eqb_eq.
  split; [intros [-> ->]; reflexivity | intros [= -> ->]; auto].
Qed.

Lemma same_watch_not_key (e : pollfd) (wfd wevents : Z) :
  same_watch e wfd wevents = false ↔ key e ≠ (wfd, wevents).
Proof.
  rewrite <- same_watch_key. destruct (same_watch e wfd wevents); split;
    congruence.
Qed.

(** The search loop stays inside the buffer and returns the first match. *)
Lemma find_watch_first (pd : list pollfd) (wfd wevents : Z) (n y : nat) :
  (y + n ≤ length pd)%nat →
  ∃ r, find_watch pd wfd wevents y n = Some r ∧
    match r with
    | None =>
        ∀ j e, (y ≤ j < y + n)%nat → pd !! j = Some e → key e ≠ (wfd, wevents)
    | Some i =>
        (y ≤ i < y + n)%nat ∧
        (∃ e, pd !! i = Some e ∧ key e = (wfd, wevents)) ∧
        ∀ j e, (y ≤ j < i)%nat → pd !! j = Some e → key e ≠ (wfd, wevents)
    end.
Proof.
  revert y. induction n as [|n IH]; intros y Hlen; simpl.
  - exists None. split; [reflexivity|]. intros j e Hj. lia.
  - destruct (lookup_lt_is_Some_2 pd y) as [e He]; [lia|].
    rewrite He. simpl.
    destruct (same_watch e wfd wevents) eqn:Hsame.
    + exists (Some y). split; [reflexivity|]. split; [lia|]. split.
      * exists e. split; [assumption|]. by apply same_watch_key.
      * intros j e' Hj. lia.
    + destruct (IH (S y)) as (r & -> & Hr); [lia|].
      exists r. split; [reflexivity|].
      apply same_watch_not_key in Hsame.
      destruct r as [i|].
      * destruct Hr as (Hi & Hat & Hbefore). split; [lia|]. split; [assumption|].
        intros j e' Hj Hje. destruct (decide (j = y)) as [->|Hne].
        -- congruence.
        -- apply (Hbefore j e'); [lia | assumption].
      * intros j e' Hj Hje. destruct (decide (j = y)) as [->|Hne].
        -- congruence.
        -- apply (Hr j e'); [lia | assumption].
Qed.

Lemma present_lookup (nd : native_data_t) (wfd flags : Z) :
  present nd wfd flags ↔
  ∃ j e, (j < pollMemberCount nd)%nat ∧ cells (pollData nd) !! j = Some e ∧
         key e = (wfd, poll_events flags).
Proof.
  unfold present, live. rewrite list_elem_of_fmap. split.
  - intros (e & Hkey & Hin). apply list_elem_of_lookup in Hin as [j Hj].
    apply lookup_take_Some in Hj as [Hj Hlt]. eauto.
  - intros (j & e & Hlt & Hj & Hkey). exists e. split; [done|].
    apply list_elem_of_lookup. exists j. by apply lookup_take_Some.
Qed.

(** With well-formed buffers the search decides presence. *)
Lemma find_watch_present (nd : native_data_t) (wfd flags : Z) :
  wf nd →
  ∃ r, find_watch (cells (pollData nd)) wfd (poll_events flags) 0
         (pollMemberCount nd) = Some r ∧
       (is_Some r ↔ present nd wfd flags).
Proof.
  intros (Hcount & Hsize & _).
  destruct (find_watch_first (cells (pollData nd)) wfd (poll_events flags)
              (pollMemberCount nd) 0) as (r & Hr & Hspec); [simpl; lia|].
  exists r. split; [assumption|]. rewrite present_lookup.
  destruct r as [i|]; simpl in Hspec.
  - destruct Hspec as (Hi & (e & He & Hkey) & _). split; [|eauto].
    intros _. exists i, e. split; [lia|]. done.
  - split; [intros [? [=]]|]. intros (j & e & Hj & He & Hkey).
    exfalso. apply (Hspec j e); [lia | done | done].
Qed.

Lemma fresh_block_tail {A} (c : nat -> A) (n : nat) :
  drop n (c <$> seq 0 (n + 1)) = [c n].
Proof.
  rewrite Nat.add_1_r, seq_S, fmap_app. simpl.
  apply drop_app_length'. by rewrite length_fmap, length_seq.
Qed.

Lemma memcpy_fresh {A} (c : nat -> A) (l : list A) (n : nat) :
  (n ≤ length l)%nat →
  memcpy (c <$> seq 0 (n + 1)) l n = Some (take n l ++ [c n]).
Proof.
  intros Hn. unfold memcpy.
  rewrite decide_True by (rewrite length_fmap, length_seq; lia).
  by rewrite fresh_block_tail.
Qed.

Lemma grown_store {A} (l : list A) (n : nat) (g x : A) :
  (n ≤ length l)%nat →
  store (take n l ++ [g]) n x = Some (take n l ++ [x]).
Proof.
  intros Hn. unfold store.
  assert (length (take n l) = n) as Hlen by (rewrite length_take; lia).
  rewrite decide_True by (rewrite length_app, Hlen; simpl; lia).
  f_equal. rewrite insert_app_r_alt by lia. rewrite Hlen, Nat.sub_diag. done.
Qed.

Lemma handleWatchAdd_duplicate (nd : native_data_t) (newFD flags watch : Z)
    (temp : malloc_result pollfd) (temp2 : malloc_result Z) :
  wf nd → present nd newFD flags →
  handleWatchAdd nd newFD flags watch temp temp2
  = Some (nd, [ALog LOGV "DBusWatch duplicate add"]).
Proof.
  intros Hwf Hin. destruct (find_watch_present nd newFD flags Hwf) as (r & Hr & Hiff).
  unfold handleWatchAdd. rewrite Hr. simpl.
  destruct r; [reflexivity|]. apply Hiff in Hin. by destruct Hin.
Qed.

(** An add that finds room in the buffers. *)
Lemma handleWatchAdd_room (nd : native_data_t) (newFD flags watch : Z)
    (temp : malloc_result pollfd) (temp2 : malloc_result Z) :
  wf nd → ¬ present nd newFD flags →
  pollMemberCount nd ≠ pollDataSize nd →
  handleWatchAdd nd newFD flags watch temp temp2
  = Some (with_poll nd
            (Some (<[pollMemberCount nd := mk_pollfd newFD (poll_events flags) 0]>
                     (cells (pollData nd))))
            (Some (<[pollMemberCount nd := watch]> (cells (watchData nd))))
            (pollDataSize nd) (S (pollMemberCount nd)), []).
Proof.
  intros Hwf Hnot Hne.
  destruct (find_watch_present nd newFD flags Hwf) as (r & Hr & Hiff).
  destruct Hwf as (Hcount & Hpd & Hwd).
  unfold handleWatchAdd. rewrite Hr. simpl.
  destruct r; [exfalso; apply Hnot, Hiff; eauto|].
  rewrite decide_False by assumption.
  unfold store. rewrite !decide_True by lia. reflexivity.
Qed.

(** An add that has to grow the buffers, by the outcome of the two
    allocations. *)
Lemma handleWatchAdd_grow (nd : native_data_t) (newFD flags watch : Z)
    (temp : malloc_result pollfd) (temp2 : malloc_result Z) :
  wf nd → ¬ present nd newFD flags →
  pollMemberCount nd = pollDataSize nd →
  handleWatchAdd nd newFD flags watch temp temp2
  = Some
      (match temp, temp2 with
       | OutOfMemory, _ => nd
       | Block c1, OutOfMemory =>
           with_poll nd (Some (live nd ++ [c1 (pollMemberCount nd)]))
             (watchData nd) (pollDataSize nd) (pollMemberCount nd)
       | Block c1, Block c2 =>
           with_poll nd
             (Some (live nd ++ [mk_pollfd newFD (poll_events flags) 0]))
             (Some (live_watches nd ++ [watch]))
             (S (pollDataSize nd)) (S (pollMemberCount nd))
       end,
       [ALog LOGV "Bluetooth EventLoop poll struct growing"]
       ++ match temp, temp2 with
          | OutOfMemory, _ => []
          | Block _, OutOfMemory => free (pollData nd) AFreePollData
          | Block _, Block _ =>
              free (pollData nd) AFreePollData
              ++ free (watchData nd) AFreeWatchData
          end).
Proof.
  intros Hwf Hnot Heq.
  destruct (find_watch_present nd newFD flags Hwf) as (r & Hr & Hiff).
  destruct Hwf as (Hcount & Hpd & Hwd).
  unfold handleWatchAdd. rewrite Hr. simpl.
  destruct r; [exfalso; apply Hnot, Hiff; eauto|].
  rewrite decide_True by assumption.
  destruct temp as [|c1]; simpl; [reflexivity|].
  rewrite memcpy_fresh by lia. simpl.
  destruct temp2 as [|c2]; simpl; [reflexivity|].
  rewrite memcpy_fresh by lia. simpl.
  rewrite !grown_store by lia. reflexivity.
Qed.

(** Removal by copying the last live cell over cell [y]: what is left is
    the old live prefix without its element [y], in some order. *)
Lemma swap_with_last {A} (l : list A) (c y : nat) (x : A) :
  (y < c)%nat → l !! pred c = Some x →
  take (pred c) (<[y:=x]> l) ≡ₚ delete y (take c l).
Proof.
  intros Hy Hx. destruct c as [|c]; [lia|]. simpl in *.
  rewrite (take_S_r l c x Hx).
  assert (length (take c l) = c) as Hlen.
  { apply lookup_lt_Some in Hx. rewrite length_take. lia. }
  destruct (decide (y = c)) as [->|Hne].
  - rewrite take_insert_ge by lia.
    rewrite delete_take_drop, take_app_length' by done.
    rewrite drop_ge by (rewrite length_app, Hlen; simpl; lia).
    by rewrite app_nil_r.
  - rewrite take_insert_lt by lia.
    rewrite insert_take_drop by lia.
    rewrite delete_take_drop.
    rewrite take_app_le by lia. rewrite drop_app_le by lia.
    rewrite <- Permutation_middle, app_assoc.
    by rewrite <- Permutation_cons_append.
Qed.

Lemma handleWatchRemove_absent (nd : native_data_t) (removeFD flags : Z) :
  wf nd → ¬ present nd removeFD flags →
  handleWatchRemove nd removeFD flags
  = Some (nd, [ALog LOGW "WatchRemove given with unknown watch"]).
Proof.
  intros Hwf Hnot.
  destruct (find_watch_present nd removeFD flags Hwf) as (r & Hr & Hiff).
  unfold handleWatchRemove. rewrite Hr. simpl.
  destruct r; [exfalso; apply Hnot, Hiff; eauto | reflexivity].
Qed.

(** A removal that finds the pair: [y] is the first cell that holds it. *)
Lemma handleWatchRemove_found (nd : native_data_t) (removeFD flags : Z) :
  wf nd → present nd removeFD flags →
  ∃ y e last lastw,
    (y < pollMemberCount nd)%nat ∧
    cells (pollData nd) !! y = Some e ∧ key e = (removeFD, poll_events flags) ∧
    (∀ j e', (j < y)%nat → cells (pollData nd) !! j = Some e' →
             key e' ≠ (removeFD, poll_events flags)) ∧
    cells (pollData nd) !! pred (pollMemberCount nd) = Some last ∧
    cells (watchData nd) !! pred (pollMemberCount nd) = Some lastw ∧
    handleWatchRemove nd removeFD flags
    = Some (with_poll nd (Some (<[y:=last]> (cells (pollData nd))))
              (Some (<[y:=lastw]> (cells (watchData nd))))
              (pollDataSize nd) (pred (pollMemberCount nd)), []).
Proof.
  intros (Hcount & Hpd & Hwd) Hin.
  destruct (find_watch_first (cells (pollData nd)) removeFD (poll_events flags)
              (pollMemberCount nd) 0) as (r & Hr & Hspec); [simpl; lia|].
  apply present_lookup in Hin as (j0 & e0 & Hj0 & He0 & Hk0).
  destruct r as [y|]; simpl in Hspec;
    [|exfalso; apply (Hspec j0 e0); [lia | done | done]].
  destruct Hspec as (Hy & (e & He & Hkey) & Hbefore).
  destruct (lookup_lt_is_Some_2 (cells (pollData nd)) (pred (pollMemberCount nd)))
    as [last Hlast]; [lia|].
  destruct (lookup_lt_is_Some_2 (cells (watchData nd)) (pred (pollMemberCount nd)))
    as [lastw Hlastw]; [lia|].
  exists y, e, last, lastw.
  repeat split; try done; [lia | intros j e' Hj; apply Hbefore; lia |].
  unfold handleWatchRemove. rewrite Hr. simpl. rewrite Hlast, Hlastw. simpl.
  unfold store. rewrite !decide_True by lia. reflexivity.
Qed.

Lemma live_length (nd : native_data_t) :
  wf nd → length (live nd) = pollMemberCount nd.
Proof. intros (? & ? & ?). unfold live. rewrite length_take. lia. Qed.

Lemma live_watches_length (nd : native_data_t) :
  wf nd → length (live_watches nd) = pollMemberCount nd.
Proof. intros (? & ? & ?). unfold live_watches. rewrite length_take. lia. Qed.

(** Every add returns, keeps the buffers well formed, calls nothing, and
    either leaves the live cells as they were or appends the new one. *)
Lemma handleWatchAdd_outcome (nd : native_data_t) (newFD flags watch : Z)
    (temp : malloc_result pollfd) (temp2 : malloc_result Z) :
  wf nd →
  ∃ nd' t,
    handleWatchAdd nd newFD flags watch temp temp2 = Some (nd', t) ∧
    wf nd' ∧ calls t = [] ∧
    ((pollMemberCount nd' = pollMemberCount nd ∧ live nd' = live nd ∧
      live_watches nd' = live_watches nd)
     ∨ (¬ present nd newFD flags ∧
        pollMemberCount nd' = S (pollMemberCount nd) ∧
        live nd' = live nd ++ [mk_pollfd newFD (poll_events flags) 0] ∧
        live_watches nd' = live_watches nd ++ [watch])).
Proof.
  intros Hwf.
  pose proof (live_length nd Hwf) as Hl.
  pose proof (live_watches_length nd Hwf) as Hlw.
  destruct (find_watch_present nd newFD flags Hwf) as (r & _ & Hiff).
  destruct r as [i|].
  { exists nd, [ALog LOGV "DBusWatch duplicate add"].
    split; [apply handleWatchAdd_duplicate; [done | apply Hiff; eauto]|].
    split; [done|]. split; [done|]. by left. }
  assert (¬ present nd newFD flags) as Hnot
    by (intros H; apply Hiff in H; by destruct H).
  destruct (decide (pollMemberCount nd = pollDataSize nd)) as [Heq|Hne].
  - rewrite (handleWatchAdd_grow nd newFD flags watch temp temp2 Hwf Hnot Heq).
    destruct Hwf as (Hcount & Hpd & Hwd).
    destruct temp as [|c1]; [|destruct temp2 as [|c2]];
      eexists _, _; (split; [reflexivity|]).
    + split; [done|]. split; [done|]. by left.
    + split; [|split; [by destruct (pollData nd)|]].
      * unfold wf; simpl. rewrite length_app, Hl. simpl. lia.
      * left. unfold live, live_watches; simpl. fold (live nd).
        by rewrite take_app_length' by done.
    + split; [|split; [by destruct (pollData nd), (watchData nd)|]].
      * unfold wf; simpl. rewrite !length_app, Hl, Hlw. simpl. lia.
      * right. split; [done|]. unfold live, live_watches; simpl.
        fold (live nd) (live_watches nd).
        by rewrite !take_ge by (rewrite length_app; simpl; lia).
  - rewrite (handleWatchAdd_room nd newFD flags watch temp temp2 Hwf Hnot Hne).
    destruct Hwf as (Hcount & Hpd & Hwd).
    eexists _, _. split; [reflexivity|]. split; [|split; [done|]].
    + unfold wf; simpl. rewrite !length_insert. lia.
    + right. split; [done|]. unfold live, live_watches; simpl.
      rewrite (take_S_r _ _ (mk_pollfd newFD (poll_events flags) 0))
        by (apply list_lookup_insert_eq; lia).
      rewrite (take_S_r _ _ watch) by (apply list_lookup_insert_eq; lia).
      by rewrite !take_insert_ge by lia.
Qed.

(** Every remove returns, keeps the buffers well formed, calls nothing, and
    leaves the stored entries as they were or drops exactly one of them. *)
Lemma handleWatchRemove_outcome (nd : native_data_t) (removeFD flags : Z) :
  wf nd →
  ∃ nd' t,
    handleWatchRemove nd removeFD flags = Some (nd', t) ∧
    wf nd' ∧ calls t = [] ∧
    (nd' = nd ∨
     ∃ y, pollMemberCount nd' = pred (pollMemberCount nd) ∧
          live nd' ≡ₚ delete y (live nd) ∧
          entries nd' ≡ₚ delete y (entries nd)).
Proof.
  intros Hwf.
  destruct (find_watch_present nd removeFD flags Hwf) as (r & _ & Hiff).
  destruct r as [i|].
  - destruct (handleWatchRemove_found nd removeFD flags Hwf)
      as (y & e & last & lastw & Hy & He & Hkey & Hfirst & Hlast & Hlastw & ->);
      [apply Hiff; eauto|].
    destruct Hwf as (Hcount & Hpd & Hwd).
    eexists _, _. split; [reflexivity|]. split; [|split; [done|]].
    + unfold wf; simpl. rewrite !length_insert. lia.
    + right. exists y. split; [done|]. split.
      * unfold live; simpl. by apply swap_with_last.
      * unfold entries, live, live_watches; simpl.
        rewrite <- !zip_with_take, <- insert_zip_with.
        apply swap_with_last; [done|].
        apply lookup_zip_with_Some. eauto.
  - rewrite handleWatchRemove_absent;
      [|done | intros H; apply Hiff in H; by destruct H].
    eexists _, _. split; [reflexivity|]. split; [done|]. split; [done|]. by left.
Qed.

Lemma handleControl_invariant (nd : native_data_t) (m : ControlMessage) :
  wf nd → no_duplicate_watch nd →
  ∃ nd' t, handleControl nd m = Some (nd', t) ∧ wf nd' ∧ no_duplicate_watch nd'.
Proof.
  intros Hwf Hnodup. destruct m as [newFD flags watch temp temp2|removeFD flags];
    simpl.
  - destruct (handleWatchAdd_outcome nd newFD flags watch temp temp2 Hwf)
      as (nd' & t & -> & Hwf' & _ & Hcase).
    exists nd', t. split; [done|]. split; [done|]. unfold no_duplicate_watch.
    destruct Hcase as [(_ & -> & _)|(Hnot & _ & -> & _)]; [done|].
    rewrite fmap_app. apply NoDup_app. split; [done|]. split.
    + intros k Hk ->%list_elem_of_singleton. by apply Hnot.
    + apply NoDup_singleton.
  - destruct (handleWatchRemove_outcome nd removeFD flags Hwf)
      as (nd' & t & -> & Hwf' & _ & Hcase).
    exists nd', t. split; [done|]. split; [done|]. unfold no_duplicate_watch.
    destruct Hcase as [->|(y & _ & Hperm & _)]; [done|].
    rewrite Hperm, list_fmap_delete.
    eapply sublist_NoDup; [exact Hnodup | apply sublist_delete].
Qed.

Lemma entries_app (nd nd' : native_data_t) (e : pollfd) (watch : Z) :
  wf nd →
  live nd' = live nd ++ [e] → live_watches nd' = live_watches nd ++ [watch] →
  entries nd' = entries nd ++ [(e, watch)].
Proof.
  intros Hwf Hl Hw. unfold entries. rewrite Hl, Hw.
  rewrite zip_with_app; [done|].
  by rewrite live_length, live_watches_length.
Qed.

Lemma handleControls_invariant (ms : list ControlMessage) (nd : native_data_t) :
  wf nd → no_duplicate_watch nd →
  ∃ nd' t, handleControls nd ms = Some (nd', t) ∧ wf nd' ∧ no_duplicate_watch nd'.
Proof.
  revert nd. induction ms as [|m ms IH]; intros nd Hwf Hnodup; simpl.
  - by exists nd, [].
  - destruct (handleControl_invariant nd m Hwf Hnodup)
      as (nd1 & t1 & -> & Hwf1 & Hnodup1).
    destruct (IH nd1 Hwf1 Hnodup1) as (nd2 & t2 & H2 & Hwf2 & Hnodup2).
    simpl. rewrite H2. simpl. by exists nd2, (t1 ++ t2).
Qed.

(** C1. Whatever requests the worker applies to a watch set without
    duplicates, every request returns and the set still holds no two live
    entries with the same descriptor and events; an add of a pair that is
    present changes nothing (it only logs "DBusWatch duplicate add"); and
    after any add the stored entries are the old ones, or the old ones
    followed by the one new entry. *)
Theorem handleWatchAdd_no_duplicates (nd : native_data_t) :
  wf nd → no_duplicate_watch nd →
  (∀ ms, ∃ nd' t,
      handleControls nd ms = Some (nd', t) ∧ wf nd' ∧ no_duplicate_watch nd') ∧
  (∀ newFD flags watch temp temp2,
      present nd newFD flags →
      handleWatchAdd nd newFD flags watch temp temp2
      = Some (nd, [ALog LOGV "DBusWatch duplicate add"])) ∧
  (∀ newFD flags watch temp temp2, ∃ nd' t,
      handleWatchAdd nd newFD flags watch temp temp2 = Some (nd', t) ∧
      (entries nd' = entries nd ∨
       entries nd'
       = entries nd ++ [(mk_pollfd newFD (poll_events flags) 0, watch)])).
Proof.
  intros Hwf Hnodup. split; [|split].
  - intros ms. by apply handleControls_invariant.
  - intros. by apply handleWatchAdd_duplicate.
  - intros newFD flags watch temp temp2.
    destruct (handleWatchAdd_outcome nd newFD flags watch temp temp2 Hwf)
      as (nd' & t & Hrun & _ & _ & Hcase).
    exists nd', t. split; [done|].
    destruct Hcase as [(_ & Hl & Hw)|(_ & _ & Hl & Hw)].
    + left. unfold entries. by rewrite Hl, Hw.
    + right. by apply entries_app.
Qed.

(** C6. A remove of a pair that is not in the watch set changes nothing
    and logs one warning, no error.  A remove of a pair that is present
    copies the last live cell of both buffers over the first cell [y] that
    holds the pair and decrements the count: the stored entries are the old
    ones without entry [y]. *)
Theorem handleWatchRemove_swaps_with_last (nd : native_data_t)
    (removeFD flags : Z) :
  wf nd →
  (¬ present nd removeFD flags →
   handleWatchRemove nd removeFD flags
   = Some (nd, [ALog LOGW "WatchRemove given with unknown watch"])) ∧
  (present nd removeFD flags →
   ∃ y e last lastw nd',
     live nd !! y = Some e ∧
     key e = (removeFD, poll_events flags) ∧
     (∀ j e', (j < y)%nat → live nd !! j = Some e' →
              key e' ≠ (removeFD, poll_events flags)) ∧
     entries nd !! pred (pollMemberCount nd) = Some (last, lastw) ∧
     handleWatchRemove nd removeFD flags = Some (nd', []) ∧
     pollData nd' = Some (<[y:=last]> (cells (pollData nd))) ∧
     watchData nd' = Some (<[y:=lastw]> (cells (watchData nd))) ∧
     pollMemberCount nd' = pred (pollMemberCount nd) ∧
     entries nd' ≡ₚ delete y (entries nd) ∧
     length (entries nd') = pred (length (entries nd))).
Proof.
  intros Hwf. split; [by apply handleWatchRemove_absent|]. intros Hin.
  destruct (handleWatchRemove_found nd removeFD flags Hwf Hin)
    as (y & e & last & lastw & Hy & He & Hkey & Hfirst & Hlast & Hlastw & Hrun).
  pose proof Hwf as (Hcount & Hpd & Hwd).
  assert (length (entries nd) = pollMemberCount nd) as Hlen.
  { unfold entries. rewrite length_zip_with, live_length, live_watches_length by done. lia. }
  eexists y, e, last, lastw, _.
  split; [|split; [done|]; split; [|split; [|split; [exact Hrun|]]]].
  - unfold live. by rewrite lookup_take_lt by lia.
  - intros j e' Hj [Hje _]%lookup_take_Some. by apply (Hfirst j e').
  - unfold entries, live, live_watches.
    apply lookup_zip_with_Some. exists last, lastw.
    rewrite !lookup_take_lt by lia. auto.
  - simpl. split; [done|]. split; [done|]. split; [done|].
    assert (entries (with_poll nd (Some (<[y:=last]> (cells (pollData nd))))
                       (Some (<[y:=lastw]> (cells (watchData nd))))
                       (pollDataSize nd) (pred (pollMemberCount nd)))
            ≡ₚ delete y (entries nd)) as Hperm.
    { unfold entries, live, live_watches; simpl.
      rewrite <- !zip_with_take, <- insert_zip_with.
      apply swap_with_last; [done|].
      apply lookup_zip_with_Some. eauto. }
    split; [done|]. rewrite Hperm, length_delete; [lia|].
    apply lookup_lt_is_Some_2. lia.
Qed.

(** C7. When the add has to grow the buffers and one of the two
    allocations fails, the add returns without calling anything, and the
    count, the live cells (so their multiset of descriptor and events pairs)
    and the stored entries are what they were; the buffers stay well
    formed. *)
Theorem handleWatchAdd_allocation_failure (nd : native_data_t)
    (newFD flags watch : Z)
    (temp : malloc_result pollfd) (temp2 : malloc_result Z) :
  wf nd → ¬ present nd newFD flags →
  pollMemberCount nd = pollDataSize nd →
  temp = OutOfMemory ∨ temp2 = OutOfMemory →
  ∃ nd' t,
    handleWatchAdd nd newFD flags watch temp temp2 = Some (nd', t) ∧
    calls t = [] ∧ wf nd' ∧
    pollMemberCount nd' = pollMemberCount nd ∧
    live nd' = live nd ∧
    key <$> live nd' ≡ₚ key <$> live nd ∧
    entries nd' = entries nd.
Proof.
  intros Hwf Hnot Hfull Hoom.
  destruct (handleWatchAdd_outcome nd newFD flags watch temp temp2 Hwf)
    as (nd' & t & Hrun & Hwf' & Hcalls & Hcase).
  exists nd', t. split; [done|]. split; [done|]. split; [done|].
  destruct Hcase as [(Hc & Hl & Hw)|(_ & Hc & _)].
  - split; [done|]. split; [done|]. split; [by rewrite Hl|].
    unfold entries. by rewrite Hl, Hw.
  - exfalso.
    rewrite (handleWatchAdd_grow nd newFD flags watch temp temp2 Hwf Hnot Hfull)
      in Hrun.
    destruct Hoom as [-> | ->]; [|destruct temp]; simplify_eq; simpl in Hc; lia.
Qed.

(** C8. The add hook writes the four fields of an AddWatch request
    (code, descriptor, flags, handle) to the write end of the control
    socket when the watch is enabled and writes nothing when it is not, and
    returns true either way; the remove hook always writes the three
    fields of a RemoveWatch request; the toggle hook does what the add hook
    does for an enabled watch and what the remove hook does for a disabled
    one. *)
Theorem watch_hooks_route (watch : DBusWatch) (nd : native_data_t) :
  fst (dbusAddWatch watch nd) = true ∧
  snd (dbusAddWatch watch nd)
  = (if dbus_watch_get_enabled watch then
       [ AWrite (controlFdW nd) (CtlChar EVENT_LOOP_ADD);
         AWrite (controlFdW nd) (CtlInt (dbus_watch_get_fd watch));
         AWrite (controlFdW nd) (CtlUInt (dbus_watch_get_flags watch));
         AWrite (controlFdW nd) (CtlPtr (watch_addr watch)) ]
     else []) ∧
  dbusRemoveWatch watch nd
  = [ AWrite (controlFdW nd) (CtlChar EVENT_LOOP_REMOVE);
      AWrite (controlFdW nd) (CtlInt (dbus_watch_get_fd watch));
      AWrite (controlFdW nd) (CtlUInt (dbus_watch_get_flags watch)) ] ∧
  dbusToggleWatch watch nd
  = (if dbus_watch_get_enabled watch then snd (dbusAddWatch watch nd)
     else dbusRemoveWatch watch nd).
Proof.
  unfold dbusToggleWatch, dbusAddWatch, dbusRemoveWatch.
  destruct (dbus_watch_get_enabled watch); auto.
Qed.

(** ** Start: lemmas *)

Lemma startEventLoopNative_running (w : world) (nd : native_data_t) :
  isEventLoopRunningNative nd = true →
  startEventLoopNative w nd
  = Some (false, nd,
          [AMutexLock; ALog LOGW "trying to start EventLoop a second time!";
           AMutexUnlock]).
Proof.
  unfold isEventLoopRunningNative, startEventLoopNative.
  by destruct (pollData nd).
Qed.

Lemma register_agent_poll (w : world) (nd : native_data_t)
    (agent_path capabilities : string) :
  pollData (register_agent w nd agent_path capabilities).1.2 = pollData nd.
Proof.
  unfold register_agent. repeat case_match; simplify_eq; done.
Qed.

Lemma setUpEventLoop_poll (w : world) (nd : native_data_t) :
  pollData (setUpEventLoop w nd).1.2 = pollData nd.
Proof.
  unfold setUpEventLoop.
  pose proof (register_agent_poll w nd "/android/bluetooth/agent" "DisplayYesNo").
  repeat case_match; simplify_eq; done.
Qed.

(** A start that reports success began idle and ends running. *)
Lemma startEventLoopNative_success (w : world) (nd nd1 : native_data_t)
    (t1 : list action) :
  startEventLoopNative w nd = Some (true, nd1, t1) →
  isEventLoopRunningNative nd = false ∧ isEventLoopRunningNative nd1 = true.
Proof.
  unfold isEventLoopRunningNative, startEventLoopNative, start_failed.
  destruct (pollData nd); [discriminate|].
  intros H. split; [done|].
  repeat (case_match; simplify_eq; try discriminate).
  all: simplify_option_eq.
  all: repeat (case_match; simplify_eq; try discriminate).
  all: match goal with
       | H : setUpEventLoop ?w ?n = (_, ?n', _) |- _ =>
           pose proof (setUpEventLoop_poll w n) as Hp; rewrite H in Hp;
           simpl in Hp
       end.
  all: simpl in *; congruence.
Qed.

Lemma register_agent_only_adapter (w : world) (nd : native_data_t)
    (agent_path capabilities : string) :
  let nd' := (register_agent w nd agent_path capabilities).1.2 in
  nd' = with_adapter nd (adapter nd').
Proof.
  unfold register_agent, with_adapter.
  repeat case_match; simplify_eq; simpl; by destruct nd.
Qed.

Lemma setUpEventLoop_only_adapter (w : world) (nd : native_data_t) :
  let nd' := (setUpEventLoop w nd).1.2 in
  nd' = with_adapter nd (adapter nd').
Proof.
  unfold setUpEventLoop.
  pose proof (register_agent_only_adapter w nd "/android/bluetooth/agent"
                "DisplayYesNo") as Hreg.
  repeat case_match; simplify_eq; simpl in *; try done; by destruct nd.
Qed.

(** The watch set a successful start leaves to the worker: well formed, and
    its one live cell is the read end of the control socket, watched for
    input. *)
Lemma startEventLoopNative_watch_set (w : world) (nd nd1 : native_data_t)
    (t1 : list action) :
  startEventLoopNative w nd = Some (true, nd1, t1) →
  wf nd1 ∧ no_duplicate_watch nd1 ∧
  live nd1 = [mk_pollfd (controlFdR nd1) POLLIN 0].
Proof.
  unfold startEventLoopNative, start_failed.
  destruct (pollData nd); [discriminate|]. intros H.
  repeat (case_match; simplify_eq; try discriminate).
  all: simplify_option_eq.
  all: repeat (case_match; simplify_eq; try discriminate).
  match goal with
  | H : setUpEventLoop ?w ?n = (_, ?n', _) |- _ =>
      pose proof (setUpEventLoop_only_adapter w n) as Hn; rewrite H in Hn;
      simpl in Hn; rewrite Hn; clear Hn H
  end.
  match goal with
  | H : store _ _ _ = Some _ |- _ =>
      unfold store in H; case_decide; simplify_eq
  end.
  rewrite length_replicate in *.
  destruct DEFAULT_INITIAL_POLLFD_COUNT as [|cap]; [lia|].
  simpl in *. simplify_eq. unfold wf, no_duplicate_watch, live. simpl.
  rewrite !length_replicate. split; [lia|]. split; [|done].
  apply NoDup_singleton.
Qed.

(** Whatever the worker applies after a successful start, the watch set
    holds no descriptor and events pair twice. *)
Corollary started_loop_holds_no_duplicates (w : world)
    (nd nd1 : native_data_t) (t1 : list action) (ms : list ControlMessage) :
  startEventLoopNative w nd = Some (true, nd1, t1) →
  ∃ nd' t, handleControls nd1 ms = Some (nd', t) ∧ wf nd' ∧
           no_duplicate_watch nd'.
Proof.
  intros (Hwf & Hnodup & _)%startEventLoopNative_watch_set.
  by apply handleControls_invariant.
Qed.

(** C5. A call of start() on a running loop, whatever its watch set holds
    and however the loop got there, returns false, logs the warning and
    nothing else between taking and releasing the mutex, and leaves the
    native data (buffers, counters, control sockets, global reference,
    thread) as they are.  A call that returns true started from an idle loop
    and leaves a running one, on which every further call is refused in this
    way: the loop goes from idle to running once, in the first call. *)
Theorem startEventLoopNative_second_call (w : world) (nd : native_data_t) :
  (isEventLoopRunningNative nd = true →
   startEventLoopNative w nd
   = Some (false, nd,
           [AMutexLock; ALog LOGW "trying to start EventLoop a second time!";
            AMutexUnlock])) ∧
  (∀ nd1 t1,
     startEventLoopNative w nd = Some (true, nd1, t1) →
     isEventLoopRunningNative nd = false ∧
     isEventLoopRunningNative nd1 = true ∧
     ∀ w2, startEventLoopNative w2 nd1
           = Some (false, nd1,
                   [AMutexLock;
                    ALog LOGW "trying to start EventLoop a second time!";
                    AMutexUnlock])).
Proof.
  split.
  - apply startEventLoopNative_running.
  - intros nd1 t1 H. apply startEventLoopNative_success in H as [Hidle Hrun].
    split; [done|]. split; [done|]. intros w2.
    by apply startEventLoopNative_running.
Qed.

(** ** The pairing agent: theorems *)

(** C10. A method call that reaches the agent's handler with a null
    native-data pointer is reported as handled; the handler logs the call,
    invokes no Java method and sends nothing. *)
Theorem agent_event_filter_null_data (w : world) (ids : method_ids)
    (path : string) (interface : option string) (member : string)
    (args : list DBusArg) :
  ∃ t,
    agent_event_filter w ids (MethodCall path interface member args) None
    = Some (DBUS_HANDLER_RESULT_HANDLED, t) ∧
    calls t = [] ∧ sends t = [] ∧ blocking_calls t = [].
Proof. eexists. split; [reflexivity|]. done. Qed.

Lemma GetMethodID_declared (clazz : jclass) (m : jmethod) :
  m ∈ clazz → GetMethodID clazz (method_name m) (signature m) = Some m.
Proof.
  intros Hin. unfold GetMethodID. destruct m as [n s]; simpl.
  by rewrite bool_decide_eq_true_2.
Qed.

(** C4, as the agent does it.  A well-formed Authorize call that comes
    with native data asks the application once; the reply its answer calls
    for is a method return for true and the error
    "org.bluez.Error.Rejected" / "Authorization rejected" for false.  When
    the bus library builds that reply, it is the one message sent, on the
    connection of the native data, and the call is reported as handled; when
    the library cannot build it, nothing is sent and the call is reported as
    not yet handled. *)
Theorem agent_authorize_reply (w : world) (clazz : jclass)
    (nd : native_data_t) (path : string) (interface : option string)
    (object_path uuid : string) (rest : list DBusArg) :
  onAgentAuthorize_method ∈ clazz →
  interface ∈ [None; Some "org.bluez.Agent"] →
  let msg := MethodCall path interface "Authorize"
               (ArgObjectPath object_path :: ArgString uuid :: rest) in
  let reply := authorize_reply msg (onAgentAuthorize w object_path uuid) in
  ∃ t,
    agent_event_filter w (classInitNative clazz) msg (Some nd)
    = Some (if dbus_message_new w reply then DBUS_HANDLER_RESULT_HANDLED
            else DBUS_HANDLER_RESULT_NOT_YET_HANDLED, t) ∧
    calls t = [(onAgentAuthorize_method, [JString object_path; JString uuid])] ∧
    sends t = if dbus_message_new w reply then [(conn nd, reply)] else [].
Proof.
  intros Hm Hi msg reply.
  pose proof (GetMethodID_declared clazz _ Hm) as Hid. simpl in Hid.
  assert (dbus_message_is_method_call msg "org.bluez.Agent" "Cancel" = false)
    as Hcancel by (by destruct interface).
  assert (dbus_message_is_method_call msg "org.bluez.Agent" "Authorize" = true)
    as Hauth.
  { apply elem_of_cons in Hi as [->|Hi]; [done|].
    by apply list_elem_of_singleton in Hi as ->. }
  unfold agent_event_filter. rewrite Hcancel, Hauth.
  cbn [dbus_message_get_type msg negb Z.eqb DBUS_MESSAGE_TYPE_METHOD_CALL
       Pos.eqb classInitNative method_onAgentAuthorize].
  rewrite Hid. subst reply. unfold authorize_reply. simpl.
  destruct (onAgentAuthorize w object_path uuid);
    match goal with
    | |- context [dbus_message_new w ?m] => destruct (dbus_message_new w m)
    end; simpl; eexists; (split; [reflexivity|]); done.
Qed.

(** C4, counterexample to the sentence as stated: a well-formed Authorize
    call that the application grants, at a moment when the bus library
    cannot allocate the reply, is answered by nothing and reported as not
    yet handled. *)
Lemma authorize_without_reply : ¬ authorize_always_replies.
Proof.
  intros H.
  destruct (H starved_world BluetoothEventLoop_class two_watches
              "/android/bluetooth/agent" "/org/bluez/hci0/dev_00_11_22_33_44_55"
              "00001101-0000-1000-8000-00805f9b34fb")
    as (t & Hrun & _).
  { apply (bool_decide_unpack _). by vm_compute. }
  vm_compute in Hrun. discriminate.
Qed.

(** ** Signals: theorems *)


Lemma get_adapter_path_calls (w : world) (c : option Z) :
  blocking_calls (get_adapter_path w c).2
  = if dbus_message_new w DefaultAdapter then [DefaultAdapter] else [].
Proof.
  unfold get_adapter_path. fold DefaultAdapter.
  destruct (dbus_message_new w DefaultAdapter); simpl; [|done].
  repeat case_match; done.
Qed.




(** ** Results of asynchronous calls: theorems *)

Lemma append_eqb (base a b : string) :
  String.eqb (base +:+ a) (base +:+ b) = String.eqb a b.
Proof.
  induction base as [|c base IH]; simpl; [done|].
  by rewrite Ascii.eqb_refl.
Qed.

(** The chain of comparisons computes the specification's table. *)
Lemma bond_result_reported (e : DBusError) (r : option Z) :
  reported e r → (bond_result e).1 = r.
Proof.
  unfold bond_result, strcmp_eq.
  destruct 1 as [Hn|Hn|Hn|Hn|Hn|Hn Hm|Hn Hm|Hn Hm];
    try (rewrite Hn, !append_eqb; try rewrite Hm; reflexivity).
  repeat (apply not_elem_of_cons in Hn as [? Hn]).
  repeat match goal with
         | H : name e ≠ _ |- _ => apply String.eqb_neq in H; rewrite H; clear H
         end.
  destruct (String.eqb_spec (name e) (BLUEZ_DBUS_BASE_IFC +:+ ".Error.InProgress"))
    as [Heq|_]; [|reflexivity].
  simpl.
  destruct (String.eqb_spec (message e) "Bonding in progress") as [Hb|_].
  { exfalso. apply Hm. split; [done|]. rewrite Hb, !elem_of_cons. auto. }
  destruct (String.eqb_spec (message e) "Discover in progress") as [Hd|_].
  { exfalso. apply Hm. split; [done|]. rewrite Hd, !elem_of_cons. auto. }
  reflexivity.
Qed.

(** The table has a row for every error. *)
Lemma reported_total (e : DBusError) : ∃ r, reported e r.
Proof.
  destruct (decide (name e = BLUEZ_DBUS_BASE_IFC +:+ ".Error.AuthenticationFailed"));
    [eexists; by apply reported_auth_failed|].
  destruct (decide (name e = BLUEZ_DBUS_BASE_IFC +:+ ".Error.AuthenticationRejected"));
    [eexists; by apply reported_auth_rejected|].
  destruct (decide (name e = BLUEZ_DBUS_BASE_IFC +:+ ".Error.AuthenticationCanceled"));
    [eexists; by apply reported_auth_canceled|].
  destruct (decide (name e = BLUEZ_DBUS_BASE_IFC +:+ ".Error.ConnectionAttemptFailed"));
    [eexists; by apply reported_device_down|].
  destruct (decide (name e = BLUEZ_DBUS_BASE_IFC +:+ ".Error.AlreadyExists"));
    [eexists; by apply reported_already_exists|].
  destruct (decide (name e = BLUEZ_DBUS_BASE_IFC +:+ ".Error.InProgress"
                    ∧ message e = "Bonding in progress")) as [[? ?]|Hb];
    [eexists; by apply reported_bonding|].
  destruct (decide (name e = BLUEZ_DBUS_BASE_IFC +:+ ".Error.InProgress"
                    ∧ message e = "Discover in progress")) as [[? ?]|Hd];
    [eexists; by apply reported_discovery|].
  eexists. apply reported_other.
  - simpl. rewrite !not_elem_of_cons. repeat split; try done.
    apply not_elem_of_nil.
  - intros [Hn Hm]. rewrite !elem_of_cons, elem_of_nil in Hm. tauto.
Qed.

(** C2. Every completion message makes [onCreatePairedDeviceResult]
    return and free the context once.  A reply that is not an error is
    reported as SUCCESS; an error reply is reported with the result the
    table gives for its name and text (AUTH_FAILED, AUTH_REJECTED,
    AUTH_CANCELED, REMOTE_DEVICE_DOWN, SUCCESS for AlreadyExists,
    DISCOVERY_IN_PROGRESS, ERROR for anything else), by one call of the Java
    method; for InProgress with "Bonding in progress" no Java method is
    called. *)
Theorem onCreatePairedDeviceResult_reports (clazz : jclass)
    (msg : DBusMessage) (user : heap_string) (nd : native_data_t) :
  onCreatePairedDeviceResult_method ∈ clazz →
  ∃ t,
    onCreatePairedDeviceResult (classInitNative clazz) msg user nd = Some t ∧
    frees t = [block user] ∧
    match dbus_set_error_from_message msg with
    | None =>
        calls t = [(onCreatePairedDeviceResult_method,
                    [JString (chars user); JInt BOND_RESULT_SUCCESS])]
    | Some e =>
        (∃ r, reported e r) ∧
        ∀ r, reported e r →
             calls t = match r with
                       | Some result =>
                           [(onCreatePairedDeviceResult_method,
                             [JString (chars user); JInt result])]
                       | None => []
                       end
    end.
Proof.
  intros Hm.
  pose proof (GetMethodID_declared clazz _ Hm) as Hid. simpl in Hid.
  unfold onCreatePairedDeviceResult.
  cbn [classInitNative method_onCreatePairedDeviceResult]. rewrite Hid.
  destruct (dbus_set_error_from_message msg) as [e|].
  - destruct (bond_result e) as [result log] eqn:Hb.
    assert (calls log = [] ∧ frees log = []) as [Hcl Hfl].
    { unfold bond_result in Hb. repeat case_match; simplify_eq; done. }
    assert (∀ (pre post : list action),
              calls (pre ++ post) = calls pre ++ calls post ∧
              frees (pre ++ post) = frees pre ++ frees post) as Happ.
    { intros. unfold calls, frees. by rewrite !omap_app. }
    destruct result as [result|]; simpl; eexists; (split; [reflexivity|]).
    + split.
      { change (frees (log ++ [ACallMethod (me nd) onCreatePairedDeviceResult_method
                                 [JString (chars user); JInt result];
                               AFree (block user)]) = [block user]).
        rewrite (proj2 (Happ _ _)), Hfl. done. }
      split; [apply reported_total|]. intros r Hr.
      apply bond_result_reported in Hr. rewrite Hb in Hr. simpl in Hr. subst r.
      change (calls (log ++ [ACallMethod (me nd) onCreatePairedDeviceResult_method
                               [JString (chars user); JInt result];
                             AFree (block user)]) = 
              [(onCreatePairedDeviceResult_method,
                [JString (chars user); JInt result])]).
      rewrite (proj1 (Happ _ _)), Hcl. done.
    + split.
      { change (frees (log ++ [AFree (block user)]) = [block user]).
        rewrite (proj2 (Happ _ _)), Hfl. done. }
      split; [apply reported_total|]. intros r Hr.
      apply bond_result_reported in Hr. rewrite Hb in Hr. simpl in Hr. subst r.
      change (calls (log ++ [AFree (block user)]) = []).
      rewrite (proj1 (Happ _ _)), Hcl. done.
  - simpl. eexists. split; [reflexivity|]. done.
Qed.

(** The body of [onGetDeviceServiceChannelResult], had the method id been
    looked up: one call of the Java method, with the decoded channel for a
    reply whose first argument is a 32-bit integer and with -2 for an error
    reply or any other argument list, and then the context is freed. *)
Lemma onGetDeviceServiceChannelResult_body (ids : method_ids) (m : jmethod)
    (msg : DBusMessage) (user : heap_string) (nd : native_data_t) :
  method_onGetDeviceServiceChannelResult ids = Some m →
  let decoded :=
    match msg with
    | ErrorMessage _ _ => None
    | _ => match message_args msg with ArgInt32 c :: _ => Some c | _ => None end
    end in
  onGetDeviceServiceChannelResult ids msg user nd
  = Some ([ALog LOGV "onGetDeviceServiceChannelResult";
           ALog LOGV "... address = %s"]
          ++ (if decoded is Some _ then []
              else [ALog LOGE "%s: D-Bus error: %s (%s)"])
          ++ [ACallMethod (me nd) m
                [JString (chars user); JInt (default (-2) decoded)];
              AFree (block user)]).
Proof.
  intros Hid decoded. unfold onGetDeviceServiceChannelResult. rewrite Hid.
  subst decoded.
  destruct msg as [p i mem args|args|n args|p i mem args]; simpl;
    try (destruct args as [|[| | | |[]] ?]; simpl); reflexivity.
Qed.

(** C3, on the code.  [classInitNative] never looks up the Java method
    onGetDeviceServiceChannelResult, so its static id is still NULL when the
    completion callback runs: whatever the class declares and whatever the
    reply, the callback passes a NULL method id to [CallVoidMethod], which
    JNI leaves undefined; no application callback is invoked. *)
Theorem onGetDeviceServiceChannelResult_null_method_id (clazz : jclass)
    (msg : DBusMessage) (user : heap_string) (nd : native_data_t) :
  method_onGetDeviceServiceChannelResult (classInitNative clazz) = None ∧
  onGetDeviceServiceChannelResult (classInitNative clazz) msg user nd = None.
Proof.
  split; [reflexivity|].
  unfold onGetDeviceServiceChannelResult.
  cbn [classInitNative method_onGetDeviceServiceChannelResult CallMethod
       mbind option_bind].
  by repeat case_match.
Qed.

#[local] Set Default Proof Using "Type".


(** ** The watch set: more on adds and removes *)

(** X1.  The events a watch is stored with depend on the readable and writable
    bits of its flags alone and are one of 0, POLLIN, POLLOUT and
    POLLIN|POLLOUT. *)
Theorem poll_events_two_bits (flags : Z) :
  poll_events flags
  = poll_events (Z.land flags (Z.lor DBUS_WATCH_READABLE DBUS_WATCH_WRITABLE)) ∧
  poll_events flags ∈ [0; POLLIN; POLLOUT; Z.lor POLLIN POLLOUT].
Proof.
  unfold poll_events, DBUS_WATCH_READABLE, DBUS_WATCH_WRITABLE. split.
  - rewrite <- !Z.land_assoc. reflexivity.
  - destruct (Z.land flags 1 =? 0), (Z.land flags 2 =? 0);
      apply (bool_decide_unpack _); by vm_compute.
Qed.

(** An add that needs no allocation, or whose allocations succeed, stores
    its cell behind the live ones. *)
Lemma handleWatchAdd_stored (nd : native_data_t) (newFD flags watch : Z)
    (temp : malloc_result pollfd) (temp2 : malloc_result Z) :
  wf nd → ¬ present nd newFD flags →
  pollMemberCount nd ≠ pollDataSize nd ∨
    (∃ c1 c2, temp = Block c1 ∧ temp2 = Block c2) →
  ∃ nd' t,
    handleWatchAdd nd newFD flags watch temp temp2 = Some (nd', t) ∧
    wf nd' ∧ calls t = [] ∧
    pollMemberCount nd' = S (pollMemberCount nd) ∧
    live nd' = live nd ++ [mk_pollfd newFD (poll_events flags) 0] ∧
    live_watches nd' = live_watches nd ++ [watch].
Proof.
  intros Hwf Hnot Hok.
  destruct (handleWatchAdd_outcome nd newFD flags watch temp temp2 Hwf)
    as (nd' & t & Hrun & Hwf' & Hcalls & Hcase).
  exists nd', t. split; [done|]. split; [done|]. split; [done|].
  destruct Hcase as [(Hc & _)|(_ & Hc & Hl & Hw)]; [|done].
  exfalso. destruct (decide (pollMemberCount nd = pollDataSize nd)) as [Heq|Hne].
  - destruct Hok as [?|(c1 & c2 & -> & ->)]; [done|].
    rewrite (handleWatchAdd_grow nd newFD flags watch _ _ Hwf Hnot Heq) in Hrun.
    simplify_eq. simpl in Hc. lia.
  - rewrite (handleWatchAdd_room nd newFD flags watch _ _ Hwf Hnot Hne) in Hrun.
    simplify_eq. simpl in Hc. lia.
Qed.

Lemma present_keys (nd : native_data_t) (wfd flags : Z) :
  present nd wfd flags ↔ (wfd, poll_events flags) ∈ keys nd.
Proof. unfold present, keys. by rewrite elem_of_list_to_set. Qed.

Lemma delete_NoDup_elem_of {A} (l : list A) (y : nat) (x : A) :
  NoDup l → l !! y = Some x →
  ∀ z, z ∈ delete y l ↔ z ∈ l ∧ z ≠ x.
Proof.
  clear message_from_error. intros Hnd Hy z.
  pose proof (take_drop_middle l y x Hy) as Hsplit.
  assert (z ∈ l ↔ z ∈ take y l ∨ z = x ∨ z ∈ drop (S y) l) as ->.
  { rewrite <- Hsplit at 1. rewrite elem_of_app, elem_of_cons. tauto. }
  rewrite <- Hsplit in Hnd.
  apply NoDup_app in Hnd as (_ & Hdisj & Hnd).
  apply NoDup_cons in Hnd as [Hx _].
  rewrite delete_take_drop, elem_of_app. split.
  - intros [Hz|Hz]; (split; [tauto|]); intros ->.
    + apply (Hdisj x Hz). by left.
    + done.
  - intros [[Hz|[->|Hz]] Hne]; tauto.
Qed.

(** One request, as a step on the set of pairs. *)
Lemma handleControl_implied (nd : native_data_t) (m : ControlMessage) :
  wf nd → no_duplicate_watch nd → allocates m →
  ∃ nd' t,
    handleControl nd m = Some (nd', t) ∧ wf nd' ∧ no_duplicate_watch nd' ∧
    calls t = [] ∧ keys nd' = implied (keys nd) m.
Proof.
  intros Hwf Hnodup Halloc.
  destruct (handleControl_invariant nd m Hwf Hnodup)
    as (nd' & t & Hrun & Hwf' & Hnodup').
  exists nd', t. split; [done|]. split; [done|]. split; [done|].
  destruct m as [newFD flags watch temp temp2|removeFD flags]; simpl in *.
  - destruct (decide (present nd newFD flags)) as [Hin|Hnot].
    + rewrite handleWatchAdd_duplicate in Hrun by done. simplify_eq.
      split; [done|]. apply present_keys in Hin.
      apply set_eq. intros k. rewrite elem_of_union, elem_of_singleton.
      split; [auto | by intros [?| ->]].
    + destruct temp as [|c1]; [done|]. destruct temp2 as [|c2]; [done|].
      destruct (handleWatchAdd_stored nd newFD flags watch (Block c1) (Block c2)
                  Hwf Hnot) as (nd1 & t1 & Hrun1 & _ & Hc & _ & Hl & _);
        [right; eauto|].
      rewrite Hrun1 in Hrun. simplify_eq. split; [done|].
      unfold keys. rewrite Hl, fmap_app, list_to_set_app_L. simpl.
      by rewrite (right_id_L ∅ (∪)).
  - destruct (decide (present nd removeFD flags)) as [Hin|Hnot].
    + destruct (handleWatchRemove_found nd removeFD flags Hwf Hin)
        as (y & e & last & lastw & Hy & He & Hkey & _ & Hlast & _ & Hrun1).
      rewrite Hrun1 in Hrun. simplify_eq. split; [done|].
      assert (live (with_poll nd (Some (<[y:=last]> (cells (pollData nd))))
                      (Some (<[y:=lastw]> (cells (watchData nd))))
                      (pollDataSize nd) (pred (pollMemberCount nd)))
              ≡ₚ delete y (live nd)) as Hperm
        by (unfold live; simpl; by apply swap_with_last).
      unfold keys. rewrite Hperm, list_fmap_delete.
      apply set_eq. intros k.
      rewrite elem_of_list_to_set, elem_of_difference, elem_of_list_to_set,
        elem_of_singleton.
      apply (delete_NoDup_elem_of _ y); [done|].
      rewrite list_lookup_fmap. unfold live.
      rewrite lookup_take_lt by done. by rewrite He, <- Hkey.
    + rewrite handleWatchRemove_absent in Hrun by done. simplify_eq.
      split; [done|]. apply (not_iff_compat (present_keys _ _ _)) in Hnot.
      apply set_eq. intros k. rewrite elem_of_difference, elem_of_singleton.
      split; [|by intros [? _]]. intros Hk. split; [done|]. by intros ->.
Qed.

Lemma handleControls_keys (ms : list ControlMessage) (nd : native_data_t) :
  wf nd → no_duplicate_watch nd → Forall allocates ms →
  ∃ nd' t,
    handleControls nd ms = Some (nd', t) ∧
    wf nd' ∧ no_duplicate_watch nd' ∧
    keys nd' = foldl implied (keys nd) ms ∧
    calls t = [].
Proof.
  revert nd. induction ms as [|m ms IH]; intros nd Hwf Hnodup Hall; simpl.
  - by exists nd, [].
  - apply Forall_cons in Hall as [Hm Hall].
    destruct (handleControl_implied nd m Hwf Hnodup Hm)
      as (nd1 & t1 & -> & Hwf1 & Hnodup1 & Hc1 & Hk1).
    destruct (IH nd1 Hwf1 Hnodup1 Hall)
      as (nd2 & t2 & Hrun2 & Hwf2 & Hnodup2 & Hk2 & Hc2).
    simpl. rewrite Hrun2. simpl. exists nd2, (t1 ++ t2). split; [done|].
    split; [done|]. split; [done|]. split; [by rewrite Hk2, Hk1|].
    unfold calls in *. by rewrite omap_app, Hc1, Hc2.
Qed.

Lemma keys_size (nd : native_data_t) :
  wf nd → no_duplicate_watch nd → size (keys nd) = pollMemberCount nd.
Proof.
  intros Hwf Hnodup. unfold keys. rewrite size_list_to_set by done.
  by rewrite length_fmap, live_length.
Qed.

(** X2.  With every allocation succeeding, a sequence of requests leaves in the
    watch set exactly the pairs the sequence implies: each add puts its
    pair in, each remove takes its pair out, and a pair added twice is there
    once, so that the member count is the number of pairs.  No request
    calls into Java. *)
Theorem handleControls_implied (ms : list ControlMessage)
    (nd : native_data_t) :
  wf nd → no_duplicate_watch nd → Forall allocates ms →
  ∃ nd' t,
    handleControls nd ms = Some (nd', t) ∧
    keys nd' = foldl implied (keys nd) ms ∧
    size (keys nd') = pollMemberCount nd' ∧
    calls t = [].
Proof.
  intros Hwf Hnodup Hall.
  destruct (handleControls_keys ms nd Hwf Hnodup Hall)
    as (nd' & t & Hrun & Hwf' & Hnodup' & Hk & Hc).
  exists nd', t. split; [done|]. split; [done|]. split; [|done].
  by apply keys_size.
Qed.

(** X3.  Adding a pair that is not in the watch set and removing it again
    gives back the stored entries and the count: the new cell is the last
    live one, so the removal copies it over itself. *)
Theorem handleWatchAdd_then_remove (nd : native_data_t)
    (newFD flags watch : Z)
    (temp : malloc_result pollfd) (temp2 : malloc_result Z) :
  wf nd → ¬ present nd newFD flags →
  pollMemberCount nd ≠ pollDataSize nd ∨
    (∃ c1 c2, temp = Block c1 ∧ temp2 = Block c2) →
  ∃ nd1 t1 nd2,
    handleWatchAdd nd newFD flags watch temp temp2 = Some (nd1, t1) ∧
    present nd1 newFD flags ∧
    handleWatchRemove nd1 newFD flags = Some (nd2, []) ∧
    entries nd2 = entries nd ∧
    pollMemberCount nd2 = pollMemberCount nd.
Proof.
  intros Hwf Hnot Hok.
  destruct (handleWatchAdd_stored nd newFD flags watch temp temp2 Hwf Hnot Hok)
    as (nd1 & t1 & Hrun1 & Hwf1 & _ & Hc1 & Hl1 & Hw1).
  pose proof (live_length nd Hwf) as Hlen.
  pose proof (live_watches_length nd Hwf) as Hlenw.
  assert (present nd1 newFD flags) as Hin.
  { unfold present. rewrite Hl1, fmap_app, elem_of_app. right.
    by apply list_elem_of_singleton. }
  destruct (handleWatchRemove_found nd1 newFD flags Hwf1 Hin)
    as (y & e & last & lastw & Hy & He & Hkey & Hfirst & Hlast & Hlastw & Hrun2).
  assert (y = pollMemberCount nd) as ->.
  { destruct (decide (y < pollMemberCount nd)%nat) as [Hlt|]; [|lia].
    exfalso. apply Hnot. apply present_lookup. exists y, e. split; [done|].
    split; [|done].
    assert (live nd1 !! y = Some e) as Hy1
      by (unfold live; by rewrite lookup_take_lt).
    rewrite Hl1, lookup_app_l in Hy1 by lia.
    by apply lookup_take_Some in Hy1 as [? _]. }
  rewrite Hc1 in Hlast, Hlastw, Hrun2. simpl in Hlast, Hlastw, Hrun2.
  rewrite He in Hlast. simplify_eq.
  eexists nd1, t1, _. split; [done|]. split; [done|]. split; [exact Hrun2|].
  rewrite !list_insert_id by done. split; [|done].
  unfold entries, live, live_watches; simpl.
  fold (live nd1) (live_watches nd1).
  assert (take (pollMemberCount nd) (cells (pollData nd1)) = live nd) as ->.
  { rewrite <- (take_app_length' (live nd) [mk_pollfd newFD (poll_events flags) 0]
                  (pollMemberCount nd)) by done.
    rewrite <- Hl1. unfold live. rewrite take_take. f_equal. lia. }
  assert (take (pollMemberCount nd) (cells (watchData nd1)) = live_watches nd)
    as ->; [|done].
  rewrite <- (take_app_length' (live_watches nd) [watch] (pollMemberCount nd))
    by done.
  rewrite <- Hw1. unfold live_watches. rewrite take_take. f_equal. lia.
Qed.

(** ** The control socket, from the hooks to the worker *)

Lemma socket_data_app (sock : Z) (t1 t2 : list action) :
  socket_data sock (t1 ++ t2) = socket_data sock t1 ++ socket_data sock t2.
Proof. apply omap_app. Qed.

(** The worker reads back what one hook call wrote. *)
Lemma controlLoop_hook (w : world) (removed : string -> bool)
    (mallocs : nat -> malloc_result pollfd * malloc_result Z) (k : nat)
    (h : hook_call) (at_call nd : native_data_t) (tail : list ctl_field) :
  controlLoop w removed mallocs k nd
    (socket_data (controlFdW at_call) (call_hook at_call h) ++ tail)
  = match request h (mallocs k) with
    | None => controlLoop w removed mallocs k nd tail
    | Some m =>
        '(nd1, t) ← handleControl nd m;
        '(ended, nd2, rest, t') ←
          controlLoop w removed mallocs (k + adds [m]) nd1 tail;
        Some (ended, nd2, rest, (Did <$> t) ++ t')
    end.
Proof.
  destruct h as [watch|watch|watch]; unfold request, call_hook,
    dbusToggleWatch, dbusAddWatch, dbusRemoveWatch, socket_data;
    try destruct (dbus_watch_get_enabled watch); simpl;
    rewrite ?Z.eqb_refl; simpl; rewrite ?Nat.add_1_r, ?Nat.add_0_r;
    reflexivity.
Qed.

Lemma adds_requests_cons (h : hook_call) (hs : list hook_call)
    (mallocs : nat -> malloc_result pollfd * malloc_result Z) (k : nat) :
  requests (h :: hs) mallocs k
  = match request h (mallocs k) with
    | Some m => m :: requests hs mallocs (k + adds [m])
    | None => requests hs mallocs k
    end.
Proof.
  simpl. destruct (request h (mallocs k)) as [[]|]; simpl;
    by rewrite ?Nat.add_1_r, ?Nat.add_0_r.
Qed.

(** The worker reads back what a run of hook calls wrote: it applies their
    requests in order and goes on with what is behind them in the
    socket. *)
Lemma controlLoop_hooks (w : world) (removed : string -> bool)
    (mallocs : nat -> malloc_result pollfd * malloc_result Z)
    (hs : list hook_call) (k : nat) (at_call nd : native_data_t)
    (tail : list ctl_field) :
  controlLoop w removed mallocs k nd
    (hook_writes at_call hs ++ tail)
  = '(nd1, t) ← handleControls nd (requests hs mallocs k);
    '(ended, nd2, rest, t') ←
      controlLoop w removed mallocs (k + adds (requests hs mallocs k)) nd1 tail;
    Some (ended, nd2, rest, (Did <$> t) ++ t').
Proof.
  unfold hook_writes. revert k nd. induction hs as [|h hs IH]; intros k nd.
  - simpl. rewrite Nat.add_0_r.
    destruct (controlLoop w removed mallocs k nd tail) as [[[[??]?]?]|]; done.
  - rewrite adds_requests_cons. cbn [mbind list_bind mjoin].
    change (mbind (call_hook at_call) (h :: hs))
      with (call_hook at_call h ++ (hs ≫= call_hook at_call)).
    rewrite socket_data_app, <- app_assoc, controlLoop_hook.
    destruct (request h (mallocs k)) as [m|]; [|apply IH].
    cbn [handleControls].
    destruct (handleControl nd m) as [[nd1 t1]|]; [|done]. cbn [mbind option_bind].
    rewrite IH.
    destruct (handleControls nd1 (requests hs mallocs (k + adds [m])))
      as [[nd2 t2]|]; [|done].
    cbn [mbind option_bind].
    replace (k + adds (m :: requests hs mallocs (k + adds [m])))%nat
      with (k + adds [m] + adds (requests hs mallocs (k + adds [m])))%nat
      by (destruct m; simpl; lia).
    destruct (controlLoop w removed mallocs _ nd2 tail) as [[[[??]?]?]|];
      [|done].
    cbn [mbind option_bind]. by rewrite fmap_app, <- app_assoc.
Qed.

(** X5.  What the watch functions write to the control socket is what the
    worker's loop reads back: after a run of add, remove and toggle calls,
    the loop empties the socket, does not end the thread, and has applied
    exactly the requests of the calls, in order (nothing for the add of a
    disabled watch). *)
Theorem controlLoop_reads_hooks (w : world) (removed : string -> bool)
    (mallocs : nat -> malloc_result pollfd * malloc_result Z)
    (hs : list hook_call) (nd : native_data_t) :
  controlLoop w removed mallocs 0 nd (hook_writes nd hs)
  = match handleControls nd (requests hs mallocs 0) with
    | Some (nd', t) => Some (false, nd', [], Did <$> t)
    | None => None
    end.
Proof.
  rewrite <- (app_nil_r (hook_writes _ _)), controlLoop_hooks.
  destruct (handleControls nd (requests hs mallocs 0)) as [[nd' t]|]; [|done].
  simpl. by rewrite app_nil_r.
Qed.

(** An EXIT code behind the hooks' data ends the thread after the requests
    before it were applied; what is behind it stays unread. *)
Lemma controlLoop_exit (w : world) (removed : string -> bool)
    (mallocs : nat -> malloc_result pollfd * malloc_result Z)
    (hs : list hook_call) (at_call nd : native_data_t)
    (unread : list ctl_field) :
  controlLoop w removed mallocs 0 nd
    (hook_writes at_call hs ++ CtlChar EVENT_LOOP_EXIT :: unread)
  = match handleControls nd (requests hs mallocs 0) with
    | Some (nd', t) =>
        Some (true, nd', unread,
              (Did <$> t)
              ++ [ASetWatchFunctions (conn nd') false]
              ++ tearDownEventLoop w removed nd'
              ++ [ADetachCurrentThread; Did (AShutdown (controlFdR nd'))])
    | None => None
    end.
Proof.
  rewrite controlLoop_hooks.
  by destruct (handleControls nd (requests hs mallocs 0)) as [[nd' t]|].
Qed.

Lemma requests_allocate (hs : list hook_call)
    (mallocs : nat -> malloc_result pollfd * malloc_result Z) (k : nat) :
  (∀ i, ∃ c1 c2, mallocs i = (Block c1, Block c2)) →
  Forall allocates (requests hs mallocs k).
Proof.
  intros Hm. revert k. induction hs as [|h hs IH]; intros k; [constructor|].
  rewrite adds_requests_cons.
  destruct (request h (mallocs k)) as [m|] eqn:Hreq; [|apply IH].
  constructor; [|apply IH].
  destruct (Hm k) as (c1 & c2 & Hk). rewrite Hk in Hreq.
  destruct h as [watch|watch|watch]; unfold request in Hreq; simpl in Hreq;
    repeat case_match; simplify_eq; done.
Qed.

(** X6.  From the bus library's calls to the watch set: when the worker has
    memory for every add, the watches the library added, removed and toggled
    through the hooks are, after the worker emptied the control socket,
    exactly the pairs in the watch set. *)
Theorem hooks_reach_watch_set (w : world) (removed : string -> bool)
    (mallocs : nat -> malloc_result pollfd * malloc_result Z)
    (hs : list hook_call) (nd : native_data_t) :
  wf nd → no_duplicate_watch nd →
  (∀ i, ∃ c1 c2, mallocs i = (Block c1, Block c2)) →
  ∃ nd' t,
    controlLoop w removed mallocs 0 nd (hook_writes nd hs)
    = Some (false, nd', [], t) ∧
    wf nd' ∧ no_duplicate_watch nd' ∧
    keys nd' = foldl implied (keys nd) (requests hs mallocs 0).
Proof.
  intros Hwf Hnodup Hm.
  destruct (handleControls_keys (requests hs mallocs 0) nd Hwf Hnodup)
    as (nd' & t & Hrun & Hwf' & Hnodup' & Hk & _);
    [by apply requests_allocate|].
  exists nd', (Did <$> t).
  rewrite <- (app_nil_r (hook_writes _ _)), controlLoop_hooks, Hrun.
  simpl. by rewrite app_nil_r.
Qed.

(** ** Start and stop *)

Lemma quiet_releases (t : list action) :
  Forall (λ a, quiet a = true) t → releases t = [].
Proof.
  unfold releases. induction 1 as [|a t Ha _ IH]; [done|]. simpl.
  unfold quiet in Ha. destruct (releasing a); [|done].
  by rewrite orb_true_r in Ha.
Qed.

Lemma quiet_not_threading (t : list action) (a : action) :
  Forall (λ a, quiet a = true) t → threading a = true → a ∉ t.
Proof.
  intros Ht Ha Hin. rewrite Forall_forall in Ht. apply Ht in Hin.
  unfold quiet in Hin. by rewrite Ha in Hin.
Qed.

Lemma releases_app (t1 t2 : list action) :
  releases (t1 ++ t2) = releases t1 ++ releases t2.
Proof. apply List.filter_app. Qed.

Lemma get_adapter_path_quiet (w : world) (c : option Z) :
  Forall (λ a, quiet a = true) (get_adapter_path w c).2.
Proof.
  unfold get_adapter_path. repeat case_match; simpl; repeat constructor.
Qed.

Lemma add_matches_result (w : world) (c : option Z) (rules : list string) :
  (add_matches w c rules).1 = forallb (dbus_bus_add_match w) rules ∧
  Forall (λ a, quiet a = true) (add_matches w c rules).2.
Proof.
  induction rules as [|r rules [IH1 IH2]]; simpl; [by split|].
  destruct (dbus_bus_add_match w r); simpl.
  - destruct (add_matches w c rules) as [ok t]; simpl in *.
    split; [done|]. by constructor.
  - split; [done|]. repeat constructor.
Qed.

Lemma register_agent_result (w : world) (nd : native_data_t) :
  let r := register_agent w nd "/android/bluetooth/agent" "DisplayYesNo" in
  (r.1.1 <? 0) = negb (agent_registers w (conn nd)) ∧
  Forall (λ a, quiet a = true) r.2.
Proof.
  unfold register_agent, agent_registers.
  pose proof (get_adapter_path_quiet w (conn nd)) as Hq.
  destruct (dbus_connection_register_object_path w); simpl;
    [|split; [done | repeat constructor]].
  destruct (get_adapter_path w (conn nd)) as [[a|] t]; simpl in *;
    [|split; [done|]; constructor; [done|];
      apply Forall_app; split; [done | repeat constructor]].
  destruct (dbus_message_new w _); simpl;
    [|split; [done|]; constructor; [done|];
      apply Forall_app; split; [done | repeat constructor]].
  destruct (dbus_connection_send_with_reply_and_block w _); simpl;
    (split; [done|]); constructor; try done;
    apply Forall_app; split; try done; repeat constructor.
Qed.

Lemma setUpEventLoop_result (w : world) (nd : native_data_t) :
  (setUpEventLoop w nd).1.1 = sets_up w (conn nd) ∧
  Forall (λ a, quiet a = true) (setUpEventLoop w nd).2.
Proof.
  unfold setUpEventLoop, sets_up.
  destruct (conn nd) as [c|] eqn:Hc; [|by split].
  rewrite (bool_decide_eq_true_2 (is_Some (Some c))) by eauto.
  destruct (add_matches_result w (Some c) match_rules) as [Hok Hq].
  destruct (register_agent_result w nd) as [Hr Hq'].
  rewrite Hc in Hr.
  pose proof (register_agent_only_adapter w nd "/android/bluetooth/agent"
                "DisplayYesNo") as Hn.
  destruct (add_matches w (Some c) match_rules) as [ok t].
  destruct (register_agent w nd _ _) as [[r nd'] t'].
  cbn [fst snd] in Hok, Hq, Hr, Hq', Hn. rewrite <- Hok, Hr.
  assert (conn nd' = Some c) as Hc' by (rewrite Hn; simpl; done).
  destruct (dbus_connection_add_filter w); cbn [negb andb];
    [|split; [done | repeat constructor]].
  destruct ok; cbn [negb andb fst snd]; [|split; [done | by constructor]].
  destruct (agent_registers w (Some c)); cbn [negb andb fst snd].
  - split; [done|]. constructor; [done|]. apply Forall_app; by split.
  - split; [done|]. constructor; [done|]. apply Forall_app. split; [done|].
    apply Forall_app. split; [done | repeat constructor].
Qed.

(** The [done:] block of a failed start: the fields are reset, and what
    the native data held is given back. *)
Lemma start_failed_shape (nd : native_data_t) (t : list action) :
  ∃ nd',
    start_failed nd t
    = (false, nd',
       AMutexLock
       :: t
       ++ ((if (controlFdW nd =? 0) && (controlFdR nd =? 0) then []
            else [AShutdown (controlFdW nd)])
           ++ match me nd with Some r => [ADeleteGlobalRef r] | None => [] end
           ++ free (pollData nd) AFreePollData
           ++ free (watchData nd) AFreeWatchData)
       ++ [AMutexUnlock]) ∧
    conn nd' = conn nd ∧ adapter nd' = adapter nd ∧ thread nd' = thread nd ∧
    reset nd'.
Proof.
  exists (start_failed nd t).1.2. unfold start_failed. split.
  - simpl. rewrite <- !app_assoc.
    by destruct ((controlFdW nd =? 0) && (controlFdR nd =? 0)).
  - simpl. split; [done|]. split; [done|]. split; [done|].
    unfold reset. simpl.
    by destruct (Z.eqb_spec (controlFdW nd) 0), (Z.eqb_spec (controlFdR nd) 0).
Qed.

Lemma releasing_held (nd : native_data_t) :
  Forall (λ a, releasing a = true)
    ((if (controlFdW nd =? 0) && (controlFdR nd =? 0) then []
      else [AShutdown (controlFdW nd)])
     ++ match me nd with Some r => [ADeleteGlobalRef r] | None => [] end
     ++ free (pollData nd) AFreePollData
     ++ free (watchData nd) AFreeWatchData).
Proof.
  destruct ((controlFdW nd =? 0) && (controlFdR nd =? 0)), (me nd),
    (pollData nd), (watchData nd); repeat constructor.
Qed.

Lemma releases_releasing (t : list action) :
  Forall (λ a, releasing a = true) t → releases t = t.
Proof.
  unfold releases. induction 1 as [|a t Ha _ IH]; [done|]. simpl.
  by rewrite Ha, IH.
Qed.

(** A start from idle, step by step: what it returns, the shape of its
    trace ([q] is what it did on the way, [rel] what a failed start gives
    back), and the native data it leaves. *)
Lemma startEventLoopNative_from_idle (w : world) (nd : native_data_t) :
  (0 < DEFAULT_INITIAL_POLLFD_COUNT)%nat → pollData nd = None →
  ∃ nd' q rel,
    startEventLoopNative w nd
    = Some (starts w (conn nd), nd',
            AMutexLock :: q
            ++ (if starts w (conn nd) then [APthreadCreate] else rel)
            ++ [AMutexUnlock]) ∧
    Forall (λ a, quiet a = true) q ∧
    Forall (λ a, releasing a = true) rel ∧
    conn nd' = conn nd ∧
    if starts w (conn nd)
    then isEventLoopRunningNative nd' = true ∧
         thread nd' = stored_thread (pthread_create w) ∧
         me nd' = NewGlobalRef w
    else reset nd' ∧ thread nd' = thread nd ∧
         (reset nd → rel = start_releases w).
Proof.
  intros Hcap Hidle. unfold startEventLoopNative, starts, start_releases.
  rewrite Hidle.
  assert (∀ (n : native_data_t) (t : list action) (expected : list action),
            conn n = conn nd → thread n = thread nd →
            Forall (λ a, quiet a = true) t →
            (reset nd →
             (if (controlFdW n =? 0) && (controlFdR n =? 0) then []
              else [AShutdown (controlFdW n)])
             ++ match me n with Some r => [ADeleteGlobalRef r] | None => [] end
             ++ free (pollData n) AFreePollData
             ++ free (watchData n) AFreeWatchData = expected) →
            ∃ nd' q rel,
              Some (start_failed n t)
              = Some (false, nd', AMutexLock :: q ++ rel ++ [AMutexUnlock]) ∧
              Forall (λ a, quiet a = true) q ∧
              Forall (λ a, releasing a = true) rel ∧
              conn nd' = conn nd ∧
              reset nd' ∧ thread nd' = thread nd ∧
              (reset nd → rel = expected)) as Hfail.
  { intros n t expected Hc Hth Ht Hrel.
    destruct (start_failed_shape n t) as (nd' & -> & Hc' & _ & Hth' & Hreset).
    eexists nd', t, _. split; [reflexivity|]. split; [done|].
    split; [apply releasing_held|]. split; [congruence|].
    split; [done|]. split; [congruence | done]. }
  destruct (malloc_pollData w) as [|c1]; simpl.
  { apply Hfail; [done | done | repeat constructor|].
    intros (_ & Hw & _ & _ & Hr & Hwr & Hme). simpl.
    by rewrite Hw, Hr, Hwr, Hme. }
  destruct (malloc_watchData w) as [|c2]; simpl.
  { apply Hfail; [done | done | repeat constructor|].
    intros (_ & _ & _ & _ & Hr & Hwr & Hme). simpl.
    by rewrite Hr, Hwr, Hme. }
  destruct (socketpair w) as [[r wr]|]; simpl.
  2:{ apply Hfail; [done | done | repeat constructor|].
      intros (_ & _ & _ & _ & Hr & Hwr & Hme). simpl.
      by rewrite Hr, Hwr, Hme. }
  destruct DEFAULT_INITIAL_POLLFD_COUNT as [|cap] eqn:Hdef; [lia|].
  cbn [replicate lookup list_lookup mbind option_bind]. unfold store.
  rewrite decide_True by (simpl; lia). cbn [mbind option_bind].
  match goal with
  | |- context [setUpEventLoop w ?n] =>
      destruct (setUpEventLoop_result w n) as [Hok Hquiet];
      pose proof (setUpEventLoop_only_adapter w n) as Hn;
      destruct (setUpEventLoop w n) as [[ok nd1] t]
  end.
  cbn [fst snd conn] in Hok, Hquiet, Hn. rewrite <- Hok.
  destruct ok; cbn [negb].
  - eexists _, (ANewGlobalRef :: t), []. split.
    + reflexivity.
    + split; [by constructor|]. split; [constructor|].
      rewrite Hn. simpl. done.
  - apply Hfail.
    + by rewrite Hn.
    + by rewrite Hn.
    + constructor; [done|]. apply Forall_app. split; [done|].
      repeat constructor.
    + intros _. rewrite Hn. reflexivity.
Qed.

(** X9.  A start from idle returns true exactly under [starts]: both buffers
    and the socket pair are obtained and the bus set-up succeeds.  The
    result of [pthread_create] is not looked at: on true the call was made,
    the loop counts as running and nothing was given back, whether or not a
    thread exists; the thread field holds the new thread's id, or whatever
    the failed call left there.  On false the loop's fields are reset, the
    thread field is untouched, no thread creation was attempted, and,
    starting from reset fields, the start has given back exactly what it had
    obtained: the write end of the socket pair is shut down (nothing is done
    to the read end), the global reference deleted, the buffers freed. *)
Theorem startEventLoopNative_succeeds_when (w : world) (nd : native_data_t) :
  (0 < DEFAULT_INITIAL_POLLFD_COUNT)%nat →
  isEventLoopRunningNative nd = false →
  ∃ nd' t,
    startEventLoopNative w nd = Some (starts w (conn nd), nd', t) ∧
    if starts w (conn nd)
    then isEventLoopRunningNative nd' = true ∧ APthreadCreate ∈ t ∧
         thread nd' = stored_thread (pthread_create w) ∧ releases t = []
    else reset nd' ∧ isEventLoopRunningNative nd' = false ∧
         thread nd' = thread nd ∧ (APthreadCreate ∉ t) ∧
         (reset nd → releases t = start_releases w).
Proof.
  intros Hcap Hidle.
  assert (pollData nd = None) as Hpd
    by (unfold isEventLoopRunningNative in Hidle; by destruct (pollData nd)).
  destruct (startEventLoopNative_from_idle w nd Hcap Hpd)
    as (nd' & q & rel & Hrun & Hq & Hrel & _ & Hcase).
  eexists _, _. split; [exact Hrun|].
  pose proof (quiet_releases q Hq) as Hnone.
  destruct (starts w (conn nd)).
  - destruct Hcase as (? & ? & _). split; [done|]. split.
    { rewrite elem_of_cons, !elem_of_app, !elem_of_cons. auto. }
    split; [done|].
    change (releases ([AMutexLock] ++ q ++ [APthreadCreate] ++ [AMutexUnlock])
            = []).
    by rewrite !releases_app, Hnone.
  - destruct Hcase as (Hreset & ? & Hexp). split; [done|]. split.
    { unfold isEventLoopRunningNative. by destruct Hreset as [-> _]. }
    split; [done|]. split.
    + rewrite not_elem_of_cons, !not_elem_of_app, not_elem_of_cons.
      split; [done|]. split; [by apply quiet_not_threading|].
      split; [|split; [done | apply not_elem_of_nil]].
      intros Hin. rewrite Forall_forall in Hrel. by apply Hrel in Hin.
    + intros Hnd.
      change (releases ([AMutexLock] ++ q ++ rel ++ [AMutexUnlock])
              = start_releases w).
      rewrite !releases_app, Hnone, (releases_releasing rel Hrel), <- Hexp
        by done.
      simpl. by rewrite app_nil_r.
Qed.

(** X10.  Every call of start takes the mutex first and releases it last, on the
    refusal of a second start and on every failure path too, and touches
    it nowhere in between. *)
Theorem startEventLoopNative_mutex (w : world) (nd : native_data_t) :
  (0 < DEFAULT_INITIAL_POLLFD_COUNT)%nat →
  ∃ r nd' q,
    startEventLoopNative w nd
    = Some (r, nd', [AMutexLock] ++ q ++ [AMutexUnlock]) ∧
    (AMutexLock ∉ q) ∧ (AMutexUnlock ∉ q).
Proof.
  intros Hcap.
  destruct (pollData nd) as [pd|] eqn:Hpd.
  - exists false, nd, [ALog LOGW "trying to start EventLoop a second time!"].
    split.
    + apply startEventLoopNative_running. unfold isEventLoopRunningNative.
      by rewrite Hpd.
    + rewrite !list_elem_of_singleton. done.
  - destruct (startEventLoopNative_from_idle w nd Hcap Hpd)
      as (nd' & q & rel & Hrun & Hq & Hrel & _).
    eexists _, nd',
      (q ++ (if starts w (conn nd) then [APthreadCreate] else rel)).
    split; [rewrite Hrun; simpl; by rewrite <- app_assoc|].
    rewrite Forall_forall in Hrel.
    split; rewrite not_elem_of_app;
      (split; [by apply quiet_not_threading|]);
      destruct (starts w (conn nd));
      rewrite ?list_elem_of_singleton; try done;
      intros Hin; by apply Hrel in Hin.
Qed.

(** X11.  Stop: on an idle loop it takes and releases the mutex and does
    nothing else.  On a running loop it writes the EXIT code, and nothing
    else, to the write end of the control socket and joins the worker; only
    after the join it deletes the global reference, frees the two buffers
    and shuts the write end of the socket pair down (it does nothing to the
    read end), and it resets the loop's fields.  Either way the loop is idle
    afterwards, and a second stop does nothing. *)
Theorem stopEventLoopNative_releases (nd joined again : native_data_t) :
  let stopped := (stopEventLoopNative nd joined).1 in
  let t := (stopEventLoopNative nd joined).2 in
  isEventLoopRunningNative stopped = false ∧
  stopEventLoopNative stopped again = (stopped, [Did AMutexLock; Did AMutexUnlock]) ∧
  if isEventLoopRunningNative nd
  then reset stopped ∧
       socket_data (controlFdW nd) (done_actions t) = [CtlChar EVENT_LOOP_EXIT] ∧
       (∃ before after,
          t = before ++ APthreadJoin (thread nd) :: after ∧
          releases (done_actions before) = [] ∧
          releases (done_actions after)
          = match me joined with Some r => [ADeleteGlobalRef r] | None => [] end
            ++ free (pollData joined) AFreePollData
            ++ free (watchData joined) AFreeWatchData
            ++ [AShutdown (controlFdW joined)])
  else stopped = nd ∧ t = [Did AMutexLock; Did AMutexUnlock].
Proof.
  unfold stopEventLoopNative, isEventLoopRunningNative.
  destruct (pollData nd) as [pd|] eqn:Hpd; simpl.
  - split; [done|]. split; [done|]. split; [done|]. split.
    + unfold socket_data, done_actions. simpl. rewrite Z.eqb_refl.
      rewrite !omap_app.
      by destruct (me joined), (pollData joined), (watchData joined).
    + eexists [Did AMutexLock; Did (AWrite (controlFdW nd) _)], _.
      split; [reflexivity|]. split; [done|].
      unfold done_actions.
      by destruct (me joined), (pollData joined), (watchData joined).
  - rewrite Hpd. done.
Qed.

(** X12.  The EXIT that stop writes ends the worker: reading it behind whatever
    the hooks wrote before, the worker's loop first applies those requests,
    then takes the watch functions away, tears the bus set-up down, detaches
    and shuts the read end down, and the thread ends with the socket
    empty. *)
Theorem stopEventLoopNative_ends_worker (w : world) (removed : string -> bool)
    (mallocs : nat -> malloc_result pollfd * malloc_result Z)
    (hs : list hook_call) (nd joined : native_data_t) :
  isEventLoopRunningNative nd = true →
  controlLoop w removed mallocs 0 nd
    (hook_writes nd hs
     ++ socket_data (controlFdW nd)
          (done_actions (stopEventLoopNative nd joined).2))
  = match handleControls nd (requests hs mallocs 0) with
    | Some (nd', t) =>
        Some (true, nd', [],
              (Did <$> t)
              ++ [ASetWatchFunctions (conn nd') false]
              ++ tearDownEventLoop w removed nd'
              ++ [ADetachCurrentThread; Did (AShutdown (controlFdR nd'))])
    | None => None
    end.
Proof.
  intros Hrun.
  assert (socket_data (controlFdW nd)
            (done_actions (stopEventLoopNative nd joined).2)
          = [CtlChar EVENT_LOOP_EXIT]) as ->.
  { unfold stopEventLoopNative, isEventLoopRunningNative in *.
    destruct (pollData nd); [|done].
    unfold socket_data, done_actions. simpl. rewrite Z.eqb_refl.
    rewrite !omap_app.
    by destruct (me joined), (pollData joined), (watchData joined). }
  apply controlLoop_exit.
Qed.

(** X13.  A stopped loop can be started again: the start after a stop is not
    refused as a second start; it succeeds under the same conditions as a
    first start, on the connection the native data holds. *)
Theorem startEventLoopNative_after_stop (w : world)
    (nd joined : native_data_t) :
  (0 < DEFAULT_INITIAL_POLLFD_COUNT)%nat →
  isEventLoopRunningNative nd = true →
  ∃ nd' t,
    startEventLoopNative w (stopEventLoopNative nd joined).1
    = Some (starts w (conn joined), nd', t) ∧
    isEventLoopRunningNative nd' = starts w (conn joined).
Proof.
  intros Hcap Hrun.
  assert (pollData (stopEventLoopNative nd joined).1 = None ∧
          conn (stopEventLoopNative nd joined).1 = conn joined) as [Hpd Hc].
  { unfold stopEventLoopNative, isEventLoopRunningNative in *.
    by destruct (pollData nd). }
  destruct (startEventLoopNative_from_idle w _ Hcap Hpd)
    as (nd' & q & rel & Hstart & _ & _ & _ & Hcase).
  rewrite Hc in Hstart, Hcase.
  eexists _, _. split; [exact Hstart|].
  destruct (starts w (conn joined)).
  - by destruct Hcase as [? _].
  - destruct Hcase as ([Hnone _] & _). unfold isEventLoopRunningNative.
    by rewrite Hnone.
Qed.

(** ** Signals: more on the dispatcher *)

Lemma with_adapter_same (nd : native_data_t) :
  with_adapter nd (adapter nd) = nd.
Proof. by destruct nd. Qed.

Lemma get_adapter_path_no_calls (w : world) (c : option Z) :
  calls (get_adapter_path w c).2 = [] ∧ sends (get_adapter_path w c).2 = [] ∧
  frees (get_adapter_path w c).2 = [].
Proof. unfold get_adapter_path. by repeat case_match. Qed.

Lemma CallMethod_calls (obj : option Z) (id : jmethodID) (args : list jvalue)
    (t : list action) :
  CallMethod obj id args = Some t →
  ∃ m, id = Some m ∧ t = [ACallMethod obj m args].
Proof.
  clear message_from_error. unfold CallMethod. destruct id; naive_solver.
Qed.

(** X18.  The dispatcher writes nothing of the native data but the cached
    adapter path, and that only for the adapter's PropertyChanged signal. *)
Theorem event_filter_frame (w : world) (ids : method_ids)
    (msg : DBusMessage) (nd nd' : native_data_t) (r : DBusHandlerResult)
    (t : list action) :
  event_filter w ids msg nd = Some (r, nd', t) →
  nd' = with_adapter nd (adapter nd') ∧
  (dbus_message_is_signal msg "org.bluez.Adapter" "PropertyChanged" = true ∨
   nd' = nd).
Proof.
  unfold event_filter. intros H.
  repeat (case_match; simplify_option_eq; try discriminate);
    rewrite ?with_adapter_same; auto.
Qed.

(** X19.  A signal the dispatcher handles itself is reported as handled whatever
    its payload, reaches at most one Java callback, and makes the
    dispatcher send no reply and free nothing.  The one message the
    dispatcher can put on the bus is the blocking DefaultAdapter call, and
    that only for the adapter's PropertyChanged signal. *)
Theorem event_filter_recognized (w : world) (ids : method_ids)
    (path interface member : string) (args : list DBusArg)
    (nd nd' : native_data_t) (r : DBusHandlerResult) (t : list action) :
  (interface, member) ∈ recognized →
  event_filter w ids (Signal path interface member args) nd = Some (r, nd', t) →
  r = DBUS_HANDLER_RESULT_HANDLED ∧ (length (calls t) ≤ 1)%nat ∧
  sends t = [] ∧ frees t = [] ∧
  (blocking_calls t = [] ∨
   (interface = "org.bluez.Adapter" ∧ member = "PropertyChanged" ∧
    blocking_calls t = [DefaultAdapter])).
Proof.
  intros Hin H. unfold recognized in Hin.
  pose proof (get_adapter_path_no_calls w (conn nd)) as (Hc & Hs & Hf).
  pose proof (get_adapter_path_calls w (conn nd)) as Hb.
  repeat (apply elem_of_cons in Hin as [[= -> ->]|Hin]);
    [| | | | | |by apply elem_of_nil in Hin];
    unfold event_filter in H; simpl in H;
    repeat (case_match; simplify_option_eq; try discriminate);
    repeat match goal with
           | H : CallMethod _ _ _ = Some _ |- _ =>
               apply CallMethod_calls in H as (? & ? & ->)
           end;
    unfold calls, sends, frees, blocking_calls in *; rewrite ?omap_app;
    simpl in *; rewrite ?Hc, ?Hs, ?Hf, ?Hb; simpl;
    (split; [auto|]); (split; [auto|]); (split; [auto|]); (split; [auto|]);
    first [by left
          | destruct (dbus_message_new w DefaultAdapter); [right | left];
            done].
Qed.

(** X20.  DeviceFound: a first argument that is a string, followed by a property
    list the decoder accepts, reaches onDeviceFound once, with that string
    as the address and the decoded list; a signal with fewer than two
    arguments, or with a property list the decoder refuses, is logged and
    dropped without any callback.  It is reported as handled either way and
    the native data is untouched.  The type of the first argument is never
    tested: with an argument that holds no string in front of an accepted
    property list, the callback is handed whatever that argument left in the
    address pointer, which is outside what the model defines. *)
Theorem event_filter_DeviceFound (w : world) (ids : method_ids) (m : jmethod)
    (path : string) (args : list DBusArg) (nd : native_data_t) :
  method_onDeviceFound ids = Some m →
  let msg := Signal path "org.bluez.Adapter" "DeviceFound" args in
  (∀ a first rest properties,
     args = a :: first :: rest →
     parse_remote_device_properties (first :: rest) = Some properties →
     event_filter w ids msg nd
     = match c_string a with
       | Some address =>
           Some (DBUS_HANDLER_RESULT_HANDLED, nd,
                 [ALog LOGE "%s: Received signal %s:%s from %s";
                  ACallMethod (me nd) m
                    [JString address; JStringArray properties]])
       | None => None
       end) ∧
  ((length args ≤ 1)%nat ∨ parse_remote_device_properties (tail args) = None →
   event_filter w ids msg nd
   = Some (DBUS_HANDLER_RESULT_HANDLED, nd,
           [ALog LOGE "%s: Received signal %s:%s from %s";
            ALog LOGE "LOG_AND_FREE_DBUS_ERROR_WITH_MSG"])).
Proof.
  intros Hid msg. unfold event_filter. simpl. split.
  - intros a first rest properties -> Hparse. simpl.
    rewrite Hparse. simpl. destruct (c_string a); simpl; [|done].
    by rewrite Hid.
  - intros [Hlen|Hparse].
    + destruct args as [|a [|b rest]]; simpl in *; try done; lia.
    + destruct args as [|a [|b rest]]; simpl in *; try done.
      by rewrite Hparse.
Qed.

(** X21.  DeviceDisappeared, DeviceCreated and DeviceRemoved: when the first
    argument has the type asked for (a string for DeviceDisappeared, an
    object path for the other two) its text reaches the signal's Java method
    once and further arguments are ignored; otherwise the signal is logged
    and dropped.  It is reported as handled either way. *)
Theorem event_filter_one_string (w : world) (clazz : jclass)
    (member : string) (type : Z) (m : jmethod)
    (path : string) (args : list DBusArg) (nd : native_data_t) :
  (member, type, m) ∈ one_string_signals → m ∈ clazz →
  event_filter w (classInitNative clazz)
    (Signal path "org.bluez.Adapter" member args) nd
  = Some (DBUS_HANDLER_RESULT_HANDLED, nd,
          ALog LOGE "%s: Received signal %s:%s from %s"
          :: match args with
             | a :: _ =>
                 if arg_type a =? type then
                   [ALog LOGV (if String.eqb member "DeviceRemoved"
                               then "... Object Path = %s"
                               else "... address = %s");
                    ACallMethod (me nd) m [JString (default "" (c_string a))]]
                 else [ALog LOGE "LOG_AND_FREE_DBUS_ERROR_WITH_MSG"]
             | [] => [ALog LOGE "LOG_AND_FREE_DBUS_ERROR_WITH_MSG"]
             end).
Proof.
  intros Hin Hm. unfold one_string_signals in Hin.
  pose proof (GetMethodID_declared clazz m Hm) as Hid.
  repeat (apply elem_of_cons in Hin as [[= -> -> ->]|Hin]);
    [| | |by apply elem_of_nil in Hin];
    unfold event_filter; simpl in *; rewrite Hid;
    destruct args as [|[| | | |[]] rest]; reflexivity.
Qed.

(** X22.  A message that is no signal is declined with nothing done; a signal
    the dispatcher does not handle itself goes to the A2DP dispatcher, whose
    result is returned.  The native data is untouched. *)
Theorem event_filter_passes_on (w : world) (ids : method_ids)
    (msg : DBusMessage) (nd : native_data_t) :
  (∀ path interface member args,
     msg = Signal path interface member args →
     (interface, member) ∉ recognized) →
  event_filter w ids msg nd
  = Some (match msg with
          | Signal _ _ _ _ =>
              ((a2dp_event_filter msg).1, nd,
               ALog LOGE "%s: Received signal %s:%s from %s"
               :: (a2dp_event_filter msg).2)
          | _ =>
              (DBUS_HANDLER_RESULT_NOT_YET_HANDLED, nd,
               [ALog LOGV "%s: not interested (not a signal)."])
          end).
Proof.
  intros Hnot. destruct msg as [| | |path interface member args]; try done.
  specialize (Hnot path interface member args eq_refl).
  unfold recognized in Hnot. rewrite !not_elem_of_cons in Hnot.
  destruct Hnot as (H1 & H2 & H3 & H4 & H5 & H6 & _).
  assert (∀ i m, (interface, member) ≠ (i, m) →
                 String.eqb member m && String.eqb interface i = false) as Hne.
  { intros i m Hne. destruct (String.eqb_spec member m) as [->|]; [|done].
    destruct (String.eqb_spec interface i) as [->|]; [done|done]. }
  unfold event_filter, dbus_message_is_signal. simpl.
  rewrite !Hne by done.
  by destruct (a2dp_event_filter _).
Qed.

(** ** The pairing agent: the other methods *)

(** X23.  Whatever reaches the agent's handler, it sends at most one message and
    calls at most one Java method; a message it sends is a reply to the call
    at hand (a method return, or the rejection error), goes out on the
    connection of the native data, and the call is then reported as
    handled. *)
Theorem agent_event_filter_replies (w : world) (ids : method_ids)
    (msg : DBusMessage) (data : option native_data_t)
    (r : DBusHandlerResult) (t : list action) :
  agent_event_filter w ids msg data = Some (r, t) →
  (length (sends t) ≤ 1)%nat ∧ (length (calls t) ≤ 1)%nat ∧ frees t = [] ∧
  ∀ c reply, (c, reply) ∈ sends t →
    r = DBUS_HANDLER_RESULT_HANDLED ∧ Some c = conn <$> data ∧
    reply ∈ [NewMethodReturn msg;
             NewError msg "org.bluez.Error.Rejected" "Authorization rejected"].
Proof.
  unfold agent_event_filter. intros H.
  repeat (case_match; simplify_option_eq; try discriminate);
    repeat match goal with
           | H : CallMethod _ _ _ = Some _ |- _ =>
               apply CallMethod_calls in H as (? & ? & ->)
           end;
    simpl; (split; [lia|]); (split; [lia|]); (split; [done|]);
    intros c reply Hin; try (by apply elem_of_nil in Hin);
    apply list_elem_of_singleton in Hin as [= -> ->];
    (split; [done|]); (split; [done|]);
    rewrite !elem_of_cons; auto.
Qed.

(** X24.  Cancel tells the application and then answers with an empty method
    return; Release answers the same way without telling the application.
    When the reply cannot be built, nothing is sent and the call is
    reported as not yet handled; Cancel has told the application by
    then. *)
Theorem agent_event_filter_cancel_release (w : world) (clazz : jclass)
    (path : string) (args : list DBusArg) (nd : native_data_t) :
  mk_method "onAgentCancel" "()V" ∈ clazz →
  ∀ member, member ∈ ["Cancel"; "Release"] →
  let msg := MethodCall path (Some "org.bluez.Agent") member args in
  agent_event_filter w (classInitNative clazz) msg (Some nd)
  = Some (if dbus_message_new w (NewMethodReturn msg)
          then DBUS_HANDLER_RESULT_HANDLED
          else DBUS_HANDLER_RESULT_NOT_YET_HANDLED,
          [ALog LOGI "%s: Received method %s:%s"]
          ++ (if String.eqb member "Cancel"
              then [ACallMethod (me nd) (mk_method "onAgentCancel" "()V") []]
              else [])
          ++ [if dbus_message_new w (NewMethodReturn msg)
              then ASend (conn nd) (NewMethodReturn msg)
              else ALog LOGE "%s: Cannot create message reply"]).
Proof.
  intros Hm member Hin msg.
  pose proof (GetMethodID_declared clazz _ Hm) as Hid. simpl in Hid.
  apply elem_of_cons in Hin as [->|Hin];
    [|apply list_elem_of_singleton in Hin as ->];
    unfold agent_event_filter; simpl; rewrite ?Hid; simpl;
    by destruct (dbus_message_new w _).
Qed.

(** X25.  RequestPinCode is not answered: for a call whose first argument is an
    object path, the handler takes a reference on the message, hands the
    path and the message to onRequestPinCode, in that order, sends nothing
    and reports the call as handled.  A call without that argument is
    logged and declined: no reference, no callback, nothing sent. *)
Theorem agent_event_filter_RequestPinCode (w : world) (clazz : jclass)
    (path : string) (args : list DBusArg) (nd : native_data_t) :
  mk_method "onRequestPinCode" "(Ljava/lang/String;I)V" ∈ clazz →
  let msg := MethodCall path (Some "org.bluez.Agent") "RequestPinCode" args in
  agent_event_filter w (classInitNative clazz) msg (Some nd)
  = Some (match args with
          | ArgObjectPath object_path :: _ =>
              (DBUS_HANDLER_RESULT_HANDLED,
               [ALog LOGI "%s: Received method %s:%s";
                AMessageRef msg;
                ACallMethod (me nd)
                  (mk_method "onRequestPinCode" "(Ljava/lang/String;I)V")
                  [JString object_path; JMessage msg]])
          | _ =>
              (DBUS_HANDLER_RESULT_NOT_YET_HANDLED,
               [ALog LOGI "%s: Received method %s:%s";
                ALog LOGE "%s: Invalid arguments for RequestPinCode() method"])
          end).
Proof.
  intros Hm msg.
  pose proof (GetMethodID_declared clazz _ Hm) as Hid. simpl in Hid.
  unfold agent_event_filter. simpl.
  destruct args as [|[| | | |[]] rest]; simpl; rewrite ?Hid; reflexivity.
Qed.

(** X26.  What the agent declines: a message that is no method call, a call of
    a member other than the four it answers, a call for another interface,
    and an Authorize call that does not start with an object path and a
    string.  Each is reported as not yet handled, with no Java call, no
    reply and no reference taken. *)
Theorem agent_event_filter_declines (w : world) (ids : method_ids)
    (msg : DBusMessage) (nd : native_data_t) :
  match msg with
  | MethodCall _ interface member args =>
      member ∉ agent_methods ∨
      (∃ other, interface = Some other ∧ other ≠ "org.bluez.Agent") ∨
      (member = "Authorize" ∧
       (dbus_message_get_args args
          [DBUS_TYPE_OBJECT_PATH; DBUS_TYPE_STRING]).2 = false)
  | _ => True
  end →
  ∃ t,
    agent_event_filter w ids msg (Some nd)
    = Some (DBUS_HANDLER_RESULT_NOT_YET_HANDLED, t) ∧
    calls t = [] ∧ sends t = [] ∧ Forall (λ a, a ≠ AMessageRef msg) t.
Proof.
  intros H. destruct msg as [path interface member args| | |];
    try (eexists; split; [reflexivity|]; repeat split; repeat constructor; done).
  assert (∀ m, member ≠ m ∨
               (∃ other, interface = Some other ∧ other ≠ "org.bluez.Agent") →
               dbus_message_is_method_call
                 (MethodCall path interface member args) "org.bluez.Agent" m
               = false) as Hno.
  { intros m [Hne|(other & -> & Hne)]; simpl.
    - by destruct (String.eqb_spec member m).
    - destruct (String.eqb_spec other "org.bluez.Agent"); [done|].
      by rewrite andb_false_r. }
  unfold agent_event_filter.
  cbn [dbus_message_get_type negb Z.eqb DBUS_MESSAGE_TYPE_METHOD_CALL Pos.eqb].
  destruct H as [Hmem|[Hifc|[-> Hargs]]].
  - unfold agent_methods in Hmem. rewrite !not_elem_of_cons in Hmem.
    destruct Hmem as (? & ? & ? & ? & _).
    rewrite !Hno by auto.
    eexists; split; [reflexivity|]; repeat split; repeat constructor; done.
  - rewrite !Hno by auto.
    eexists; split; [reflexivity|]; repeat split; repeat constructor; done.
  - rewrite (Hno "Cancel") by (by left).
    destruct (dbus_message_is_method_call _ "org.bluez.Agent" "Authorize").
    + cbn [message_args].
      destruct (dbus_message_get_args args _) as [written ok].
      simpl in Hargs. subst ok.
      destruct written as [|? [|? [|? ?]]];
        eexists; (split; [reflexivity|]); repeat split; repeat constructor; done.
    + rewrite (Hno "RequestPinCode") by (by left).
      rewrite (Hno "Release") by (by left).
      eexists; split; [reflexivity|]; repeat split; repeat constructor; done.
Qed.

(** ** Set-up against tear-down *)

Lemma append_length (a b : string) :
  String.length (a +:+ b) = (String.length a + String.length b)%nat.
Proof. induction a as [|c a IH]; simpl; [done | by rewrite IH]. Qed.

(** Two strings that end in tails of one length and are equal have equal
    tails. *)
Lemma append_same_tail (a b s u : string) :
  String.length s = String.length u → a +:+ s = b +:+ u → a = b ∧ s = u.
Proof.
  intros Hlen Heq.
  assert (String.length a = String.length b) as Hab.
  { apply (f_equal String.length) in Heq. rewrite !append_length in Heq. lia. }
  clear Hlen. revert b Heq Hab.
  induction a as [|c a IH]; intros [|d b] Heq Hab; simpl in *; try done.
  injection Heq as -> Heq. destruct (IH b Heq) as [-> ->]; [lia | done].
Qed.

Lemma add_matches_added (w : world) (c : option Z) (rules : list string) :
  (add_matches w c rules).1 = true →
  added_matches (add_matches w c rules).2 = rules.
Proof.
  induction rules as [|r rules IH]; simpl; [done|].
  destruct (dbus_bus_add_match w r); simpl; [|done].
  destruct (add_matches w c rules) as [ok t]; simpl in *.
  intros ->. by rewrite IH.
Qed.

Lemma register_agent_added (w : world) (nd : native_data_t)
    (agent_path capabilities : string) :
  added_matches (register_agent w nd agent_path capabilities).2 = [].
Proof.
  unfold register_agent, get_adapter_path, added_matches.
  repeat case_match; simplify_eq; by rewrite ?omap_app.
Qed.

(** X17.  Tear-down does not undo set-up.  A successful set-up asks the bus for
    four match rules; tear-down, whatever the bus answers, asks for the
    removal of five, of which two are among the four.  Unless the base
    interface is "org.bluez.audio", the rules for its Device interface and
    for org.bluez.AudioSink are added by every start and removed by no
    stop. *)
Theorem tearDownEventLoop_leaves_match_rules (w w' : world)
    (removed : string -> bool) (nd nd1 : native_data_t) :
  BLUEZ_DBUS_BASE_IFC ≠ "org.bluez.audio" →
  sets_up w (conn nd) = true → is_Some (conn nd1) →
  added_matches (setUpEventLoop w nd).2 = match_rules ∧
  removed_matches (tearDownEventLoop w' removed nd1) = teardown_rules ∧
  list_difference match_rules teardown_rules
  = [ "type='signal',interface='" +:+ BLUEZ_DBUS_BASE_IFC +:+ ".Device'";
      "type='signal',interface='org.bluez.AudioSink'" ].
Proof.
  intros Hbase Hup [c1 Hc1]. split; [|split].
  - destruct (setUpEventLoop_result w nd) as [Hok _]. rewrite Hup in Hok.
    unfold setUpEventLoop in *.
    destruct (conn nd) as [c|]; [|done].
    destruct (dbus_connection_add_filter w); [|done]. cbn [negb] in *.
    pose proof (add_matches_added w (Some c) match_rules) as Hadd.
    pose proof (register_agent_added w nd "/android/bluetooth/agent"
                  "DisplayYesNo") as Hreg.
    destruct (add_matches w (Some c) match_rules) as [ok t].
    destruct ok; [|done]. cbn [negb fst snd] in *.
    destruct (register_agent w nd _ _) as [[r nd'] t'].
    cbn [fst snd] in *.
    destruct (r <? 0); [done|]. cbn [snd].
    change (added_matches (t ++ t') = match_rules).
    unfold added_matches at 1. rewrite omap_app.
    fold (added_matches t) (added_matches t').
    by rewrite Hreg, Hadd, app_nil_r.
  - unfold tearDownEventLoop, removed_matches, teardown_rules. rewrite Hc1.
    rewrite !omap_app. cbn [mbind list_bind app omap list_omap].
    destruct (adapter nd1); repeat (case_match; cbn [omap list_omap app]);
      reflexivity.
  - assert (∀ x y : string,
              "type='signal',interface='" +:+ x
              = "type='signal',interface='" +:+ y → x = y) as Hstrip.
    { intros x y H. by simplify_eq/=. }
    assert ("type='signal',interface='" +:+ BLUEZ_DBUS_BASE_IFC +:+ ".Device'"
            ∉ teardown_rules) as HV.
    { unfold teardown_rules. rewrite !not_elem_of_cons.
      repeat split; try apply not_elem_of_nil; intros H.
      - apply (Hstrip _ "org.bluez.audio.Sink'") in H.
        by apply (append_same_tail _ "org.bluez.aud" ".Device'" "io.Sink'") in H
          as [_ ?].
      - apply (Hstrip _ "org.bluez.audio.Device'") in H.
        by apply (append_same_tail _ "org.bluez.audio" ".Device'" ".Device'") in H
          as [? _].
      - apply (Hstrip _ "org.bluez.audio.Manager'") in H.
        by apply (append_same_tail _ "org.bluez.audio." ".Device'" "Manager'") in H
          as [_ ?].
      - apply Hstrip in H. apply (f_equal String.length) in H.
        rewrite !append_length in H. simpl in H. lia.
      - apply (Hstrip _ "org.freedesktop.DBus'") in H.
        by apply (append_same_tail _ "org.freedeskt" ".Device'" "op.DBus'") in H
          as [_ ?]. }
    assert ("type='signal',interface='org.bluez.AudioSink'" ∉ teardown_rules)
      as HS.
    { unfold teardown_rules. rewrite !not_elem_of_cons.
      repeat split; try apply not_elem_of_nil; try done. intros H.
      apply (Hstrip "org.bluez.AudioSink'") in H.
      by apply (append_same_tail "org.bluez.A" _ "udioSink'" ".Adapter'") in H
        as [_ ?]. }
    assert ("type='signal',interface='org.freedesktop.DBus'" ∈ teardown_rules)
      as HD by (unfold teardown_rules; rewrite !elem_of_cons; auto 10).
    assert ("type='signal',interface='" +:+ BLUEZ_DBUS_BASE_IFC +:+ ".Adapter'"
            ∈ teardown_rules)
      as HA by (unfold teardown_rules; rewrite !elem_of_cons; auto 10).
    unfold match_rules. cbn [list_difference]. unfold decide_rel.
    repeat case_match; first [done | contradiction].
Qed.

(** ** Capacity of the watch buffers *)

Lemma handleControl_capacity (nd : native_data_t) (m : ControlMessage) :
  wf nd →
  ∃ nd' t,
    handleControl nd m = Some (nd', t) ∧ wf nd' ∧
    (pollDataSize nd ≤ pollDataSize nd' ≤ pollDataSize nd + adds [m])%nat ∧
    (pollMemberCount nd' ≤ pollMemberCount nd + adds [m])%nat.
Proof.
  intros Hwf. destruct m as [newFD flags watch temp temp2|removeFD flags];
    cbn [handleControl adds].
  - destruct (handleWatchAdd_outcome nd newFD flags watch temp temp2 Hwf)
      as (nd' & t & Hrun & Hwf' & _ & Hcase).
    exists nd', t. split; [done|]. split; [done|].
    assert (pollMemberCount nd' ≤ pollMemberCount nd + 1)%nat as Hcount
      by (destruct Hcase as [(-> & _)|(_ & -> & _)]; lia).
    split; [|done].
    destruct (decide (present nd newFD flags)) as [Hp|Hp].
    { rewrite handleWatchAdd_duplicate in Hrun by done.
      injection Hrun as <- _. lia. }
    destruct (decide (pollMemberCount nd = pollDataSize nd)) as [Hfull|Hroom].
    + rewrite handleWatchAdd_grow in Hrun by done.
      injection Hrun as <- _. destruct temp, temp2; simpl; lia.
    + rewrite handleWatchAdd_room in Hrun by done.
      injection Hrun as <- _. simpl. lia.
  - destruct (decide (present nd removeFD flags)) as [Hp|Hp].
    + destruct (handleWatchRemove_outcome nd removeFD flags Hwf)
        as (nd' & t & Hrun & Hwf' & _ & _).
      exists nd', t. split; [done|]. split; [done|].
      destruct (handleWatchRemove_found nd removeFD flags Hwf Hp)
        as (y & e & l & lw & _ & _ & _ & _ & _ & _ & Hrun').
      rewrite Hrun' in Hrun. injection Hrun as <- _. simpl. lia.
    + rewrite handleWatchRemove_absent by done.
      eexists nd, _. split; [done|]. split; [done|]. lia.
Qed.

Lemma handleControls_grows (ms : list ControlMessage) (nd : native_data_t) :
  wf nd →
  ∃ nd' t,
    handleControls nd ms = Some (nd', t) ∧ wf nd' ∧
    (pollDataSize nd ≤ pollDataSize nd' ≤ pollDataSize nd + adds ms)%nat ∧
    (pollMemberCount nd' ≤ pollMemberCount nd + adds ms)%nat.
Proof.
  revert nd. induction ms as [|m ms IH]; intros nd Hwf.
  - exists nd, []. simpl. split; [done|]. split; [done|]. lia.
  - destruct (handleControl_capacity nd m Hwf)
      as (nd1 & t1 & Hrun1 & Hwf1 & Hsize1 & Hcount1).
    destruct (IH nd1 Hwf1) as (nd2 & t2 & Hrun2 & Hwf2 & Hsize2 & Hcount2).
    assert (adds (m :: ms) = adds [m] + adds ms)%nat as ->
      by (destruct m; simpl; lia).
    exists nd2, (t1 ++ t2). cbn [handleControls]. rewrite Hrun1.
    cbn [mbind option_bind]. rewrite Hrun2. cbn [mbind option_bind].
    split; [done|]. split; [done|]. lia.
Qed.

(** X4.  The buffers never shrink while the loop runs: over any run of add and
    remove requests, with any allocation outcomes, the handlers return, the
    capacity does not go down, and capacity and count go up by at most one
    per add request; the buffers stay large enough for the counters. *)
Theorem handleControls_capacity (ms : list ControlMessage)
    (nd : native_data_t) :
  wf nd →
  ∃ nd' t,
    handleControls nd ms = Some (nd', t) ∧ wf nd' ∧
    (pollDataSize nd ≤ pollDataSize nd' ≤ pollDataSize nd + adds ms)%nat ∧
    (pollMemberCount nd' ≤ pollMemberCount nd + adds ms)%nat.
Proof. apply handleControls_grows. Qed.

(** ** Tear-down goes through *)

(** X16.  With a connection, tear-down does not stop at a failure: whether or not
    the agent could be unregistered at the daemon, and whatever removals the
    bus refuses, it flushes the connection, unregisters the agent's object
    path, asks for the removal of all five of its match rules, and takes the
    filter off last.  The daemon is asked to unregister the agent only when
    an adapter path is cached and the call message could be built. *)
Theorem tearDownEventLoop_goes_through (w : world)
    (removed : string -> bool) (nd : native_data_t) :
  is_Some (conn nd) →
  ∃ t,
    tearDownEventLoop w removed nd = t ++ [ARemoveFilter (conn nd)] ∧
    Did (AFlush (conn nd)) ∈ t ∧
    Did (AUnregisterObjectPath (conn nd) "/android/bluetooth/agent") ∈ t ∧
    removed_matches t = teardown_rules ∧
    blocking_calls (done_actions t)
    = match adapter nd with
      | Some a =>
          let msg := NewMethodCall "org.bluez" a "org.bluez.Adapter"
                       "UnregisterAgent"
                       [ArgObjectPath "/android/bluetooth/agent"] in
          if dbus_message_new w msg then [msg] else []
      | None => []
      end.
Proof.
  intros [c Hc]. unfold tearDownEventLoop. rewrite Hc.
  eexists. split; [by rewrite !app_assoc|].
  split; [rewrite !elem_of_app, !elem_of_cons; auto|].
  split; [rewrite !elem_of_app, !elem_of_cons; auto|].
  split.
  - unfold removed_matches, teardown_rules. rewrite !omap_app.
    cbn [mbind list_bind omap app].
    destruct (adapter nd) as [a|];
      [destruct (dbus_message_new w _); cbn [negb]|]; cbn [omap app];
      repeat (case_match; cbn [omap app]); reflexivity.
  - unfold blocking_calls, done_actions. rewrite !omap_app.
    unfold teardown_rules. cbn [mbind list_bind omap app]. cbv zeta.
    destruct (adapter nd) as [a|];
      [destruct (dbus_message_new w _); cbn [negb]|]; cbn [omap app];
      repeat (case_match; cbn [omap app]); reflexivity.
Qed.

(** ** Native data: from creation to the first start *)

(** X14.  The native data that initialisation stores is idle, and a start on it
    succeeds exactly under [starts] for the connection the bus gave.  When
    the bus could not be reached the connection is NULL: initialisation
    still stores the native data, and every later start fails without any
    blocking call, match rule or thread.  Such a start still takes the
    buffers, the socket pair and the global reference before it fails; it
    gives back exactly those (shuts the write end down, deletes the
    reference, frees the buffers) and resets the loop's fields. *)
Theorem initializeNativeDataNative_then_start (w : world) (bus : option Z) :
  (0 < DEFAULT_INITIAL_POLLFD_COUNT)%nat →
  ∃ nd0 nd' t,
    (initializeNativeDataNative true bus).1 = Some nd0 ∧
    isEventLoopRunningNative nd0 = false ∧
    startEventLoopNative w nd0 = Some (starts w bus, nd', t) ∧
    (bus = None →
     starts w bus = false ∧ reset nd' ∧ releases t = start_releases w ∧
     blocking_calls t = [] ∧ added_matches t = [] ∧ APthreadCreate ∉ t).
Proof.
  intros Hcap. eexists. cbn [initializeNativeDataNative negb fst].
  match goal with |- context [Some ?n = Some _] => set (nd0 := n) end.
  destruct bus as [c|].
  - destruct (startEventLoopNative_from_idle w nd0 Hcap eq_refl)
      as (nd' & q & rel & Hrun & _).
    eexists nd', _. split; [done|]. split; [done|]. split; [exact Hrun|].
    done.
  - assert (starts w None = false) as ->
      by (unfold starts, sets_up; simpl; by repeat case_match).
    unfold startEventLoopNative, malloc, start_failed, reset, releases,
      start_releases.
    cbn [pollData nd0].
    destruct DEFAULT_INITIAL_POLLFD_COUNT as [|cap]; [lia|].
    destruct (malloc_pollData w), (malloc_watchData w),
      (socketpair w) as [[r wr]|];
      cbn -[Z.eqb]; unfold store; rewrite ?decide_True by (simpl; lia);
      cbn -[Z.eqb]; eexists _, _;
      (split; [done|]); (split; [done|]); (split; [reflexivity|]);
      intros _; (split; [done|]);
      try (destruct (Z.eqb_spec wr 0), (Z.eqb_spec r 0));
      try destruct (NewGlobalRef w);
      simpl;
      (split; [by repeat split|]);
      (split; [done|]); (split; [done|]); (split; [done|]);
      rewrite ?not_elem_of_cons, ?not_elem_of_app, ?not_elem_of_cons;
      repeat split; try done; apply not_elem_of_nil.
Qed.

(** X15.  Disposal uses the native data before it tests the pointer: it is
    defined exactly when initialisation got its memory.  After an
    initialisation that ran out of memory, which stores nothing, the
    disposal is undefined; after one that stored the native data, with or
    without a bus connection, it destroys the mutex and frees the block. *)
Theorem cleanupNativeDataNative_needs_native_data (calloc_ok : bool)
    (bus : option Z) :
  cleanupNativeDataNative (initializeNativeDataNative calloc_ok bus).1
  = if calloc_ok then Some [AMutexDestroy; AFreeNativeData] else None.
Proof. by destruct calloc_ok. Qed.

(** ** One pass of the worker over the poll results *)

Lemma handled_app (t1 t2 : list loop_action) :
  handled (t1 ++ t2) = handled t1 ++ handled t2.
Proof. apply omap_app. Qed.

Lemma handled_Did (t : list action) : handled (Did <$> t) = [].
Proof. induction t as [|a t IH]; [done | exact IH]. Qed.

Lemma handled_tearDownEventLoop (w : world) (removed : string -> bool)
    (nd : native_data_t) :
  handled (tearDownEventLoop w removed nd) = [].
Proof.
  unfold tearDownEventLoop, handled, teardown_rules.
  destruct (conn nd); [|done]. rewrite !omap_app.
  cbn [mbind list_bind omap app].
  destruct (adapter nd); repeat (case_match; cbn [omap app]); reflexivity.
Qed.

Lemma adds_requests_length (hs : list hook_call)
    (mallocs : nat -> malloc_result pollfd * malloc_result Z) (k : nat) :
  (adds (requests hs mallocs k) ≤ length hs)%nat.
Proof.
  revert k. induction hs as [|h hs IH]; intros k; [done|].
  rewrite adds_requests_cons.
  destruct (request h (mallocs k)) as [[]|]; simpl;
    [specialize (IH (k + 1)%nat) | specialize (IH (k + 0)%nat)
     | specialize (IH k)]; lia.
Qed.

(** The scan from index [i], for socket data the control loop can read:
    it returns, handles at most one bus watch, and ends the thread only
    when the control loop did. *)
Lemma scanReady_returns (w : world) (removed : string -> bool)
    (mallocs : nat -> malloc_result pollfd * malloc_result Z)
    (fuel : nat) :
  ∀ (nd : native_data_t) (data : list ctl_field) (k i bound : nat),
    wf nd →
    (∃ ended nd1 rest t,
        controlLoop w removed mallocs k nd data = Some (ended, nd1, rest, t) ∧
        wf nd1 ∧ (pollMemberCount nd1 ≤ pollMemberCount nd + bound)%nat ∧
        handled t = [] ∧ (ended = false → rest = [])) →
    (pollMemberCount nd + bound - i < fuel)%nat →
    ∃ ended nd' data' t,
      scanReady fuel w removed mallocs k nd data i
      = Some (ended, nd', data', t) ∧
      wf nd' ∧ (length (handled t) ≤ 1)%nat ∧
      (ended = true →
       ∃ nd1 rest t1,
         controlLoop w removed mallocs k nd data = Some (true, nd1, rest, t1)).
Proof.
  induction fuel as [|fuel IH]; intros nd data k i bound Hwf Hctl Hfuel;
    [lia|].
  cbn [scanReady]. destruct (decide (i < pollMemberCount nd)%nat) as [Hi|Hi].
  2:{ exists false, nd, data, []. split; [done|]. split; [done|].
      split; [simpl; lia | done]. }
  destruct Hwf as (Hcount & Hpd & Hwd).
  destruct (lookup_lt_is_Some_2 (cells (pollData nd)) i) as [e He]; [lia|].
  destruct (lookup_lt_is_Some_2 (cells (watchData nd)) i) as [wt Hwt]; [lia|].
  rewrite He. cbn [mbind option_bind].
  destruct (revents e =? 0).
  { apply (IH nd data k (S i) bound); [done | done | lia]. }
  destruct (fd e =? controlFdR nd).
  - destruct Hctl as (ended & nd1 & rest & t & Hrun & Hwf1 & Hc1 & Hh & Hrest).
    rewrite Hrun. cbn [mbind option_bind]. destruct ended.
    + exists true, nd1, rest, t. split; [done|]. split; [done|].
      split; [rewrite Hh; simpl; lia | eauto].
    + rewrite (Hrest eq_refl).
      destruct (IH nd1 [] k (S i) 0%nat Hwf1) as (ended & nd' & data' & t' & Hscan & Hwf' & Hone & Hend).
      { exists false, nd1, [], []. split; [done|]. split; [done|].
        split; [lia | done]. }
      { lia. }
      rewrite Hscan. cbn [mbind option_bind].
      exists ended, nd', data', (t ++ t'). split; [done|]. split; [done|].
      split; [by rewrite handled_app, Hh|].
      intros ->. by destruct (Hend eq_refl) as (? & ? & ? & ?).
  - rewrite Hwt. cbn [mbind option_bind]. unfold store.
    rewrite decide_True by lia. cbn [mbind option_bind].
    eexists false, _, data, _. split; [done|]. split.
    + unfold wf. simpl. rewrite length_insert. done.
    + split; [simpl; lia | done].
Qed.

(** X7.  A pass of the worker over the poll results returns, with the buffers
    still large enough for the counters, whatever cells are ready and
    whatever the watch functions wrote to the control socket before it,
    with or without the EXIT of a stop behind.  In one pass at most one bus
    watch is handed to the bus library, and the thread ends only on an
    EXIT. *)
Theorem scanReady_pass (w : world) (removed : string -> bool)
    (mallocs : nat -> malloc_result pollfd * malloc_result Z)
    (hs : list hook_call) (stop : bool) (nd : native_data_t) (fuel : nat) :
  wf nd → (pollMemberCount nd + length hs < fuel)%nat →
  ∃ ended nd' data' t,
    scanReady fuel w removed mallocs 0 nd
      (hook_writes nd hs ++ if stop then [CtlChar EVENT_LOOP_EXIT] else []) 0
    = Some (ended, nd', data', t) ∧
    wf nd' ∧ (length (handled t) ≤ 1)%nat ∧ (ended = true → stop = true).
Proof.
  intros Hwf Hfuel.
  destruct (handleControls_grows (requests hs mallocs 0) nd Hwf)
    as (nd1 & t1 & Hrun & Hwf1 & _ & Hcount).
  pose proof (adds_requests_length hs mallocs 0) as Hadds.
  assert (controlLoop w removed mallocs 0 nd
            (hook_writes nd hs ++ if stop then [CtlChar EVENT_LOOP_EXIT] else [])
          = Some (stop, nd1, [],
                  (Did <$> t1)
                  ++ if stop
                     then [ASetWatchFunctions (conn nd1) false]
                          ++ tearDownEventLoop w removed nd1
                          ++ [ADetachCurrentThread;
                              Did (AShutdown (controlFdR nd1))]
                     else [])) as Hctl.
  { rewrite controlLoop_hooks, Hrun. by destruct stop. }
  destruct (scanReady_returns w removed mallocs fuel nd
              (hook_writes nd hs
               ++ if stop then [CtlChar EVENT_LOOP_EXIT] else [])
              0%nat 0%nat (length hs) Hwf) as (ended & nd' & data' & t & Hscan & Hwf' & Hone & Hend).
  { eexists _, _, _, _. split; [exact Hctl|]. split; [done|].
    split; [lia|]. split; [|done].
    rewrite handled_app, handled_Did. destruct stop; [|done].
    rewrite !handled_app, handled_tearDownEventLoop. done. }
  { lia. }
  exists ended, nd', data', t. split; [done|]. split; [done|]. split; [done|].
  intros ->. destruct (Hend eq_refl) as (? & ? & ? & Hctl').
  rewrite Hctl in Hctl'. by injection Hctl' as ->.
Qed.

(** X8.  The first ready cell of a pass, when it is a bus watch: the pass hands
    that watch, and no other, to the bus library, clears its [revents],
    leaves every other cell, the counters and the control socket as they
    are, and goes no further, so later ready cells wait for the next pass.
    What the library is handed as flags are the poll events themselves, not
    the watch flags the loop computes from them; the two agree only for
    POLLIN alone. *)
Theorem scanReady_first_watch (w : world) (removed : string -> bool)
    (mallocs : nat -> malloc_result pollfd * malloc_result Z) (k : nat)
    (nd : native_data_t) (data : list ctl_field) (y fuel : nat) (e : pollfd) :
  wf nd → (y < pollMemberCount nd)%nat → (y < fuel)%nat →
  cells (pollData nd) !! y = Some e →
  revents e ≠ 0 → fd e ≠ controlFdR nd →
  (∀ j e', (j < y)%nat → cells (pollData nd) !! j = Some e' → revents e' = 0) →
  ∃ watch,
    cells (watchData nd) !! y = Some watch ∧
    scanReady fuel w removed mallocs k nd data 0
    = Some (false,
            with_poll nd
              (Some (<[y := mk_pollfd (fd e) (events e) 0]>
                       (cells (pollData nd))))
              (watchData nd) (pollDataSize nd) (pollMemberCount nd),
            data, [AWatchHandle watch (revents e)]) ∧
    (watch_flags (revents e) = revents e ↔ revents e = POLLIN).
Proof.
  intros (Hcount & Hpd & Hwd) Hy Hfuel He Hready Hbus Hquiet.
  destruct (lookup_lt_is_Some_2 (cells (watchData nd)) y) as [watch Hw]; [lia|].
  exists watch. split; [done|]. split.
  - assert (∀ f i, (i ≤ y)%nat → (y - i < f)%nat →
              scanReady f w removed mallocs k nd data i
              = Some (false,
                      with_poll nd
                        (Some (<[y := mk_pollfd (fd e) (events e) 0]>
                                 (cells (pollData nd))))
                        (watchData nd) (pollDataSize nd) (pollMemberCount nd),
                      data, [AWatchHandle watch (revents e)])) as Hscan.
    { induction f as [|f IH]; intros i Hi Hf; [lia|].
      cbn [scanReady]. rewrite decide_True by lia.
      destruct (decide (i = y)) as [->|Hne].
      - rewrite He. cbn [mbind option_bind].
        destruct (Z.eqb_spec (revents e) 0); [done|].
        destruct (Z.eqb_spec (fd e) (controlFdR nd)); [done|].
        rewrite Hw. cbn [mbind option_bind]. unfold store.
        rewrite decide_True by lia. done.
      - destruct (lookup_lt_is_Some_2 (cells (pollData nd)) i) as [e' He'];
          [lia|].
        rewrite He'. cbn [mbind option_bind].
        rewrite (Hquiet i e') by (done || lia). cbn [Z.eqb].
        apply IH; lia. }
    apply Hscan; lia.
  - unfold watch_flags. split.
    + intros Heq. revert Heq.
      destruct (Z.land (revents e) POLLIN =? 0) eqn:Hin,
               (Z.land (revents e) POLLOUT =? 0) eqn:Hout;
        cbn; intros Heq; rewrite <- Heq in Hin, Hout, Hready |- *;
        vm_compute in Hin, Hout; done.
    + intros ->. reflexivity.
Qed.
End EventLoop.

(** ** The theorems at concrete inputs *)

Lemma two_watches_wf : wf two_watches.
Proof. apply (bool_decide_unpack _). by vm_compute. Qed.

Lemma two_watches_no_duplicate : no_duplicate_watch two_watches.
Proof. apply (bool_decide_unpack _). by vm_compute. Qed.

(** C1 at the sample watch set: adding the bus descriptor again, with flags
    that ask for readable and error, changes nothing. *)
Lemma handleWatchAdd_no_duplicates_witness :
  wf two_watches ∧ no_duplicate_watch two_watches ∧
  present two_watches 41 (Z.lor DBUS_WATCH_READABLE DBUS_WATCH_ERROR) ∧
  handleWatchAdd two_watches 41 (Z.lor DBUS_WATCH_READABLE DBUS_WATCH_ERROR)
    9001 OutOfMemory OutOfMemory
  = Some (two_watches, [ALog LOGV "DBusWatch duplicate add"]).
Proof.
  assert (present two_watches 41 (Z.lor DBUS_WATCH_READABLE DBUS_WATCH_ERROR))
    as Hin by (apply (bool_decide_unpack _); by vm_compute).
  split; [exact two_watches_wf|]. split; [exact two_watches_no_duplicate|].
  split; [exact Hin|].
  apply (handleWatchAdd_no_duplicates two_watches two_watches_wf
           two_watches_no_duplicate).
  exact Hin.
Defined.

(** C6 at the sample watch set: removing a descriptor that was never added
    is a no-op with a warning. *)
Lemma handleWatchRemove_swaps_with_last_witness :
  wf two_watches ∧
  handleWatchRemove two_watches 99 DBUS_WATCH_READABLE
  = Some (two_watches, [ALog LOGW "WatchRemove given with unknown watch"]).
Proof.
  split; [exact two_watches_wf|].
  apply (handleWatchRemove_swaps_with_last two_watches 99 DBUS_WATCH_READABLE
           two_watches_wf).
  intros Hin. apply (bool_decide_pack _) in Hin. by vm_compute in Hin.
Defined.

(** C7 at the sample watch set, which is full: the first allocation
    succeeds, the second fails. *)
Lemma handleWatchAdd_allocation_failure_witness :
  wf two_watches ∧ ¬ present two_watches 50 DBUS_WATCH_WRITABLE ∧
  pollMemberCount two_watches = pollDataSize two_watches ∧
  ∃ nd' t,
    handleWatchAdd two_watches 50 DBUS_WATCH_WRITABLE 9002
      (Block (λ _, mk_pollfd 0 0 0)) OutOfMemory = Some (nd', t) ∧
    calls t = [] ∧ wf nd' ∧
    pollMemberCount nd' = pollMemberCount two_watches ∧
    live nd' = live two_watches ∧
    key <$> live nd' ≡ₚ key <$> live two_watches ∧
    entries nd' = entries two_watches.
Proof.
  assert (¬ present two_watches 50 DBUS_WATCH_WRITABLE) as Hnot.
  { intros Hin. apply (bool_decide_pack _) in Hin. by vm_compute in Hin. }
  split; [exact two_watches_wf|]. split; [exact Hnot|]. split; [reflexivity|].
  apply (handleWatchAdd_allocation_failure two_watches 50 DBUS_WATCH_WRITABLE
           9002 (Block (λ _, mk_pollfd 0 0 0)) OutOfMemory
           two_watches_wf Hnot eq_refl).
  by right.
Defined.

(** C5 with eight initial cells: a start on the running sample loop, which
    holds two watches, is refused and changes nothing; and after a first
    start from idle, the second is refused. *)
Lemma startEventLoopNative_second_call_witness :
  isEventLoopRunningNative two_watches = true ∧
  startEventLoopNative "org.bluez" 8 starved_world two_watches
  = Some (false, two_watches,
          [AMutexLock; ALog LOGW "trying to start EventLoop a second time!";
           AMutexUnlock]) ∧
  ∃ nd1 t1,
    startEventLoopNative "org.bluez" 8 (friendly_world "/org/bluez/hci0" true)
      idle_data = Some (true, nd1, t1) ∧
    isEventLoopRunningNative idle_data = false ∧
    isEventLoopRunningNative nd1 = true ∧
    startEventLoopNative "org.bluez" 8 starved_world nd1
    = Some (false, nd1,
            [AMutexLock; ALog LOGW "trying to start EventLoop a second time!";
             AMutexUnlock]).
Proof.
  split; [reflexivity|]. split.
  - apply (proj1 (startEventLoopNative_second_call "org.bluez" 8
                    starved_world two_watches)).
    reflexivity.
  - eexists _, _. split; [vm_compute; reflexivity|].
    edestruct (proj2 (startEventLoopNative_second_call "org.bluez" 8
                        (friendly_world "/org/bluez/hci0" true) idle_data))
      as (Hidle & Hrun & Hrefused); [vm_compute; reflexivity|].
    split; [exact Hidle|]. split; [exact Hrun|]. exact (Hrefused starved_world).
Defined.

(** C4 at a refused authorization: the one message sent is the error. *)
Lemma agent_authorize_reply_witness :
  onAgentAuthorize_method ∈ BluetoothEventLoop_class ∧
  ∃ t,
    agent_event_filter (friendly_world "/org/bluez/hci0" false)
      (classInitNative BluetoothEventLoop_class)
      (MethodCall "/android/bluetooth/agent" (Some "org.bluez.Agent") "Authorize"
         [ArgObjectPath "/org/bluez/hci0/dev_00_11_22_33_44_55";
          ArgString "00001101-0000-1000-8000-00805f9b34fb"])
      (Some two_watches)
    = Some (DBUS_HANDLER_RESULT_HANDLED, t) ∧
    calls t = [(onAgentAuthorize_method,
                [JString "/org/bluez/hci0/dev_00_11_22_33_44_55";
                 JString "00001101-0000-1000-8000-00805f9b34fb"])] ∧
    sends t
    = [(Some 1,
        NewError
          (MethodCall "/android/bluetooth/agent" (Some "org.bluez.Agent")
             "Authorize"
             [ArgObjectPath "/org/bluez/hci0/dev_00_11_22_33_44_55";
              ArgString "00001101-0000-1000-8000-00805f9b34fb"])
          "org.bluez.Error.Rejected" "Authorization rejected")].
Proof.
  assert (onAgentAuthorize_method ∈ BluetoothEventLoop_class) as Hm
    by (apply (bool_decide_unpack _); by vm_compute).
  split; [exact Hm|].
  apply (agent_authorize_reply (friendly_world "/org/bluez/hci0" false)
           BluetoothEventLoop_class two_watches "/android/bluetooth/agent"
           (Some "org.bluez.Agent") "/org/bluez/hci0/dev_00_11_22_33_44_55"
           "00001101-0000-1000-8000-00805f9b34fb" [] Hm).
  apply (bool_decide_unpack _). by vm_compute.
Defined.


(** C2 at a rejected pairing: one callback with AUTH_REJECTED, one free. *)
Lemma onCreatePairedDeviceResult_reports_witness :
  onCreatePairedDeviceResult_method ∈ BluetoothEventLoop_class ∧
  ∃ t,
    onCreatePairedDeviceResult "org.bluez" (λ _, "Unknown error")
      (classInitNative BluetoothEventLoop_class)
      (ErrorMessage "org.bluez.Error.AuthenticationRejected"
         [ArgString "Authentication Rejected"])
      sample_context two_watches
    = Some t ∧
    frees t = [4096] ∧
    calls t = [(onCreatePairedDeviceResult_method,
                [JString "00:11:22:33:44:55"; JInt BOND_RESULT_AUTH_REJECTED])].
Proof.
  assert (onCreatePairedDeviceResult_method ∈ BluetoothEventLoop_class) as Hm
    by (apply (bool_decide_unpack _); by vm_compute).
  split; [exact Hm|].
  destruct (onCreatePairedDeviceResult_reports "org.bluez" (λ _, "Unknown error")
              BluetoothEventLoop_class
              (ErrorMessage "org.bluez.Error.AuthenticationRejected"
                 [ArgString "Authentication Rejected"])
              sample_context two_watches Hm)
    as (t & Hrun & Hfree & _ & Htable).
  exists t. split; [exact Hrun|]. split; [exact Hfree|].
  apply (Htable (Some BOND_RESULT_AUTH_REJECTED)).
  by apply reported_auth_rejected.
Defined.

(** ** The specification's examples, run on the code *)

Example paired_device_bonding_in_progress :
  onCreatePairedDeviceResult "org.bluez" (λ _, "Unknown error")
    (classInitNative BluetoothEventLoop_class)
    (ErrorMessage "org.bluez.Error.InProgress" [ArgString "Bonding in progress"])
    sample_context two_watches
  = Some [ALog LOGV "onCreatePairedDeviceResult"; ALog LOGV "... address = %s";
          ALog LOGV "... error = %s (%s)"; AFree 4096].
Proof. reflexivity. Qed.

Example paired_device_already_exists :
  calls <$> onCreatePairedDeviceResult "org.bluez" (λ _, "Unknown error")
    (classInitNative BluetoothEventLoop_class)
    (ErrorMessage "org.bluez.Error.AlreadyExists" [ArgString "Already Exists"])
    sample_context two_watches
  = Some [(onCreatePairedDeviceResult_method,
           [JString "00:11:22:33:44:55"; JInt BOND_RESULT_SUCCESS])].
Proof. reflexivity. Qed.

Example paired_device_in_progress_without_text :
  calls <$> onCreatePairedDeviceResult "org.bluez" (λ _, "Unknown error")
    (classInitNative BluetoothEventLoop_class)
    (ErrorMessage "org.bluez.Error.InProgress" [])
    sample_context two_watches
  = Some [(onCreatePairedDeviceResult_method,
           [JString "00:11:22:33:44:55"; JInt BOND_RESULT_ERROR])].
Proof. reflexivity. Qed.

(** The specification's channel 17: with the method ids [classInitNative]
    leaves, the reply is not reported to the application. *)
Example service_channel_17_not_reported :
  onGetDeviceServiceChannelResult (λ _, "Unknown error")
    (classInitNative BluetoothEventLoop_class)
    (MethodReturn [ArgInt32 17]) sample_context two_watches
  = None.
Proof. reflexivity. Qed.

(** The same reply, had the method id been set: channel 17 is reported. *)
Example service_channel_17_with_method_id :
  calls <$> onGetDeviceServiceChannelResult (λ _, "Unknown error")
    (mk_ids None None None None None None None
       (Some (mk_method "onGetDeviceServiceChannelResult" "(Ljava/lang/String;I)V"))
       None None None)
    (MethodReturn [ArgInt32 17]) sample_context two_watches
  = Some [(mk_method "onGetDeviceServiceChannelResult" "(Ljava/lang/String;I)V",
           [JString "00:11:22:33:44:55"; JInt 17])].
Proof. reflexivity. Qed.

(** An enabled watch, added through the hook and taken by the worker, ends
    up in the watch set once, however often it is added. *)
Example add_twice_stored_once :
  (λ r, entries r.1) <$>
    handleControls two_watches
      [AddWatch 50 DBUS_WATCH_WRITABLE 9002 (Block (λ _, mk_pollfd 0 0 0))
         (Block (λ _, 0));
       AddWatch 50 DBUS_WATCH_WRITABLE 9002 OutOfMemory OutOfMemory]
  = Some [(mk_pollfd 40 POLLIN 0, 0); (mk_pollfd 41 POLLIN 0, 9000);
          (mk_pollfd 50 POLLOUT 0, 9002)].
Proof. reflexivity. Qed.

(** Removing the first of three entries moves the last one into its cell. *)
Example remove_moves_last :
  (λ r, entries r.1) <$>
    handleControls two_watches
      [AddWatch 50 DBUS_WATCH_WRITABLE 9002 (Block (λ _, mk_pollfd 0 0 0))
         (Block (λ _, 0));
       RemoveWatch 40 DBUS_WATCH_READABLE]
  = Some [(mk_pollfd 50 POLLOUT 0, 9002); (mk_pollfd 41 POLLIN 0, 9000)].
Proof. reflexivity. Qed.

(** ** The further theorems at concrete inputs *)

Lemma writable_ready_wf : wf writable_ready.
Proof. apply (bool_decide_unpack _). by vm_compute. Qed.

Lemma sample_requests_allocate : Forall allocates sample_requests.
Proof. repeat (apply Forall_cons_2; [exact I|]). apply Forall_nil_2. Qed.

Lemma plentiful_allocates (i : nat) :
  ∃ c1 c2, plentiful i = (Block c1, Block c2).
Proof. by eexists _, _. Qed.

(** X2 at the sample watch set: a new pair is added and the bus
    descriptor's pair removed. *)
Lemma handleControls_implied_witness :
  wf two_watches ∧ no_duplicate_watch two_watches ∧
  Forall allocates sample_requests ∧
  ∃ nd' t,
    handleControls two_watches sample_requests = Some (nd', t) ∧
    keys nd' = foldl implied (keys two_watches) sample_requests ∧
    size (keys nd') = pollMemberCount nd' ∧
    calls t = [].
Proof.
  split; [exact two_watches_wf|]. split; [exact two_watches_no_duplicate|].
  split; [exact sample_requests_allocate|].
  exact (handleControls_implied sample_requests two_watches two_watches_wf
           two_watches_no_duplicate sample_requests_allocate).
Defined.

(** X3 at the sample watch set, which is full: the add grows the buffers,
    the remove gives the old entries back. *)
Lemma handleWatchAdd_then_remove_witness :
  wf two_watches ∧ ¬ present two_watches 50 DBUS_WATCH_WRITABLE ∧
  ∃ nd1 t1 nd2,
    handleWatchAdd two_watches 50 DBUS_WATCH_WRITABLE 9002
      (Block (λ _, mk_pollfd 0 0 0)) (Block (λ _, 0)) = Some (nd1, t1) ∧
    present nd1 50 DBUS_WATCH_WRITABLE ∧
    handleWatchRemove nd1 50 DBUS_WATCH_WRITABLE = Some (nd2, []) ∧
    entries nd2 = entries two_watches ∧
    pollMemberCount nd2 = pollMemberCount two_watches.
Proof.
  assert (¬ present two_watches 50 DBUS_WATCH_WRITABLE) as Hnot.
  { intros Hin. apply (bool_decide_pack _) in Hin. by vm_compute in Hin. }
  split; [exact two_watches_wf|]. split; [exact Hnot|].
  apply (handleWatchAdd_then_remove two_watches 50 DBUS_WATCH_WRITABLE 9002
           (Block (λ _, mk_pollfd 0 0 0)) (Block (λ _, 0))
           two_watches_wf Hnot).
  right. by eexists _, _.
Defined.

(** X4 at the sample watch set. *)
Lemma handleControls_capacity_witness :
  wf two_watches ∧
  ∃ nd' t,
    handleControls two_watches sample_requests = Some (nd', t) ∧ wf nd' ∧
    (pollDataSize two_watches ≤ pollDataSize nd'
     ≤ pollDataSize two_watches + adds sample_requests)%nat ∧
    (pollMemberCount nd'
     ≤ pollMemberCount two_watches + adds sample_requests)%nat.
Proof.
  split; [exact two_watches_wf|].
  exact (handleControls_capacity sample_requests two_watches two_watches_wf).
Defined.

(** X6 at the sample watch set and the sample hook calls. *)
Lemma hooks_reach_watch_set_witness :
  wf two_watches ∧ no_duplicate_watch two_watches ∧
  ∃ nd' t,
    controlLoop "org.bluez" (friendly_world "/org/bluez/hci0" true)
      (λ _, true) plentiful 0 two_watches (hook_writes two_watches sample_hooks)
    = Some (false, nd', [], t) ∧
    wf nd' ∧ no_duplicate_watch nd' ∧
    keys nd' = foldl implied (keys two_watches) (requests sample_hooks plentiful 0).
Proof.
  split; [exact two_watches_wf|]. split; [exact two_watches_no_duplicate|].
  exact (hooks_reach_watch_set "org.bluez"
           (friendly_world "/org/bluez/hci0" true) (λ _, true) plentiful
           sample_hooks two_watches two_watches_wf two_watches_no_duplicate
           plentiful_allocates).
Defined.

(** X7 at the sample watch set, with the sample hook calls and an EXIT in
    the control socket. *)
Lemma scanReady_pass_witness :
  wf two_watches ∧
  ∃ ended nd' data' t,
    scanReady "org.bluez" 5 (friendly_world "/org/bluez/hci0" true)
      (λ _, true) plentiful 0 two_watches
      (hook_writes two_watches sample_hooks ++ [CtlChar EVENT_LOOP_EXIT]) 0
    = Some (ended, nd', data', t) ∧
    wf nd' ∧ (length (handled t) ≤ 1)%nat ∧ (ended = true → true = true).
Proof.
  split; [exact two_watches_wf|].
  apply (scanReady_pass "org.bluez" (friendly_world "/org/bluez/hci0" true)
           (λ _, true) plentiful sample_hooks true two_watches 5
           two_watches_wf).
  simpl. lia.
Defined.

(** X8 at a writable bus descriptor: the bus library is told 4, which is
    DBUS_WATCH_ERROR, where the watch flag for writable is 2. *)
Lemma scanReady_first_watch_witness :
  wf writable_ready ∧
  ∃ watch,
    cells (watchData writable_ready) !! 1%nat = Some watch ∧
    scanReady "org.bluez" 2 starved_world (λ _, true) plentiful 0
      writable_ready [] 0
    = Some (false,
            with_poll writable_ready
              (Some [mk_pollfd 40 POLLIN 0; mk_pollfd 41 POLLOUT 0])
              (watchData writable_ready) 2 2,
            [], [AWatchHandle watch DBUS_WATCH_ERROR]) ∧
    (watch_flags POLLOUT = POLLOUT ↔ POLLOUT = POLLIN).
Proof.
  split; [exact writable_ready_wf|].
  apply (scanReady_first_watch "org.bluez" starved_world (λ _, true) plentiful
           0 writable_ready [] 1 2 (mk_pollfd 41 POLLOUT POLLOUT)
           writable_ready_wf).
  - simpl. lia.
  - lia.
  - reflexivity.
  - discriminate.
  - discriminate.
  - intros [|j] e' Hj He'; [|lia]. injection He' as <-. reflexivity.
Defined.

(** X9 with eight initial cells, in a world that grants everything. *)
Lemma startEventLoopNative_succeeds_when_witness :
  isEventLoopRunningNative idle_data = false ∧
  ∃ nd' t,
    startEventLoopNative "org.bluez" 8 (friendly_world "/org/bluez/hci0" true)
      idle_data = Some (true, nd', t) ∧
    isEventLoopRunningNative nd' = true ∧ APthreadCreate ∈ t ∧
    thread nd' = Some 3 ∧ releases t = [].
Proof.
  split; [reflexivity|].
  apply (startEventLoopNative_succeeds_when "org.bluez" 8
           (friendly_world "/org/bluez/hci0" true) idle_data);
    [lia | reflexivity].
Defined.

(** X10 in a world without memory: the failed start still unlocks. *)
Lemma startEventLoopNative_mutex_witness :
  ∃ r nd' q,
    startEventLoopNative "org.bluez" 8 starved_world idle_data
    = Some (r, nd', [AMutexLock] ++ q ++ [AMutexUnlock]) ∧
    (AMutexLock ∉ q) ∧ (AMutexUnlock ∉ q).
Proof.
  apply (startEventLoopNative_mutex "org.bluez" 8 starved_world idle_data).
  lia.
Defined.

(** X12 at the sample watch set, with the sample hook calls written before
    the stop. *)
Lemma stopEventLoopNative_ends_worker_witness :
  isEventLoopRunningNative two_watches = true ∧
  controlLoop "org.bluez" starved_world (λ _, false) plentiful 0 two_watches
    (hook_writes two_watches sample_hooks
     ++ socket_data (controlFdW two_watches)
          (done_actions (stopEventLoopNative two_watches two_watches).2))
  = match handleControls two_watches (requests sample_hooks plentiful 0) with
    | Some (nd', t) =>
        Some (true, nd', [],
              (Did <$> t)
              ++ [ASetWatchFunctions (conn nd') false]
              ++ tearDownEventLoop "org.bluez" starved_world (λ _, false) nd'
              ++ [ADetachCurrentThread; Did (AShutdown (controlFdR nd'))])
    | None => None
    end.
Proof.
  split; [reflexivity|].
  apply (stopEventLoopNative_ends_worker "org.bluez" starved_world
           (λ _, false) plentiful sample_hooks two_watches two_watches).
  reflexivity.
Defined.

(** X13: the sample loop is stopped and started again. *)
Lemma startEventLoopNative_after_stop_witness :
  isEventLoopRunningNative two_watches = true ∧
  ∃ nd' t,
    startEventLoopNative "org.bluez" 8 (friendly_world "/org/bluez/hci0" true)
      (stopEventLoopNative two_watches two_watches).1
    = Some (true, nd', t) ∧
    isEventLoopRunningNative nd' = true.
Proof.
  split; [reflexivity|].
  apply (startEventLoopNative_after_stop "org.bluez" 8
           (friendly_world "/org/bluez/hci0" true) two_watches two_watches);
    [lia | reflexivity].
Defined.

(** X14 with the bus out of reach: the start takes buffers, sockets and
    reference and gives them back. *)
Lemma initializeNativeDataNative_then_start_witness :
  ∃ nd0 nd' t,
    (initializeNativeDataNative true None).1 = Some nd0 ∧
    isEventLoopRunningNative nd0 = false ∧
    startEventLoopNative "org.bluez" 8 (friendly_world "/org/bluez/hci0" true)
      nd0 = Some (false, nd', t) ∧
    ((None : option Z) = None →
     false = false ∧ reset nd' ∧
     releases t
     = [AShutdown 42; ADeleteGlobalRef 7; AFreePollData; AFreeWatchData] ∧
     blocking_calls t = [] ∧ added_matches t = [] ∧ APthreadCreate ∉ t).
Proof.
  apply (initializeNativeDataNative_then_start "org.bluez" 8
           (friendly_world "/org/bluez/hci0" true) None).
  lia.
Defined.

(** X16 with every call and removal failing. *)
Lemma tearDownEventLoop_goes_through_witness :
  ∃ t,
    tearDownEventLoop "org.bluez" starved_world (λ _, false) two_watches
    = t ++ [ARemoveFilter (Some 1)] ∧
    Did (AFlush (Some 1)) ∈ t ∧
    Did (AUnregisterObjectPath (Some 1) "/android/bluetooth/agent") ∈ t ∧
    removed_matches t = teardown_rules "org.bluez" ∧
    blocking_calls (done_actions t) = [].
Proof.
  apply (tearDownEventLoop_goes_through "org.bluez" starved_world (λ _, false)
           two_watches).
  by eexists.
Defined.

(** X17 with the base interface org.bluez. *)
Lemma tearDownEventLoop_leaves_match_rules_witness :
  sets_up "org.bluez" (friendly_world "/org/bluez/hci0" true) (conn idle_data)
  = true ∧
  added_matches
    (setUpEventLoop "org.bluez" (friendly_world "/org/bluez/hci0" true)
       idle_data).2
  = match_rules "org.bluez" ∧
  removed_matches
    (tearDownEventLoop "org.bluez" starved_world (λ _, true) two_watches)
  = teardown_rules "org.bluez" ∧
  list_difference (match_rules "org.bluez") (teardown_rules "org.bluez")
  = [ "type='signal',interface='org.bluez.Device'";
      "type='signal',interface='org.bluez.AudioSink'" ].
Proof.
  split; [reflexivity|].
  apply (tearDownEventLoop_leaves_match_rules "org.bluez"
           (friendly_world "/org/bluez/hci0" true) starved_world (λ _, true)
           idle_data two_watches);
    [discriminate | reflexivity | by eexists].
Defined.

(** X18 at a decoded ("Powered", "true") pair: only the cached adapter path
    differs afterwards. *)
Lemma event_filter_frame_witness :
  with_adapter two_watches (Some "/org/bluez/hci1")
  = with_adapter two_watches
      (adapter (with_adapter two_watches (Some "/org/bluez/hci1"))) ∧
  (dbus_message_is_signal
     (Signal "/org/bluez/hci0" "org.bluez.Adapter" "PropertyChanged" [])
     "org.bluez.Adapter" "PropertyChanged" = true ∨
   with_adapter two_watches (Some "/org/bluez/hci1") = two_watches).
Proof.
  eapply (event_filter_frame (λ _, None) (λ _, Some ["Powered"; "true"])
            (λ _, None) (λ _, (DBUS_HANDLER_RESULT_NOT_YET_HANDLED, []))
            (friendly_world "/org/bluez/hci1" true)
            (classInitNative BluetoothEventLoop_class)
            (Signal "/org/bluez/hci0" "org.bluez.Adapter" "PropertyChanged" [])
            two_watches).
  vm_compute. reflexivity.
Defined.

(** X19 at a decoded ("Powered", "true") pair: the one message on the bus
    is the blocking DefaultAdapter call. *)
Lemma event_filter_recognized_witness :
  ("org.bluez.Adapter", "PropertyChanged") ∈ recognized ∧
  ∃ r nd' t,
    event_filter (λ _, None) (λ _, Some ["Powered"; "true"]) (λ _, None)
      (λ _, (DBUS_HANDLER_RESULT_NOT_YET_HANDLED, []))
      (friendly_world "/org/bluez/hci1" true)
      (classInitNative BluetoothEventLoop_class)
      (Signal "/org/bluez/hci0" "org.bluez.Adapter" "PropertyChanged" [])
      two_watches
    = Some (r, nd', t) ∧
    r = DBUS_HANDLER_RESULT_HANDLED ∧ (length (calls t) ≤ 1)%nat ∧
    sends t = [] ∧ frees t = [] ∧
    (blocking_calls t = [] ∨
     ("org.bluez.Adapter" = "org.bluez.Adapter" ∧
      "PropertyChanged" = "PropertyChanged" ∧
      blocking_calls t = [DefaultAdapter])).
Proof.
  assert (("org.bluez.Adapter", "PropertyChanged") ∈ recognized) as Hin
    by (apply (bool_decide_unpack _); by vm_compute).
  split; [exact Hin|].
  eexists _, _, _. split; [vm_compute; reflexivity|].
  eapply (event_filter_recognized (λ _, None) (λ _, Some ["Powered"; "true"])
            (λ _, None) (λ _, (DBUS_HANDLER_RESULT_NOT_YET_HANDLED, []))
            (friendly_world "/org/bluez/hci1" true)
            (classInitNative BluetoothEventLoop_class)
            "/org/bluez/hci0" "org.bluez.Adapter" "PropertyChanged"
            [] two_watches _ _ _ Hin).
  vm_compute. reflexivity.
Defined.

(** X20 at a found device with two decoded properties. *)
Lemma event_filter_DeviceFound_witness :
  method_onDeviceFound (classInitNative BluetoothEventLoop_class)
  = Some (mk_method "onDeviceFound" "(Ljava/lang/String;[Ljava/lang/String;)V") ∧
  event_filter (λ _, Some ["Name"; "Phone"]) (λ _, None) (λ _, None)
    (λ _, (DBUS_HANDLER_RESULT_NOT_YET_HANDLED, []))
    starved_world (classInitNative BluetoothEventLoop_class)
    (Signal "/org/bluez/hci0" "org.bluez.Adapter" "DeviceFound"
       [ArgString "00:11:22:33:44:55"; ArgString "Name"])
    two_watches
  = Some (DBUS_HANDLER_RESULT_HANDLED, two_watches,
          [ALog LOGE "%s: Received signal %s:%s from %s";
           ACallMethod (Some 7)
             (mk_method "onDeviceFound"
                "(Ljava/lang/String;[Ljava/lang/String;)V")
             [JString "00:11:22:33:44:55"; JStringArray ["Name"; "Phone"]]]).
Proof.
  split; [reflexivity|].
  exact (proj1 (event_filter_DeviceFound (λ _, Some ["Name"; "Phone"])
                  (λ _, None) (λ _, None)
                  (λ _, (DBUS_HANDLER_RESULT_NOT_YET_HANDLED, []))
                  starved_world (classInitNative BluetoothEventLoop_class)
                  (mk_method "onDeviceFound"
                     "(Ljava/lang/String;[Ljava/lang/String;)V")
                  "/org/bluez/hci0"
                  [ArgString "00:11:22:33:44:55"; ArgString "Name"]
                  two_watches eq_refl)
           (ArgString "00:11:22:33:44:55") (ArgString "Name") []
           ["Name"; "Phone"] eq_refl eq_refl).
Defined.

(** X21 at a removed device. *)
Lemma event_filter_one_string_witness :
  ("DeviceRemoved", DBUS_TYPE_OBJECT_PATH,
   mk_method "onDeviceRemoved" "(Ljava/lang/String;)V") ∈ one_string_signals ∧
  mk_method "onDeviceRemoved" "(Ljava/lang/String;)V"
    ∈ BluetoothEventLoop_class ∧
  event_filter (λ _, None) (λ _, None) (λ _, None)
    (λ _, (DBUS_HANDLER_RESULT_NOT_YET_HANDLED, []))
    starved_world (classInitNative BluetoothEventLoop_class)
    (Signal "/org/bluez/hci0" "org.bluez.Adapter" "DeviceRemoved"
       [ArgObjectPath "/org/bluez/hci0/dev_00_11_22_33_44_55"])
    two_watches
  = Some (DBUS_HANDLER_RESULT_HANDLED, two_watches,
          [ALog LOGE "%s: Received signal %s:%s from %s";
           ALog LOGV "... Object Path = %s";
           ACallMethod (Some 7)
             (mk_method "onDeviceRemoved" "(Ljava/lang/String;)V")
             [JString "/org/bluez/hci0/dev_00_11_22_33_44_55"]]).
Proof.
  assert (("DeviceRemoved", DBUS_TYPE_OBJECT_PATH,
           mk_method "onDeviceRemoved" "(Ljava/lang/String;)V")
            ∈ one_string_signals) as Hin
    by (apply (bool_decide_unpack _); by vm_compute).
  assert (mk_method "onDeviceRemoved" "(Ljava/lang/String;)V"
            ∈ BluetoothEventLoop_class) as Hm
    by (apply (bool_decide_unpack _); by vm_compute).
  split; [exact Hin|]. split; [exact Hm|].
  exact (event_filter_one_string (λ _, None) (λ _, None) (λ _, None)
           (λ _, (DBUS_HANDLER_RESULT_NOT_YET_HANDLED, []))
           starved_world BluetoothEventLoop_class "DeviceRemoved"
           DBUS_TYPE_OBJECT_PATH
           (mk_method "onDeviceRemoved" "(Ljava/lang/String;)V")
           "/org/bluez/hci0"
           [ArgObjectPath "/org/bluez/hci0/dev_00_11_22_33_44_55"]
           two_watches Hin Hm).
Defined.

(** X22 at a signal of the bus daemon, which goes to the A2DP
    dispatcher. *)
Lemma event_filter_passes_on_witness :
  event_filter (λ _, None) (λ _, None) (λ _, None)
    (λ _, (DBUS_HANDLER_RESULT_NOT_YET_HANDLED, [ALog LOGV "a2dp"]))
    starved_world (classInitNative BluetoothEventLoop_class)
    (Signal "/org/freedesktop/DBus" "org.freedesktop.DBus" "NameOwnerChanged" [])
    two_watches
  = Some (DBUS_HANDLER_RESULT_NOT_YET_HANDLED, two_watches,
          [ALog LOGE "%s: Received signal %s:%s from %s"; ALog LOGV "a2dp"]).
Proof.
  apply (event_filter_passes_on (λ _, None) (λ _, None) (λ _, None)
           (λ _, (DBUS_HANDLER_RESULT_NOT_YET_HANDLED, [ALog LOGV "a2dp"]))
           starved_world (classInitNative BluetoothEventLoop_class)
           (Signal "/org/freedesktop/DBus" "org.freedesktop.DBus"
              "NameOwnerChanged" [])
           two_watches).
  intros path interface member args [= <- <- <- <-] Hin.
  apply (bool_decide_pack _) in Hin. by vm_compute in Hin.
Defined.

(** X23 at a refused authorization. *)
Lemma agent_event_filter_replies_witness :
  ∃ r t,
    agent_event_filter (friendly_world "/org/bluez/hci0" false)
      (classInitNative BluetoothEventLoop_class)
      (MethodCall "/android/bluetooth/agent" (Some "org.bluez.Agent") "Authorize"
         [ArgObjectPath "/org/bluez/hci0/dev_00_11_22_33_44_55";
          ArgString "00001101-0000-1000-8000-00805f9b34fb"])
      (Some two_watches)
    = Some (r, t) ∧
    (length (sends t) ≤ 1)%nat ∧ (length (calls t) ≤ 1)%nat ∧ frees t = [] ∧
    ∀ c reply, (c, reply) ∈ sends t →
      r = DBUS_HANDLER_RESULT_HANDLED ∧ Some c = conn <$> Some two_watches ∧
      reply ∈ [NewMethodReturn
                 (MethodCall "/android/bluetooth/agent" (Some "org.bluez.Agent")
                    "Authorize"
                    [ArgObjectPath "/org/bluez/hci0/dev_00_11_22_33_44_55";
                     ArgString "00001101-0000-1000-8000-00805f9b34fb"]);
               NewError
                 (MethodCall "/android/bluetooth/agent" (Some "org.bluez.Agent")
                    "Authorize"
                    [ArgObjectPath "/org/bluez/hci0/dev_00_11_22_33_44_55";
                     ArgString "00001101-0000-1000-8000-00805f9b34fb"])
                 "org.bluez.Error.Rejected" "Authorization rejected"].
Proof.
  eexists _, _. split; [vm_compute; reflexivity|].
  eapply (agent_event_filter_replies (friendly_world "/org/bluez/hci0" false)
            (classInitNative BluetoothEventLoop_class)
            (MethodCall "/android/bluetooth/agent" (Some "org.bluez.Agent")
               "Authorize"
               [ArgObjectPath "/org/bluez/hci0/dev_00_11_22_33_44_55";
                ArgString "00001101-0000-1000-8000-00805f9b34fb"])
            (Some two_watches)).
  vm_compute. reflexivity.
Defined.

(** X24 at a Release: the reply is sent, the application is not called. *)
Lemma agent_event_filter_cancel_release_witness :
  mk_method "onAgentCancel" "()V" ∈ BluetoothEventLoop_class ∧
  agent_event_filter (friendly_world "/org/bluez/hci0" true)
    (classInitNative BluetoothEventLoop_class)
    (MethodCall "/android/bluetooth/agent" (Some "org.bluez.Agent") "Release" [])
    (Some two_watches)
  = Some (DBUS_HANDLER_RESULT_HANDLED,
          [ALog LOGI "%s: Received method %s:%s";
           ASend (Some 1)
             (NewMethodReturn
                (MethodCall "/android/bluetooth/agent" (Some "org.bluez.Agent")
                   "Release" []))]).
Proof.
  assert (mk_method "onAgentCancel" "()V" ∈ BluetoothEventLoop_class) as Hm
    by (apply (bool_decide_unpack _); by vm_compute).
  split; [exact Hm|].
  apply (agent_event_filter_cancel_release
           (friendly_world "/org/bluez/hci0" true) BluetoothEventLoop_class
           "/android/bluetooth/agent" [] two_watches Hm "Release").
  apply (bool_decide_unpack _). by vm_compute.
Defined.

(** X25 at a PIN request for a device. *)
Lemma agent_event_filter_RequestPinCode_witness :
  mk_method "onRequestPinCode" "(Ljava/lang/String;I)V"
    ∈ BluetoothEventLoop_class ∧
  agent_event_filter starved_world (classInitNative BluetoothEventLoop_class)
    (MethodCall "/android/bluetooth/agent" (Some "org.bluez.Agent")
       "RequestPinCode" [ArgObjectPath "/org/bluez/hci0/dev_00_11_22_33_44_55"])
    (Some two_watches)
  = Some (DBUS_HANDLER_RESULT_HANDLED,
          [ALog LOGI "%s: Received method %s:%s";
           AMessageRef
             (MethodCall "/android/bluetooth/agent" (Some "org.bluez.Agent")
                "RequestPinCode"
                [ArgObjectPath "/org/bluez/hci0/dev_00_11_22_33_44_55"]);
           ACallMethod (Some 7)
             (mk_method "onRequestPinCode" "(Ljava/lang/String;I)V")
             [JString "/org/bluez/hci0/dev_00_11_22_33_44_55";
              JMessage
                (MethodCall "/android/bluetooth/agent" (Some "org.bluez.Agent")
                   "RequestPinCode"
                   [ArgObjectPath "/org/bluez/hci0/dev_00_11_22_33_44_55"])]]).
Proof.
  assert (mk_method "onRequestPinCode" "(Ljava/lang/String;I)V"
            ∈ BluetoothEventLoop_class) as Hm
    by (apply (bool_decide_unpack _); by vm_compute).
  split; [exact Hm|].
  exact (agent_event_filter_RequestPinCode starved_world
           BluetoothEventLoop_class "/android/bluetooth/agent"
           [ArgObjectPath "/org/bluez/hci0/dev_00_11_22_33_44_55"]
           two_watches Hm).
Defined.

(** X26 at a method the agent does not answer. *)
Lemma agent_event_filter_declines_witness :
  ∃ t,
    agent_event_filter starved_world (classInitNative BluetoothEventLoop_class)
      (MethodCall "/android/bluetooth/agent" (Some "org.bluez.Agent")
         "RequestConfirmation" [])
      (Some two_watches)
    = Some (DBUS_HANDLER_RESULT_NOT_YET_HANDLED, t) ∧
    calls t = [] ∧ sends t = [] ∧
    Forall (λ a, a ≠ AMessageRef
                       (MethodCall "/android/bluetooth/agent"
                          (Some "org.bluez.Agent") "RequestConfirmation" [])) t.
Proof.
  apply (agent_event_filter_declines starved_world
           (classInitNative BluetoothEventLoop_class)
           (MethodCall "/android/bluetooth/agent" (Some "org.bluez.Agent")
              "RequestConfirmation" [])
           two_watches).
  left. intros Hin. apply (bool_decide_pack _) in Hin. by vm_compute in Hin.
Defined.

(** Without a thread the start still returns true and the loop counts as
    running; the thread field holds no thread. *)
Example start_true_without_thread :
  (λ r, (r.1.1, isEventLoopRunningNative r.1.2, thread r.1.2)) <$>
    startEventLoopNative "org.bluez" 8 threadless_world idle_data
  = Some (true, true, None).
Proof. reflexivity. Qed.

(** A start that fails at the second buffer frees the first. *)
Example start_frees_first_buffer :
  (λ r, (r.1.1, releases r.2)) <$>
    startEventLoopNative "org.bluez" 8
      {| dbus_message_new := λ _, true;
         dbus_connection_send_with_reply_and_block := λ _, None;
         onAgentAuthorize := λ _ _, true;
         malloc_pollData := Block (λ _, mk_pollfd 0 0 0);
         malloc_watchData := OutOfMemory;
         socketpair := None;
         NewGlobalRef := None;
         dbus_connection_add_filter := true;
         dbus_bus_add_match := λ _, true;
         dbus_connection_register_object_path := true;
         pthread_create := NoThread None |}
      idle_data
  = Some (false, [AFreePollData]).
Proof. reflexivity. Qed.

(** Stop on the sample loop: the EXIT byte, the join, then the global
    reference, the buffers and the write end of the socket pair. *)
Example stop_sample_loop :
  (stopEventLoopNative two_watches two_watches).2
  = [Did AMutexLock; Did (AWrite 42 (CtlChar EVENT_LOOP_EXIT));
     APthreadJoin (Some 3); Did (ADeleteGlobalRef 7); Did AFreePollData;
     Did AFreeWatchData; Did (AShutdown 42); Did AMutexUnlock].
Proof. reflexivity. Qed.

(** Growing the watch set frees the two old buffers. *)
Example growth_frees_old_buffers :
  (λ r, releases r.2) <$>
    handleWatchAdd two_watches 50 DBUS_WATCH_WRITABLE 9002
      (Block (λ _, mk_pollfd 0 0 0)) (Block (λ _, 0))
  = Some [AFreePollData; AFreeWatchData].
Proof. reflexivity. Qed.
